(** * pandas.io.stata: a shallow embedding of the Stata .dta codec

  The definitions below follow [pandas/io/stata.py]: the byte-level
  [struct] reads, the missing-value tables of [StataMissingValue] and
  [StataParser], the date conversions, the writer-side casts and name
  checks, and the reader's header and data methods. *)

From Stdlib Require Import ZArith List Lia Bool Ascii String.
From stdpp Require Import gmap strings list pretty.

Local Open Scope Z_scope.

(** ** Python exceptions

  The module raises [ValueError] and plain [Exception]; the interpreter
  contributes [KeyError], [TypeError], [AttributeError], [IndexError],
  [OverflowError] and [struct.error].  An exception carries its message. *)

Inductive exn : Type :=
| ValueError (msg : string)
| PyException (msg : string)
| KeyError
| TypeError (msg : string)
| AttributeError (msg : string)
| IndexError
| OverflowError
| StructError.

(** The outcome of a call: a value, an exception, or [OutOfFuel] when a
  [while] loop of the model was cut off before the loop of the program
  ended; the loops below are given fuel that they never exhaust. *)
Inductive result (A : Type) : Type :=
| Ok (a : A)
| Raise (e : exn)
| OutOfFuel.
Arguments Ok {A} a.
Arguments Raise {A} e.
Arguments OutOfFuel {A}.

Definition rbind {A B} (r : result A) (k : A -> result B) : result B :=
match r with
| Ok a => k a
| Raise e => Raise e
| OutOfFuel => OutOfFuel
end.

Definition from_result {A} (d : A) (r : result A) : A :=
match r with
| Ok a => a
| _ => d
end.

Fixpoint rmapM {A B} (f : A -> result B) (l : list A) : result (list B) :=
match l with
| [] => Ok []
| a :: l' => rbind (f a) (fun b => rbind (rmapM f l') (fun bs => Ok (b :: bs)))
end.

(** ** The [struct] module on byte strings

  A byte is a [Z] in [0, 256); a byte string is a list of bytes. *)

Module Struct.

Definition bytes := list Z.

(** Byte order character of a format: ['<'] or ['>']. *)
Inductive byteorder := LittleEndian | BigEndian.

Fixpoint le_value (bs : bytes) : Z :=
  match bs with
  | [] => 0
  | b :: bs' => b + 256 * le_value bs'
  end.

Definition be_value (bs : bytes) : Z := le_value (rev bs).

Definition value (bo : byteorder) (bs : bytes) : Z :=
  match bo with
  | LittleEndian => le_value bs
  | BigEndian => be_value bs
  end.

Fixpoint le_bytes (n : nat) (v : Z) : bytes :=
  match n with
  | O => []
  | S n' => (v mod 256) :: le_bytes n' (v / 256)
  end.

Definition to_bytes (bo : byteorder) (n : nat) (v : Z) : bytes :=
  match bo with
  | LittleEndian => le_bytes n v
  | BigEndian => rev (le_bytes n v)
  end.

(** Two's complement reading of a [w]-bit unsigned value. *)
Definition to_signed (w : Z) (v : Z) : Z :=
  if v <? 2 ^ (w - 1) then v else v - 2 ^ w.

(** [struct.unpack(bo + code, bs)[0]] for an unsigned code of [n] bytes;
    a buffer of the wrong size is a [struct.error]. *)
Definition unpack_unsigned (bo : byteorder) (n : nat) (bs : bytes) : result Z :=
  if Nat.eqb (length bs) n then Ok (value bo bs) else Raise StructError.

Definition unpack_signed (bo : byteorder) (n : nat) (bs : bytes) : result Z :=
  if Nat.eqb (length bs) n
  then Ok (to_signed (8 * Z.of_nat n) (value bo bs))
  else Raise StructError.

(** [struct.pack(bo + code, v)] for a signed code of [n] bytes. *)
Definition pack_signed (bo : byteorder) (n : nat) (v : Z) : result bytes :=
  let w := 8 * Z.of_nat n in
  if (- 2 ^ (w - 1) <=? v) && (v <? 2 ^ (w - 1))
  then Ok (to_bytes bo n (v mod 2 ^ w))
  else Raise StructError.

(** The codes used by the module. *)
Definition unpack_b := unpack_signed LittleEndian 1.
Definition unpack_H bo := unpack_unsigned bo 2.
Definition unpack_h bo := unpack_signed bo 2.
Definition unpack_I bo := unpack_unsigned bo 4.
Definition unpack_i bo := unpack_signed bo 4.
Definition unpack_q bo := unpack_signed bo 8.
Definition pack_i bo := pack_signed bo 4.
Definition pack_q bo := pack_signed bo 8.

(** A format without a byte-order character uses the byte order of the
    host; the tables below are built on a little-endian host, as the
    byte strings in the docstring of [StataMissingValue] are. *)
Definition native : byteorder := LittleEndian.

End Struct.

(** ** IEEE 754 binary formats

  A floating-point number is kept as its bit pattern, a [Z] below
  [2 ^ width]; its value is a dyadic rational. *)

Module Float.

Record format := { mbits : Z; ebits : Z }.

Definition binary32 : format := {| mbits := 23; ebits := 8 |}.
Definition binary64 : format := {| mbits := 52; ebits := 11 |}.

Definition width (f : format) : Z := mbits f + ebits f + 1.
Definition bias (f : format) : Z := 2 ^ (ebits f - 1) - 1.
Definition emin (f : format) : Z := 1 - bias f.
Definition emax_field (f : format) : Z := 2 ^ ebits f - 1.

Definition sign_bit (f : format) (b : Z) : bool := Z.testbit b (mbits f + ebits f).
Definition exp_field (f : format) (b : Z) : Z := (b / 2 ^ mbits f) mod 2 ^ ebits f.
Definition man_field (f : format) (b : Z) : Z := b mod 2 ^ mbits f.

Definition is_nan (f : format) (b : Z) : bool :=
  (exp_field f b =? emax_field f) && negb (man_field f b =? 0).

Definition is_inf (f : format) (b : Z) : bool :=
  (exp_field f b =? emax_field f) && (man_field f b =? 0).

Definition is_finite (f : format) (b : Z) : bool :=
  negb (exp_field f b =? emax_field f).

(** The value of a finite pattern is [fst * 2 ^ snd]. *)
Definition finite_value (f : format) (b : Z) : Z * Z :=
  let m := if exp_field f b =? 0 then man_field f b
           else 2 ^ mbits f + man_field f b in
  let e := (if exp_field f b =? 0 then 1 else exp_field f b) - bias f - mbits f in
  ((if sign_bit f b then - m else m), e).

(** [floor (log2 (a / d))] for positive [a] and [d]. *)
Definition floor_log2_Q (a d : Z) : Z :=
  let e0 := Z.log2 a - Z.log2 d in
  if 0 <=? e0
  then (if d * 2 ^ e0 <=? a then e0 else e0 - 1)
  else (if d <=? a * 2 ^ (- e0) then e0 else e0 - 1).

(** Magnitude bits of the rational [a / d] ([a >= 0], [d > 0]), rounded to
    nearest, ties to even; overflow gives the pattern of infinity. *)
Definition round_mag (f : format) (a d : Z) : Z :=
  if a =? 0 then 0 else
  let e := Z.max (floor_log2_Q a d) (emin f) in
  let k := mbits f - e in
  let num := if 0 <=? k then a * 2 ^ k else a in
  let den := if 0 <=? k then d else d * 2 ^ (- k) in
  let q := num / den in
  let r := num mod den in
  let q' := if (den <? 2 * r) || ((den =? 2 * r) && Z.odd q) then q + 1 else q in
  Z.min ((e - emin f) * 2 ^ mbits f + q') (emax_field f * 2 ^ mbits f).

(** The pattern nearest to the rational [n / d], [d > 0]. *)
Definition of_Q (f : format) (n d : Z) : Z :=
  (if n <? 0 then 2 ^ (mbits f + ebits f) else 0) + round_mag f (Z.abs n) d.

Definition of_Z (f : format) (n : Z) : Z := of_Q f n 1.

(** The pattern nearest to [m * 2 ^ e]. *)
Definition of_dyadic (f : format) (v : Z * Z) : Z :=
  let '(m, e) := v in
  if 0 <=? e then of_Q f (m * 2 ^ e) 1 else of_Q f m (2 ^ (- e)).

Definition nan (f : format) : Z :=
  emax_field f * 2 ^ mbits f + 2 ^ (mbits f - 1).

(** Ordering of two patterns as numbers; a comparison with NaN is false. *)
Definition key (f : format) (b : Z) : Z :=
  let mag := b mod 2 ^ (mbits f + ebits f) in
  if sign_bit f b then - mag else mag.

Definition ltb (f : format) (x y : Z) : bool :=
  negb (is_nan f x) && negb (is_nan f y) && (key f x <? key f y).

Definition leb (f : format) (x y : Z) : bool :=
  negb (is_nan f x) && negb (is_nan f y) && (key f x <=? key f y).

Definition inf (f : format) (negative : bool) : Z :=
  (if negative then 2 ^ (mbits f + ebits f) else 0) + emax_field f * 2 ^ mbits f.

(** [x / y], correctly rounded. *)
Definition div (f : format) (x y : Z) : Z :=
  if is_nan f x || is_nan f y then nan f
  else if is_finite f x && is_finite f y then
    let '(mx, ex) := finite_value f x in
    let '(my, ey) := finite_value f y in
    if my =? 0 then (if mx =? 0 then nan f else inf f (xorb (sign_bit f x) (sign_bit f y)))
    else of_Q f (Z.sgn my * mx * 2 ^ Z.max 0 (ex - ey)) (Z.abs my * 2 ^ Z.max 0 (ey - ex))
  else if is_finite f y then inf f (xorb (sign_bit f x) (sign_bit f y))
  else if is_finite f x then 0
  else nan f.

Definition min_int64 : Z := - 2 ^ 63.
Definition max_int64 : Z := 2 ^ 63 - 1.

(** [astype(np.int64)] of a float: the C conversion truncates towards
    zero; for NaN, the infinities and values outside the int64 range the
    x86-64 conversion gives the smallest int64. *)
Definition to_int64 (f : format) (b : Z) : Z :=
  if is_finite f b then
    let '(m, e) := finite_value f b in
    let t := if 0 <=? e then m * 2 ^ e else Z.quot m (2 ^ (- e)) in
    if (min_int64 <=? t) && (t <=? max_int64) then t else min_int64
  else min_int64.

End Float.

(** ** Python numbers as dictionary keys

  [StataMissingValue.MISSING_VALUES] has [int] and [float] keys in one
  dictionary, and is looked up with numpy scalars of five kinds.  Python
  hashes and compares all of them by numeric value, so a key is the exact
  value, a dyadic rational [m * 2 ^ e] in lowest terms ([m] odd, or
  [(0, 0)] for zero). *)

Module PyNum.

(** A Python [float] is a binary64. *)
Inductive t := PyInt (z : Z) | PyFloat (bits : Z).

Definition normalize (v : Z * Z) : Z * Z :=
  let '(m, e) := v in
  if m =? 0 then (0, 0)
  else let tz := Z.log2 (Z.land m (- m)) in (m / 2 ^ tz, e + tz).

(** The infinities and NaN are no dyadic rationals; they get the pairs
    [(0, 1)], [(0, 2)] and [(0, 3)], which no finite number has. *)
Definition float_key (f : Float.format) (b : Z) : Z * Z :=
  if Float.is_finite f b then normalize (Float.finite_value f b)
  else if Float.is_nan f b then (0, 3)
  else if Float.sign_bit f b then (0, 2) else (0, 1).

Definition key (x : t) : Z * Z :=
  match x with
  | PyInt z => normalize (z, 0)
  | PyFloat b => float_key Float.binary64 b
  end.

(** [struct.unpack('<f', bs)[0]] and [struct.unpack('<d', bs)[0]]: the
    float32 is widened to a Python float, which is exact. *)
Definition widen (b32 : Z) : Z :=
  if Float.is_finite Float.binary32 b32
  then Float.of_dyadic Float.binary64 (Float.finite_value Float.binary32 b32)
  else (if Float.sign_bit Float.binary32 b32 then 2 ^ 63 else 0)
       + Float.emax_field Float.binary64 * 2 ^ 52
       + Float.man_field Float.binary32 b32 * 2 ^ 29.

Definition unpack_f (bo : Struct.byteorder) (bs : Struct.bytes) : result Z :=
  rbind (Struct.unpack_unsigned bo 4 bs) (fun b32 => Ok (widen b32)).

Definition unpack_d (bo : Struct.byteorder) (bs : Struct.bytes) : result Z :=
  Struct.unpack_unsigned bo 8 bs.

(** [struct.pack('<f', x)]: rounds to binary32; a finite [x] that rounds
    to infinity is an [OverflowError]. *)
Definition narrow (b64 : Z) : result Z :=
  if Float.is_finite Float.binary64 b64 then
    let b32 := Float.of_dyadic Float.binary32 (Float.finite_value Float.binary64 b64) in
    if Float.is_finite Float.binary32 b32 then Ok b32 else Raise OverflowError
  else Ok ((if Float.sign_bit Float.binary64 b64 then 2 ^ 31 else 0)
           + Float.emax_field Float.binary32 * 2 ^ 23
           + Float.man_field Float.binary64 b64 / 2 ^ 29).

Definition pack_f (bo : Struct.byteorder) (x : Z) : result Struct.bytes :=
  rbind (narrow x) (fun b32 => Ok (Struct.to_bytes bo 4 b32)).

Definition pack_d (bo : Struct.byteorder) (x : Z) : result Struct.bytes :=
  Ok (Struct.to_bytes bo 8 x).

End PyNum.

(** ** [StataMissingValue]: the table of missing values *)

Module StataMissingValue.

Import Struct PyNum.

(** [chr(n)] for a code below 256. *)
Definition chr (n : Z) : string := String (Ascii.ascii_of_N (Z.to_N n)) EmptyString.

(** [range(a, b)]. *)
Definition range (a b : Z) : list Z :=
  map (fun i => a + Z.of_nat i) (seq 0 (Z.to_nat (b - a))).

(** [for b in bases: ...], the integer part of the table. *)
Definition bases : list Z := [101; 32741; 2147483621].

Definition int_loop (d : gmap (Z * Z) string) : gmap (Z * Z) string :=
  fold_left
    (fun d b =>
       let d := <[ key (PyInt b) := "." ]> d in
       fold_left
         (fun d i => <[ key (PyInt (i + b)) := "." +:+ chr (96 + i) ]> d)
         (range 1 27) d)
    bases d.

(** The state of the two floating-point loops: the byte string [base] and
    the dictionary. *)
Definition loop_state : Type := bytes * gmap (Z * Z) string.

(** The label stored at iteration [i]: ['.'], then [+= chr(96 + i)]. *)
Definition label (i : Z) : string :=
  if 0 <? i then "." +:+ chr (96 + i) else ".".

Definition float32_base : bytes := [0; 0; 0; 127].
Definition float32_increment : result Z := unpack_i LittleEndian [0; 8; 0; 0].

Definition float32_body (increment : Z) (st : loop_state) (i : Z) : result loop_state :=
  let '(base, d) := st in
  rbind (unpack_f LittleEndian base) (fun value =>
  let d := <[ key (PyFloat value) := label i ]> d in
  rbind (pack_f LittleEndian value) (fun packed =>
  rbind (unpack_i LittleEndian packed) (fun v =>
  let int_value := v + increment in
  rbind (pack_i LittleEndian int_value) (fun base' =>
  Ok (base', d))))).

Definition float64_base : bytes := [0; 0; 0; 0; 0; 0; 224; 127].
Definition float64_increment : result Z := unpack_q native [0; 0; 0; 0; 0; 1; 0; 0].

Definition float64_body (increment : Z) (st : loop_state) (i : Z) : result loop_state :=
  let '(base, d) := st in
  rbind (unpack_d LittleEndian base) (fun value =>
  let d := <[ key (PyFloat value) := label i ]> d in
  rbind (pack_d LittleEndian value) (fun packed =>
  rbind (unpack_q native packed) (fun v =>
  let int_value := v + increment in
  rbind (pack_q native int_value) (fun base' =>
  Ok (base', d))))).

(** [for i in range(n): st = body(st, i)], stopping at the first exception. *)
Fixpoint for_range {St} (body : St -> Z -> result St) (idx : list Z) (st : St)
  : result St :=
  match idx with
  | [] => Ok st
  | i :: idx' => rbind (body st i) (for_range body idx')
  end.

(** The first [n] iterations of each loop. *)
Definition float32_loop (n : Z) (d : gmap (Z * Z) string) : result loop_state :=
  rbind float32_increment (fun inc =>
  for_range (float32_body inc) (range 0 n) (float32_base, d)).

Definition float64_loop (n : Z) (d : gmap (Z * Z) string) : result loop_state :=
  rbind float64_increment (fun inc =>
  for_range (float64_body inc) (range 0 n) (float64_base, d)).

(** The class attribute, after the three loops. *)
Definition MISSING_VALUES_build : result (gmap (Z * Z) string) :=
  rbind (float32_loop 27 (int_loop ∅)) (fun st32 =>
  rbind (float64_loop 27 (snd st32)) (fun st64 =>
  Ok (snd st64))).

Definition MISSING_VALUES : gmap (Z * Z) string :=
  from_result (gmap_empty (A := string)) MISSING_VALUES_build.

(** [StataMissingValue(value)]: the constructor looks the value up. *)
Record t := { value : PyNum.t; string_ : string }.

Definition __init__ (v : PyNum.t) : result t :=
  match MISSING_VALUES !! key v with
  | Some s => Ok {| value := v; string_ := s |}
  | None => Raise KeyError
  end.

End StataMissingValue.

(** ** Calendar arithmetic of [datetime] and [datetime64[ns]]

  Python's [datetime] counts days in the proleptic Gregorian calendar
  (ordinal 1 is 0001-01-01); a [datetime64[ns]] is an int64 count of
  nanoseconds since 1970-01-01, with the smallest int64 for [NaT]. *)

Module Calendar.

Definition is_leap (y : Z) : bool :=
  (y mod 4 =? 0) && (negb (y mod 100 =? 0) || (y mod 400 =? 0)).

Definition days_before_year (y : Z) : Z :=
  let y1 := y - 1 in y1 * 365 + y1 / 4 - y1 / 100 + y1 / 400.

Definition days_in_month (y m : Z) : Z :=
  if m =? 2 then (if is_leap y then 29 else 28)
  else if (m =? 4) || (m =? 6) || (m =? 9) || (m =? 11) then 30 else 31.

(** [_DAYS_BEFORE_MONTH[m]], for a common year. *)
Definition DAYS_BEFORE_MONTH (m : Z) : Z :=
  nth (Z.to_nat m) [0; 0; 31; 59; 90; 120; 151; 181; 212; 243; 273; 304; 334] 0.

Definition days_before_month (y m : Z) : Z :=
  DAYS_BEFORE_MONTH m + (if (2 <? m) && is_leap y then 1 else 0).

Definition ymd2ord (y m d : Z) : Z :=
  days_before_year y + days_before_month y m + d.

Definition ord2ymd (n0 : Z) : Z * Z * Z :=
  let n := n0 - 1 in
  let n400 := n / 146097 in
  let n := n mod 146097 in
  let n100 := n / 36524 in
  let n := n mod 36524 in
  let n4 := n / 1461 in
  let n := n mod 1461 in
  let n1 := n / 365 in
  let n := n mod 365 in
  let year := n400 * 400 + 1 + n100 * 100 + n4 * 4 + n1 in
  if (n1 =? 4) || (n100 =? 4) then (year - 1, 12, 31)
  else
    let leapyear := (n1 =? 3) && (negb (n4 =? 24) || (n100 =? 3)) in
    let month := Z.shiftr (n + 50) 5 in
    let preceding :=
      DAYS_BEFORE_MONTH month + (if (2 <? month) && leapyear then 1 else 0) in
    if n <? preceding
    then
      let month := month - 1 in
      let preceding :=
        preceding - (nth (Z.to_nat month) [0; 31; 28; 31; 30; 31; 30; 31; 31; 30; 31; 30; 31] 0
                     + (if (month =? 2) && leapyear then 1 else 0)) in
      (year, month, n - preceding + 1)
    else (year, month, n - preceding + 1).

Definition valid_date (y m d : Z) : bool :=
  (1 <=? y) && (y <=? 9999) && (1 <=? m) && (m <=? 12)
  && (1 <=? d) && (d <=? days_in_month y m).

Definition NS_PER_DAY : Z := 24 * 3600 * 1000 * 1000 * 1000.
Definition US_PER_DAY : Z := NS_PER_DAY / 1000.

(** [datetime.datetime]. *)
Record datetime := {
  year : Z; month : Z; day : Z;
  hour : Z; minute : Z; second : Z; microsecond : Z
}.

Definition datetime_eqb (a b : datetime) : bool :=
  (year a =? year b) && (month a =? month b) && (day a =? day b)
  && (hour a =? hour b) && (minute a =? minute b) && (second a =? second b)
  && (microsecond a =? microsecond b).

(** The constructor checks its fields ([ValueError] otherwise). *)
Definition valid_datetime (x : datetime) : bool :=
  valid_date (year x) (month x) (day x)
  && (0 <=? hour x) && (hour x <? 24) && (0 <=? minute x) && (minute x <? 60)
  && (0 <=? second x) && (second x <? 60)
  && (0 <=? microsecond x) && (microsecond x <? 1000000).

Definition mk_date (y m d : Z) : datetime :=
  {| year := y; month := m; day := d; hour := 0; minute := 0; second := 0;
     microsecond := 0 |}.

Definition make_datetime (y m d : Z) : result datetime :=
  if valid_date y m d then Ok (mk_date y m d)
  else Raise (ValueError "year is out of range").

Definition toordinal (x : datetime) : Z := ymd2ord (year x) (month x) (day x).

(** Microseconds since midnight. *)
Definition time_us (x : datetime) : Z :=
  ((hour x * 60 + minute x) * 60 + second x) * 1000000 + microsecond x.

(** [timedelta]: normalised [days], [seconds] in [0, 86400) and
    [microseconds] in [0, 10^6). *)
Record timedelta := { days : Z; seconds : Z; microseconds : Z }.

Definition timedelta_of_us (us : Z) : timedelta :=
  {| days := us / US_PER_DAY;
     seconds := (us mod US_PER_DAY) / 1000000;
     microseconds := us mod 1000000 |}.

(** [a - b] on datetimes. *)
Definition sub (a b : datetime) : timedelta :=
  timedelta_of_us ((toordinal a - toordinal b) * US_PER_DAY + time_us a - time_us b).

(** The datetime [us] microseconds after midnight of ordinal day [ord];
    outside years 1 to 9999 the sum is an [OverflowError]. *)
Definition of_ordinal_us (ord us : Z) : result datetime :=
  let n := ord + us / US_PER_DAY in
  let t := us mod US_PER_DAY in
  if (1 <=? n) && (n <=? 3652059) then
    let '(y, m, d) := ord2ymd n in
    Ok {| year := y; month := m; day := d;
          hour := t / 3600000000; minute := (t / 60000000) mod 60;
          second := (t / 1000000) mod 60; microsecond := t mod 1000000 |}
  else Raise OverflowError.

(** [base + relativedelta(days=d)] and
    [base + relativedelta(microseconds=us)]. *)
Definition add_days (base : datetime) (d : Z) : result datetime :=
  of_ordinal_us (toordinal base + d) (time_us base).

Definition add_microseconds (base : datetime) (us : Z) : result datetime :=
  of_ordinal_us (toordinal base) (time_us base + us).

(** *** [datetime64[ns]] *)

Definition wrap64 (z : Z) : Z := (z + 2 ^ 63) mod 2 ^ 64 - 2 ^ 63.

Definition NaT : Z := - 2 ^ 63.

Definition unix_epoch_ordinal : Z := ymd2ord 1970 1 1.

(** [to_datetime(x)] of a [datetime] in the range of [Timestamp]. *)
Definition to_datetime64 (x : datetime) : Z :=
  (toordinal x - unix_epoch_ordinal) * NS_PER_DAY + time_us x * 1000.

(** The fields of a [datetime64[ns]] value, as [DatetimeIndex] gives them. *)
Definition dt64_ordinal (ns : Z) : Z := ns / NS_PER_DAY + unix_epoch_ordinal.
Definition dt64_year (ns : Z) : Z := fst (fst (ord2ymd (dt64_ordinal ns))).
Definition dt64_month (ns : Z) : Z := snd (fst (ord2ymd (dt64_ordinal ns))).
Definition dt64_day (ns : Z) : Z := snd (ord2ymd (dt64_ordinal ns)).

(** [to_datetime(year, format='%Y')] and
    [to_datetime(100 * year + month, format='%Y%m')] as [datetime64[ns]]. *)
Definition dt64_of_ym (y m : Z) : Z :=
  (ymd2ord y m 1 - unix_epoch_ordinal) * NS_PER_DAY.

(** [Timestamp.min] and [Timestamp.max] are the extreme int64 values:
    1677-09-21 00:12:43.145 and 2262-04-11 23:47:16.854. *)
Definition Timestamp_min : Z := - (2 ^ 63 - 1).
Definition Timestamp_max : Z := 2 ^ 63 - 1.

End Calendar.

(** ** Columns

  A pandas [Series] is a list of cells of one dtype.  Integer cells are
  [Z]; float cells are bit patterns; a [datetime64[ns]] cell is an int64;
  an [object] cell holds any Python value. *)

Inductive obj : Type :=
| ONone
| ONaT
| ODatetime (x : Calendar.datetime)
| ONum (x : PyNum.t)
| OStr (s : string)
| OMissing (m : StataMissingValue.t).

Inductive dtype : Type :=
| bool_ | uint8 | uint16 | uint32
| int8 | int16 | int32 | int64
| float32 | float64
| datetime64 | object_.

Definition dtype_eqb (a b : dtype) : bool :=
match a, b with
| bool_, bool_ | uint8, uint8 | uint16, uint16 | uint32, uint32
| int8, int8 | int16, int16 | int32, int32 | int64, int64
| float32, float32 | float64, float64
| datetime64, datetime64 | object_, object_ => true
| _, _ => false
end.

Inductive series : Type :=
| IntSeries (dt : dtype) (v : list Z)
| Float32 (v : list Z)
| Float64 (v : list Z)
| Datetime64 (v : list Z)
| Object_ (v : list obj).

(** [s.max()] and [s.min()] of integers: pandas answers NaN for an empty
  column, and every comparison with NaN is false. *)
Definition series_max (v : list Z) : option Z :=
match v with
| [] => None
| x :: v' => Some (fold_left Z.max v' x)
end.

Definition series_min (v : list Z) : option Z :=
match v with
| [] => None
| x :: v' => Some (fold_left Z.min v' x)
end.

Definition opt_ltb (o : option Z) (c : Z) : bool :=
match o with Some x => x <? c | None => false end.
Definition opt_gtb (o : option Z) (c : Z) : bool :=
match o with Some x => c <? x | None => false end.
Definition opt_leb (o : option Z) (c : Z) : bool :=
match o with Some x => x <=? c | None => false end.
Definition opt_geb (o : option Z) (c : Z) : bool :=
match o with Some x => c <=? x | None => false end.

(** [fmt in [...]]. *)
Definition fmt_in (fmt : string) (l : list string) : bool :=
existsb (String.eqb fmt) l.

(** [col[mask] = x]. *)
Fixpoint mask_set {A} (mask : list bool) (x : A) (col : list A) : list A :=
match mask, col with
| b :: mask', c :: col' => (if b then x else c) :: mask_set mask' x col'
| _, _ => col
end.

(** ** The date codec *)

Module StataDates.

Import Calendar.

Definition _date_formats : list string :=
  ["%tc"; "%tC"; "%td"; "%d"; "%tw"; "%tm"; "%tq"; "%th"; "%ty"].

Definition stata_epoch : datetime := mk_date 1960 1 1.

Definition MIN_YEAR : Z := dt64_year Timestamp_min.
Definition MAX_YEAR : Z := dt64_year Timestamp_max.
Definition MAX_DAY_DELTA : Z := (Timestamp_max - to_datetime64 stata_epoch) / NS_PER_DAY.
Definition MIN_DAY_DELTA : Z := (Timestamp_min - to_datetime64 stata_epoch) / NS_PER_DAY.
Definition MIN_MS_DELTA : Z := MIN_DAY_DELTA * 24 * 3600 * 1000.
Definition MAX_MS_DELTA : Z := MAX_DAY_DELTA * 24 * 3600 * 1000.

Definition obj_datetime (r : result datetime) : result obj :=
  rbind r (fun x => Ok (ODatetime x)).

Definition convert_year_month_safe (year month : list Z) : result series :=
  if opt_ltb (series_max year) MAX_YEAR && opt_gtb (series_min year) MIN_YEAR
  then Ok (Datetime64 (map (fun '(y, m) => dt64_of_ym y m) (combine year month)))
  else rbind (rmapM (fun '(y, m) => obj_datetime (make_datetime y m 1))
                    (combine year month))
             (fun v => Ok (Object_ v)).

Definition convert_year_days_safe (year days : list Z) : result series :=
  if opt_ltb (series_max year) (MAX_YEAR - 1) && opt_gtb (series_min year) MIN_YEAR
  then Ok (Datetime64 (map (fun '(y, d) => wrap64 (dt64_of_ym y 1 + wrap64 (d * NS_PER_DAY)))
                           (combine year days)))
  else rbind (rmapM (fun '(y, d) =>
                       obj_datetime (rbind (make_datetime y 1 1) (fun b => add_days b d)))
                    (combine year days))
             (fun v => Ok (Object_ v)).

Inductive unit_ := unit_d | unit_ms | unit_other.

Definition convert_delta_safe (base : datetime) (deltas : list Z) (u : unit_)
  : result series :=
  let vectorised (ns_per_unit : Z) :=
    Ok (Datetime64
          (map (fun d => wrap64 (to_datetime64 base + wrap64 (d * ns_per_unit))) deltas)) in
  match u with
  | unit_d =>
      if opt_gtb (series_max deltas) MAX_DAY_DELTA || opt_ltb (series_min deltas) MIN_DAY_DELTA
      then rbind (rmapM (fun d => obj_datetime (add_days base d)) deltas)
                 (fun v => Ok (Object_ v))
      else vectorised NS_PER_DAY
  | unit_ms =>
      if opt_gtb (series_max deltas) MAX_MS_DELTA || opt_ltb (series_min deltas) MIN_MS_DELTA
      then rbind (rmapM (fun d => obj_datetime (add_microseconds base (d * 1000))) deltas)
                 (fun v => Ok (Object_ v))
      else vectorised 1000000
  | unit_other => Raise (ValueError "format not understood")
  end.

(** [np.isnan(dates)], [dates.astype(np.int64)] and the in-place
    [data_col[bad_locs] = 1.0]; [data_col = Series(dates)] shares the
    cells of [dates], so the assignment is seen through [dates]. *)
Definition isnan_series (s : series) : result (list bool) :=
  match s with
  | IntSeries _ v => Ok (map (fun _ => false) v)
  | Float32 v => Ok (map (Float.is_nan Float.binary32) v)
  | Float64 v => Ok (map (Float.is_nan Float.binary64) v)
  | Datetime64 _ | Object_ _ =>
      Raise (TypeError "ufunc 'isnan' not supported for the input types")
  end.

Definition set_bad_to_one (bad : list bool) (s : series) : series :=
  match s with
  | Float32 v => Float32 (mask_set bad (Float.of_Z Float.binary32 1) v)
  | Float64 v => Float64 (mask_set bad (Float.of_Z Float.binary64 1) v)
  | _ => s
  end.

Definition astype_int64 (s : series) : list Z :=
  match s with
  | IntSeries _ v => v
  | Float32 v => map (Float.to_int64 Float.binary32) v
  | Float64 v => map (Float.to_int64 Float.binary64) v
  | Datetime64 v => v
  | Object_ _ => []
  end.

(** [conv_dates[bad_locs] = NaT]. *)
Definition set_NaT (bad : list bool) (s : series) : series :=
  match s with
  | Datetime64 v => Datetime64 (mask_set bad NaT v)
  | Object_ v => Object_ (mask_set bad ONaT v)
  | _ => s
  end.

Definition _stata_elapsed_date_to_datetime_vec (dates : series) (fmt : string)
  : result series :=
  rbind (isnan_series dates) (fun bad_locs =>
  let has_bad_values := existsb id bad_locs in
  let dates := if has_bad_values then set_bad_to_one bad_locs dates else dates in
  let dates := astype_int64 dates in
  let finish (r : result series) :=
    rbind r (fun conv_dates =>
    Ok (if has_bad_values then set_NaT bad_locs conv_dates else conv_dates)) in
  if fmt_in fmt ["%tc"; "tc"] then
    finish (convert_delta_safe stata_epoch dates unit_ms)
  else if fmt_in fmt ["%tC"; "tC"] then
    Ok (Object_ (mask_set bad_locs (ONum (PyNum.PyFloat (Float.nan Float.binary64)))
                          (map (fun z => ONum (PyNum.PyInt z)) dates)))
  else if fmt_in fmt ["%td"; "td"; "%d"; "d"] then
    finish (convert_delta_safe stata_epoch dates unit_d)
  else if fmt_in fmt ["%tw"; "tw"] then
    let year := map (fun x => year stata_epoch + x / 52) dates in
    let days := map (fun x => (x mod 52) * 7) dates in
    finish (convert_year_days_safe year days)
  else if fmt_in fmt ["%tm"; "tm"] then
    let year := map (fun x => year stata_epoch + x / 12) dates in
    let month := map (fun x => (x mod 12) + 1) dates in
    finish (convert_year_month_safe year month)
  else if fmt_in fmt ["%tq"; "tq"] then
    let year := map (fun x => year stata_epoch + x / 4) dates in
    let month := map (fun x => (x mod 4) * 3 + 1) dates in
    finish (convert_year_month_safe year month)
  else if fmt_in fmt ["%th"; "th"] then
    let year := map (fun x => year stata_epoch + x / 2) dates in
    let month := map (fun x => (x mod 2) * 6 + 1) dates in
    finish (convert_year_month_safe year month)
  else if fmt_in fmt ["%ty"; "ty"] then
    let year := dates in
    let month := map (fun _ => 1) dates in
    finish (convert_year_month_safe year month)
  else Raise (ValueError ("Date fmt " +:+ fmt +:+ " not understood"))).

(** *** Encoding *)

(** A row of the frame that [parse_dates_safe] returns; a column that
    was not asked for is absent there and never read, it is 0 here. *)
Record parsed := { delta : Z; p_year : Z; p_month : Z; p_days : Z }.

Definition parse_datetime64 (want_delta want_year want_days : bool) (ns : Z) : parsed :=
  {| delta := if want_delta
              then wrap64 (ns - to_datetime64 stata_epoch) / 1000 else 0;
     p_year := if want_days || want_year then dt64_year ns else 0;
     p_month := if want_days || want_year then dt64_month ns else 0;
     p_days := if want_days
               then wrap64 (ns - dt64_of_ym (dt64_year ns) 1) / NS_PER_DAY else 0 |}.

Definition parse_datetime (want_delta want_year want_days : bool) (x : datetime) : parsed :=
  let td := sub x stata_epoch in
  let year_month := 100 * year x + month x in
  {| delta := if want_delta
              then US_PER_DAY * days td + 1000000 * seconds td + microseconds td else 0;
     p_year := if want_year then year_month / 100 else 0;
     p_month := if want_year then year_month - (year_month / 100) * 100 else 0;
     p_days := if want_days then days (sub x (mk_date (year x) 1 1)) else 0 |}.

(** [infer_dtype(dates) == 'datetime']: every cell is a [datetime]. *)
Definition as_datetime (o : obj) : result datetime :=
  match o with
  | ODatetime x => Ok x
  | _ => Raise (ValueError
           "Columns containing dates must contain either datetime64, datetime.datetime or null values.")
  end.

Definition parse_dates_safe (dates : series) (want_delta want_year want_days : bool)
  : result (list parsed) :=
  match dates with
  | Datetime64 v => Ok (map (parse_datetime64 want_delta want_year want_days) v)
  | Object_ v =>
      rbind (rmapM as_datetime v) (fun xs =>
      Ok (map (parse_datetime want_delta want_year want_days) xs))
  | _ => Raise (ValueError
           "Columns containing dates must contain either datetime64, datetime.datetime or null values.")
  end.

(** [isnull(dates)]. *)
Definition obj_isnull (o : obj) : bool :=
  match o with
  | ONone | ONaT => true
  | ONum (PyNum.PyFloat b) => Float.is_nan Float.binary64 b
  | _ => false
  end.

Definition isnull (s : series) : list bool :=
  match s with
  | IntSeries _ v => map (fun _ => false) v
  | Float32 v => map (Float.is_nan Float.binary32) v
  | Float64 v => map (Float.is_nan Float.binary64) v
  | Datetime64 v => map (Z.eqb NaT) v
  | Object_ v => map obj_isnull v
  end.

(** [dates[bad_loc] = stata_epoch]. *)
Definition set_epoch (bad : list bool) (s : series) : series :=
  match s with
  | Datetime64 v => Datetime64 (mask_set bad (to_datetime64 stata_epoch) v)
  | Object_ v => Object_ (mask_set bad (ODatetime stata_epoch) v)
  | _ => s
  end.

Definition of_int (z : Z) : Z := Float.of_Z Float.binary64 z.

Definition _datetime_to_stata_elapsed_vec (dates : series) (fmt : string)
  : result series :=
  let bad_loc := isnull dates in
  let dates := if existsb id bad_loc then set_epoch bad_loc dates else dates in
  let finish (r : result (list Z)) :=
    rbind r (fun conv_dates =>
    rbind (PyNum.unpack_d Struct.LittleEndian [0; 0; 0; 0; 0; 0; 224; 127])
          (fun missing_value =>
    Ok (Float64 (mask_set bad_loc missing_value conv_dates)))) in
  if fmt_in fmt ["%tc"; "tc"] then
    finish (rbind (parse_dates_safe dates true false false) (fun d =>
      Ok (map (fun r => Float.div Float.binary64 (of_int (delta r)) (of_int 1000)) d)))
  else if fmt_in fmt ["%tC"; "tC"] then
    Raise (TypeError "float() argument must be a string or a number")
  else if fmt_in fmt ["%td"; "td"] then
    finish (rbind (parse_dates_safe dates true false false) (fun d =>
      Ok (map (fun r => of_int (delta r / US_PER_DAY)) d)))
  else if fmt_in fmt ["%tw"; "tw"] then
    finish (rbind (parse_dates_safe dates false true true) (fun d =>
      Ok (map (fun r => of_int (52 * (p_year r - year stata_epoch) + p_days r / 7)) d)))
  else if fmt_in fmt ["%tm"; "tm"] then
    finish (rbind (parse_dates_safe dates false true false) (fun d =>
      Ok (map (fun r => of_int (12 * (p_year r - year stata_epoch) + p_month r - 1)) d)))
  else if fmt_in fmt ["%tq"; "tq"] then
    finish (rbind (parse_dates_safe dates false true false) (fun d =>
      Ok (map (fun r => of_int (4 * (p_year r - year stata_epoch) + (p_month r - 1) / 3)) d)))
  else if fmt_in fmt ["%th"; "th"] then
    finish (rbind (parse_dates_safe dates false true false) (fun d =>
      Ok (map (fun r => of_int (2 * (p_year r - year stata_epoch)
                                + (if 6 <? p_month r then 1 else 0))) d)))
  else if fmt_in fmt ["%ty"; "ty"] then
    finish (rbind (parse_dates_safe dates false true false) (fun d =>
      Ok (map (fun r => of_int (p_year r)) d)))
  else Raise (ValueError ("fmt " +:+ fmt +:+ " not understood")).

End StataDates.

(** ** Warnings

  [warnings.warn] appends to the list of warnings a call produced. *)

Inductive warning : Type :=
| PossiblePrecisionLoss (msg : string)
| InvalidColumnName (msg : string).

(** A [DataFrame]: named columns, in order.  A column label is a string or,
  for frames built without names, an integer. *)
Inductive label : Type :=
| LStr (s : string)
| LInt (z : Z).

#[global] Instance label_eq_dec : EqDecision label.
Proof. solve_decision. Defined.

Definition frame := list (label * series).

(** ** [_cast_to_stata_types] *)

Module Cast.

Definition precision_loss_doc (a b : string) : string :=
  "
Column converted from " +:+ a +:+ " to " +:+ b +:+ ", and some data are outside of the lossless
conversion range. This may result in a loss of precision in the saved data.
".

(** [np.iinfo(dt).max]. *)
Definition iinfo_max (dt : dtype) : Z :=
  match dt with
  | int8 => 127 | int16 => 32767 | int32 => 2147483647 | int64 => 2 ^ 63 - 1
  | uint8 => 255 | uint16 => 65535 | uint32 => 4294967295
  | _ => 0
  end.

Definition iinfo_bits (dt : dtype) : Z :=
  match dt with
  | int8 | uint8 | bool_ => 8 | int16 | uint16 => 16 | int32 | uint32 => 32 | _ => 64
  end.

Definition is_integer_dtype (dt : dtype) : bool :=
  match dt with
  | bool_ | uint8 | uint16 | uint32 | int8 | int16 | int32 | int64 => true
  | _ => false
  end.

(** [v.astype(dt)] on an integer cell: the C conversion wraps. *)
Definition wrap_to (dt : dtype) (z : Z) : Z :=
  match dt with
  | bool_ => if z =? 0 then 0 else 1
  | uint8 | uint16 | uint32 => z mod 2 ^ iinfo_bits dt
  | _ => Struct.to_signed (iinfo_bits dt) (z mod 2 ^ iinfo_bits dt)
  end.

(** [s.astype(dt)] for the casts this function makes: to an integer
    dtype or to [float64]. *)
Definition astype (s : series) (dt : dtype) : series :=
  match s with
  | IntSeries _ v =>
      if is_integer_dtype dt then IntSeries dt (map (wrap_to dt) v)
      else Float64 (map (Float.of_Z Float.binary64) v)
  | _ => s
  end.

Definition series_dtype (s : series) : dtype :=
  match s with
  | IntSeries dt _ => dt
  | Float32 _ => float32
  | Float64 _ => float64
  | Datetime64 _ => datetime64
  | Object_ _ => object_
  end.

(** [s.max()] and [s.min()] as Python numbers; NaN cells are skipped and an
    empty column gives NaN ([None]). *)
Definition float_extreme (f : Float.format) (pick_max : bool) (v : list Z) : option Z :=
  fold_left
    (fun acc x =>
       if Float.is_nan f x then acc
       else match acc with
            | None => Some x
            | Some a =>
                if pick_max then (if Float.ltb f a x then Some x else acc)
                else (if Float.ltb f x a then Some x else acc)
            end)
    v None.

(** The extreme of a column as an exact value [m * 2 ^ e]; the infinities
    cannot come out of an integer cast and are not distinguished here. *)
Definition col_max (s : series) : option (Z * Z) :=
  match s with
  | IntSeries _ v => option_map (fun z => (z, 0)) (series_max v)
  | Float32 v => option_map (Float.finite_value Float.binary32)
                   (float_extreme Float.binary32 true v)
  | Float64 v => option_map (Float.finite_value Float.binary64)
                   (float_extreme Float.binary64 true v)
  | _ => None
  end.

Definition col_min (s : series) : option (Z * Z) :=
  match s with
  | IntSeries _ v => option_map (fun z => (z, 0)) (series_min v)
  | Float32 v => option_map (Float.finite_value Float.binary32)
                   (float_extreme Float.binary32 false v)
  | Float64 v => option_map (Float.finite_value Float.binary64)
                   (float_extreme Float.binary64 false v)
  | _ => None
  end.

(** Comparison of [m * 2 ^ e] with an integer [c]; false for NaN. *)
Definition dy_cmp (v : Z * Z) (c : Z) : comparison :=
  let '(m, e) := v in
  if 0 <=? e then (m * 2 ^ e) ?= c else m ?= c * 2 ^ (- e).

Definition v_gt (o : option (Z * Z)) (c : Z) : bool :=
  match o with Some v => match dy_cmp v c with Gt => true | _ => false end | None => false end.
Definition v_lt (o : option (Z * Z)) (c : Z) : bool :=
  match o with Some v => match dy_cmp v c with Lt => true | _ => false end | None => false end.
Definition v_ge (o : option (Z * Z)) (c : Z) : bool :=
  match o with Some v => match dy_cmp v c with Lt => false | _ => true end | None => false end.
Definition v_le (o : option (Z * Z)) (c : Z) : bool :=
  match o with Some v => match dy_cmp v c with Gt => false | _ => true end | None => false end.

(** [(original, if small, if large)]. *)
Definition conversion_data : list (dtype * dtype * dtype) :=
  [(bool_, int8, int8); (uint8, int8, int16); (uint16, int16, int32);
   (uint32, int32, int64)].

(** The state of the loop over one column: its cells, the local [dtype]
    and the message [ws]. *)
Definition unsupported_step (st : series * dtype * string) (c_data : dtype * dtype * dtype)
  : series * dtype * string :=
  let '(col, dt, ws) := st in
  let '(c0, c1, c2) := c_data in
  if dtype_eqb dt c0 then
    let dt := if v_le (col_max col) (iinfo_max c1) then c1 else c2 in
    let ws := if dtype_eqb c2 float64
              then (if v_ge (col_max col) (2 ^ 53)
                    then precision_loss_doc "uint64" "float64" else ws)
              else ws in
    (astype col dt, dt, ws)
  else st.

Definition cast_column (col : series) (ws : string) : series * string :=
  let '(col, dt, ws) :=
    fold_left unsupported_step conversion_data (col, series_dtype col, ws) in
  if dtype_eqb dt int8 then
    if v_gt (col_max col) 100 || v_lt (col_min col) (- 127)
    then (astype col int16, ws) else (col, ws)
  else if dtype_eqb dt int16 then
    if v_gt (col_max col) 32740 || v_lt (col_min col) (- 32767)
    then (astype col int32, ws) else (col, ws)
  else if dtype_eqb dt int64 then
    if v_le (col_max col) 2147483620 && v_ge (col_min col) (- 2147483647)
    then (astype col int32, ws)
    else
      let col := astype col float64 in
      if v_ge (col_max col) (2 ^ 53) || v_le (col_min col) (- 2 ^ 53)
      then (col, precision_loss_doc "int64" "float64")
      else (col, ws)
  else (col, ws).

Definition _cast_to_stata_types (data : frame) : frame * list warning :=
  let '(data, ws) :=
    fold_left
      (fun '(done, ws) '(name, col) =>
         let '(col, ws) := cast_column col ws in
         (done ++ [(name, col)], ws))
      data ([], "") in
  (data, if String.eqb ws "" then [] else [PossiblePrecisionLoss ws]).

End Cast.

(** ** [StataParser]: the static tables *)

Module StataParser.

(** An entry of [typlist]: an [int] (the width of a string column) or one
    of the [struct] codes ['b'], ['h'], ['l'], ['f'], ['d']. *)
Inductive typ := Tstr (n : Z) | Tb | Th | Tl | Tf | Td.

(** An entry of [dtyplist]: a string such as ['a12'], a numpy scalar
    type, or [np.string_]. *)
Inductive np_dtype := DName (s : string) | DType (dt : dtype) | DString_.

Definition DTYPE_MAP (code : Z) : option np_dtype :=
  if (1 <=? code) && (code <? 245) then Some (DName ("a" +:+ pretty code))
  else if code =? 251 then Some (DType int8)
  else if code =? 252 then Some (DType int16)
  else if code =? 253 then Some (DType int32)
  else if code =? 254 then Some (DType float32)
  else if code =? 255 then Some (DType float64)
  else None.

Definition DTYPE_MAP_XML (code : Z) : option np_dtype :=
  if code =? 32768 then Some DString_
  else if code =? 65526 then Some (DType float64)
  else if code =? 65527 then Some (DType float32)
  else if code =? 65528 then Some (DType int32)
  else if code =? 65529 then Some (DType int16)
  else if code =? 65530 then Some (DType int8)
  else None.

(** [lrange(251) + list('bhlfd')], indexed by a code. *)
Definition TYPE_MAP (code : Z) : option typ :=
  if (0 <=? code) && (code <? 251) then Some (Tstr code)
  else if code =? 251 then Some Tb
  else if code =? 252 then Some Th
  else if code =? 253 then Some Tl
  else if code =? 254 then Some Tf
  else if code =? 255 then Some Td
  else None.

Definition TYPE_MAP_XML (code : Z) : option typ :=
  if code =? 65526 then Some Td
  else if code =? 65527 then Some Tf
  else if code =? 65528 then Some Tl
  else if code =? 65529 then Some Th
  else if code =? 65530 then Some Tb
  else None.

Definition float32_min : Struct.bytes := [255; 255; 255; 254].
Definition float32_max : Struct.bytes := [255; 255; 255; 126].
Definition float64_min : Struct.bytes := [255; 255; 255; 255; 255; 255; 239; 255].
Definition float64_max : Struct.bytes := [255; 255; 255; 255; 255; 255; 223; 127].

(** [VALID_RANGE[fmt]]: a pair of integers for ['b'], ['h'], ['l'], a
    pair of bit patterns of the column's own format for ['f'] and ['d'];
    an [int] entry of [typlist] is no key. *)
Definition VALID_RANGE (fmt : typ) : option (Z * Z) :=
  match fmt with
  | Tb => Some (-127, 100)
  | Th => Some (-32767, 32740)
  | Tl => Some (-2147483647, 2147483620)
  | Tf => Some (Struct.value Struct.LittleEndian float32_min,
                Struct.value Struct.LittleEndian float32_max)
  | Td => Some (Struct.value Struct.LittleEndian float64_min,
                Struct.value Struct.LittleEndian float64_max)
  | Tstr _ => None
  end.

Definition OLD_TYPE_MAPPING (c : Z) : option Z :=
  if c =? 105 then Some 252        (* 'i' *)
  else if c =? 102 then Some 254   (* 'f' *)
  else if c =? 98 then Some 251    (* 'b' *)
  else None.

(** The generic missing value ['.'] of each kind, used to replace NaN. *)
Definition MISSING_VALUES (fmt : typ) : option Z :=
  match fmt with
  | Tb => Some 101
  | Th => Some 32741
  | Tl => Some 2147483621
  | Tf => Some (Struct.value Struct.LittleEndian [0; 0; 0; 127])
  | Td => Some (Struct.value Struct.LittleEndian [0; 0; 0; 0; 0; 0; 224; 127])
  | Tstr _ => None
  end.

(** [NUMPY_TYPE_MAP]: the width in bytes of ['i1'], ['i2'], ['i4'],
    ['f4'], ['f8']. *)
Definition NUMPY_TYPE_MAP (fmt : typ) : option Z :=
  match fmt with
  | Tb => Some 1 | Th => Some 2 | Tl => Some 4 | Tf => Some 4 | Td => Some 8
  | Tstr _ => None
  end.

Definition RESERVED_WORDS : list string :=
  ["aggregate"; "array"; "boolean"; "break";
   "byte"; "case"; "catch"; "class"; "colvector";
   "complex"; "const"; "continue"; "default";
   "delegate"; "delete"; "do"; "double"; "else";
   "eltypedef"; "end"; "enum"; "explicit";
   "export"; "external"; "float"; "for"; "friend";
   "function"; "global"; "goto"; "if"; "inline";
   "int"; "local"; "long"; "NULL"; "pragma";
   "protected"; "quad"; "rowvector"; "short";
   "typedef"; "typename"; "virtual"].

End StataParser.

(** ** [StataWriter._check_column_names] *)

Module Names.

Import StataParser.

Definition invalid_name_doc (renames : string) : string :=
  "
Not all pandas column names were valid Stata variable names.
The following replacements have been made:

    " +:+ renames +:+ "

If this is not what you expect, please make sure you have Stata-compliant
column names in your DataFrame (strings only, max 32 characters, only alphanumerics and
underscores, no Stata reserved words)
".

Definition code (c : ascii) : N := Ascii.N_of_ascii c.

Definition is_digit (c : ascii) : bool := (48 <=? code c)%N && (code c <=? 57)%N.

(** [(c < 'A' or c > 'Z') and (c < 'a' or c > 'z') and
     (c < '0' or c > '9') and c != '_']. *)
Definition is_invalid (c : ascii) : bool :=
  ((code c <? 65)%N || (90 <? code c)%N) && ((code c <? 97)%N || (122 <? code c)%N)
  && ((code c <? 48)%N || (57 <? code c)%N) && negb (Ascii.eqb c "_").

(** [name.replace(c, '_')]. *)
Fixpoint replace (c : ascii) (name : string) : string :=
  match name with
  | EmptyString => EmptyString
  | String a s => String (if Ascii.eqb a c then "_"%char else a) (replace c s)
  end.

Fixpoint chars (s : string) : list ascii :=
  match s with
  | EmptyString => []
  | String a s' => a :: chars s'
  end.

(** [for c in name: if ...: name = name.replace(c, '_')]; the loop runs
    over the characters of the string [name] was bound to at its start. *)
Definition replace_invalid (name : string) : string :=
  fold_left (fun name c => if is_invalid c then replace c name else name)
            (chars name) name.

(** [name[:n]]. *)
Fixpoint str_take (n : nat) (s : string) : string :=
  match n, s with
  | S n', String a s' => String a (str_take n' s')
  | _, _ => EmptyString
  end.

Definition truncate (name : string) : string :=
  str_take (Nat.min (String.length name) 32) name.

(** [text_type(name)] for a name that is no string. *)
Definition text_type (l : label) : string :=
  match l with
  | LStr s => s
  | LInt z => pretty z
  end.

(** The name before the check for duplicates; [name[0]] of an empty
    name is an [IndexError]. *)
Definition clean (orig_name : label) : result string :=
  let name := text_type orig_name in
  let name := replace_invalid name in
  let name := if existsb (String.eqb name) RESERVED_WORDS then "_" +:+ name else name in
  match name with
  | EmptyString => Raise IndexError
  | String c _ =>
      let name := if is_digit c then "_" +:+ name else name in
      Ok (truncate name)
  end.

Definition label_eqb (a b : label) : bool :=
  match a, b with
  | LStr s, LStr t => String.eqb s t
  | LInt x, LInt y => x =? y
  | _, _ => false
  end.

(** [columns.count(name)] for a string [name]. *)
Definition count (name : string) (columns : list label) : nat :=
  length (List.filter (fun l => label_eqb l (LStr name)) columns).

(** [while columns.count(name) > 0: ...], with the counter
    [duplicate_var_id]. *)
Fixpoint dedup (fuel : nat) (columns : list label) (name : string) (id : Z)
  : result (string * Z) :=
  match fuel with
  | O => OutOfFuel
  | S fuel' =>
      if (0 <? count name columns)%nat
      then dedup fuel' columns (truncate ("_" +:+ pretty id +:+ name)) (id + 1)
      else Ok (name, id)
  end.

(** [s.encode('utf-8')] for a text of characters below 256. *)
Fixpoint utf8 (s : string) : list Z :=
  match s with
  | EmptyString => []
  | String c s' =>
      let n := Z.of_N (code c) in
      (if n <? 128 then [n] else [192 + n / 64; 128 + n mod 64]) ++ utf8 s'
  end.

Definition hexdigit (n : Z) : ascii :=
  Ascii.ascii_of_N (Z.to_N (if n <? 10 then 48 + n else 87 + n)).

(** [repr] of a [bytes] object: quoted with apostrophes, or with double
    quotes if the bytes hold an apostrophe and no double quote; the
    quote and the backslash escaped, tab, newline and carriage return by
    their letters, the other bytes outside the printable ASCII range in
    hexadecimal. *)
Definition bytes_repr (bs : list Z) : string :=
  let quote := if existsb (Z.eqb 39) bs && negb (existsb (Z.eqb 34) bs) then 34 else 39 in
  let chr (n : Z) := String (Ascii.ascii_of_N (Z.to_N n)) EmptyString in
  let escape (b : Z) :=
    if (b =? quote) || (b =? 92) then "\" +:+ chr b
    else if b =? 9 then "\t"
    else if b =? 10 then "\n"
    else if b =? 13 then "\r"
    else if (b <? 32) || (127 <=? b)
    then "\x" +:+ String (hexdigit (b / 16)) (String (hexdigit (b mod 16)) EmptyString)
    else chr b in
  "b" +:+ chr quote +:+ fold_right (fun b t => escape b +:+ t) EmptyString bs +:+ chr quote.

(** What ['{0}'.format(orig_name)] prints after
    [orig_name = orig_name.encode('utf-8')] inside [try]: the [repr] of
    the bytes for a string; a label that is no string has no [encode],
    the [except] clause passes and the label itself is printed. *)
Definition logged_name (orig_name : label) : string :=
  match orig_name with
  | LStr s => bytes_repr (utf8 s)
  | LInt z => pretty z
  end.

Record state := {
  columns : list label;
  duplicate_var_id : Z;
  converted_names : list string
}.

(** One pass of [for j, name in enumerate(columns)]. *)
Definition step (st : state) (j : nat) (orig_name : label) : result state :=
  rbind (clean orig_name) (fun name =>
  if negb (label_eqb (LStr name) orig_name) then
    rbind (dedup (S (S (length (columns st)))) (columns st) name (duplicate_var_id st))
          (fun '(name, id) =>
    Ok {| columns := <[ j := LStr name ]> (columns st);
          duplicate_var_id := id;
          converted_names :=
            converted_names st ++ [logged_name orig_name +:+ "   ->   " +:+ name] |})
  else
    Ok {| columns := <[ j := LStr name ]> (columns st);
          duplicate_var_id := duplicate_var_id st;
          converted_names := converted_names st |}).

Fixpoint loop (st : state) (j : nat) (rest : list label) : result state :=
  match rest with
  | [] => Ok st
  | name :: rest' => rbind (step st j name) (fun st' => loop st' (S j) rest')
  end.

(** ['sep'.join(l)]. *)
Fixpoint join (sep : string) (l : list string) : string :=
  match l with
  | [] => ""
  | [s] => s
  | s :: l' => s +:+ sep +:+ join sep l'
  end.

(** The update of [self._convert_dates], a dictionary from column labels
    to formats: [d[c] = d[o]; del d[o]] for every renamed column. *)
Definition fix_dates (d : list (label * string)) (c o : label)
  : result (list (label * string)) :=
  if label_eqb c o then Ok d
  else match find (fun kv => label_eqb (fst kv) o) d with
       | None => Raise KeyError
       | Some (_, v) =>
           let d := List.filter (fun kv => negb (label_eqb (fst kv) c)) d ++ [(c, v)] in
           Ok (List.filter (fun kv => negb (label_eqb (fst kv) o)) d)
       end.

Fixpoint fix_all_dates (d : list (label * string)) (cols : list (label * label))
  : result (list (label * string)) :=
  match cols with
  | [] => Ok d
  | (c, o) :: cols' => rbind (fix_dates d c o) (fun d' => fix_all_dates d' cols')
  end.

Record checked := {
  new_columns : list label;
  new_convert_dates : option (list (label * string));
  warnings : list warning
}.

Definition _check_column_names (data_columns : list label)
           (_convert_dates : option (list (label * string))) : result checked :=
  let original_columns := data_columns in
  rbind (loop {| columns := data_columns; duplicate_var_id := 0;
                 converted_names := [] |} 0 data_columns) (fun st =>
  rbind (match _convert_dates with
         | None => Ok None
         | Some [] => Ok (Some [])
         | Some d => rbind (fix_all_dates d (combine (columns st) original_columns))
                           (fun d' => Ok (Some d'))
         end) (fun dates =>
  Ok {| new_columns := columns st;
        new_convert_dates := dates;
        warnings := match converted_names st with
                    | [] => []
                    | names => [InvalidColumnName
                                  (invalid_name_doc (join "
    " names))]
                    end |})).

End Names.

(** ** [StataReader]

  A reader owns a seekable stream and the attributes that [__init__],
  [_read_header] and the lazy readers assign.  A method is a function
  from the reader to an outcome and the reader afterwards: an exception
  leaves the assignments made before it in place. *)

Module Reader.

Import Struct StataParser.

(** What [_read_header] assigns. *)
Record header := {
  format_version : Z;
  byteorder : Struct.byteorder;
  filetype : Z;
  nvar : Z;
  nobs : Z;
  data_label : string;
  time_stamp : string;
  typlist : list typ;
  dtyplist : list np_dtype;
  varlist : list string;
  srtlist : list Z;
  fmtlist : list string;
  lbllist : list string;
  vlblist : list string;
  data_location : Z;
  seek_strls : Z;
  seek_value_labels : Z;
  has_string_data : bool;
  col_sizes : list Z
}.

Record StataReader := {
  path_or_buf : bytes;            (* the content of the stream *)
  position : Z;                   (* and its position *)
  _encoding : bytes -> result string;   (* [s.decode(self._encoding)] *)
  hdr : header;
  _missing_values : bool;
  _data_read : bool;
  _value_labels_read : bool;
  value_label_dict : option (gmap string (gmap Z string));
  GSO : option (gmap Z bytes)
}.

Definition M (A : Type) : Type := StataReader -> result A * StataReader.

Definition ret {A} (a : A) : M A := fun r => (Ok a, r).
Definition raise {A} (e : exn) : M A := fun r => (Raise e, r).
Definition lift {A} (x : result A) : M A := fun r => (x, r).

Definition bind {A B} (m : M A) (k : A -> M B) : M B :=
  fun r =>
    match m r with
    | (Ok a, r') => k a r'
    | (Raise e, r') => (Raise e, r')
    | (OutOfFuel, r') => (OutOfFuel, r')
    end.

Notation "'let*' x ':=' m 'in' k" := (bind m (fun x => k))
  (at level 10, x pattern, m at level 100, k at level 200).
Notation "m ';;' k" := (bind m (fun _ => k))
  (at level 100, k at level 200, right associativity).

Definition get {A} (f : StataReader -> A) : M A := fun r => (Ok (f r), r).

Definition set_stream (buf : bytes) (pos : Z) (r : StataReader) : StataReader :=
  {| path_or_buf := buf; position := pos; _encoding := _encoding r; hdr := hdr r;
     _missing_values := _missing_values r; _data_read := _data_read r;
     _value_labels_read := _value_labels_read r;
     value_label_dict := value_label_dict r; GSO := GSO r |}.

Definition set_hdr (h : header) (r : StataReader) : StataReader :=
  {| path_or_buf := path_or_buf r; position := position r; _encoding := _encoding r;
     hdr := h;
     _missing_values := _missing_values r; _data_read := _data_read r;
     _value_labels_read := _value_labels_read r;
     value_label_dict := value_label_dict r; GSO := GSO r |}.

Definition set_missing_values (b : bool) (r : StataReader) : StataReader :=
  {| path_or_buf := path_or_buf r; position := position r; _encoding := _encoding r;
     hdr := hdr r;
     _missing_values := b; _data_read := _data_read r;
     _value_labels_read := _value_labels_read r;
     value_label_dict := value_label_dict r; GSO := GSO r |}.

Definition set_data_read (b : bool) (r : StataReader) : StataReader :=
  {| path_or_buf := path_or_buf r; position := position r; _encoding := _encoding r;
     hdr := hdr r;
     _missing_values := _missing_values r; _data_read := b;
     _value_labels_read := _value_labels_read r;
     value_label_dict := value_label_dict r; GSO := GSO r |}.

Definition set_value_labels_read (b : bool) (r : StataReader) : StataReader :=
  {| path_or_buf := path_or_buf r; position := position r; _encoding := _encoding r;
     hdr := hdr r;
     _missing_values := _missing_values r; _data_read := _data_read r;
     _value_labels_read := b;
     value_label_dict := value_label_dict r; GSO := GSO r |}.

Definition set_value_label_dict (d : gmap string (gmap Z string)) (r : StataReader)
  : StataReader :=
  {| path_or_buf := path_or_buf r; position := position r; _encoding := _encoding r;
     hdr := hdr r;
     _missing_values := _missing_values r; _data_read := _data_read r;
     _value_labels_read := _value_labels_read r;
     value_label_dict := Some d; GSO := GSO r |}.

Definition set_GSO (g : gmap Z bytes) (r : StataReader) : StataReader :=
  {| path_or_buf := path_or_buf r; position := position r; _encoding := _encoding r;
     hdr := hdr r;
     _missing_values := _missing_values r; _data_read := _data_read r;
     _value_labels_read := _value_labels_read r;
     value_label_dict := value_label_dict r; GSO := Some g |}.

Definition modify (f : StataReader -> StataReader) : M unit := fun r => (Ok tt, f r).

(** *** The stream *)

(** [path_or_buf.read(n)]: at most [n] bytes, fewer at the end of the
    stream; a negative [n] reads all that is left. *)
Definition read (n : Z) : M bytes :=
  fun r =>
    let rest := skipn (Z.to_nat (position r)) (path_or_buf r) in
    let data := if n <? 0 then rest else firstn (Z.to_nat n) rest in
    (Ok data, set_stream (path_or_buf r) (position r + Z.of_nat (length data)) r).

Definition seek (p : Z) : M unit :=
  fun r =>
    if p <? 0 then (Raise (ValueError "negative seek value"), r)
    else (Ok tt, set_stream (path_or_buf r) p r).

Definition tell : M Z := get position.

(** [for i in range(n)] collecting the values of [m]. *)
Fixpoint replicateM {A} (n : nat) (m : M A) : M (list A) :=
  match n with
  | O => ret []
  | S n' => let* a := m in let* l := replicateM n' m in ret (a :: l)
  end.

(** A bare [except:] clause. *)
Definition try_except {A} (body handler : result A) : result A :=
  match body with
  | Raise _ => handler
  | r => r
  end.

(** *** Helpers of the class *)

Fixpoint until_null (s : bytes) : bytes :=
  match s with
  | [] => []
  | b :: s' => if b =? 0 then [] else b :: until_null s'
  end.

(** [_null_terminate(s)]: cut at the first null byte, then decode. *)
Definition _null_terminate (s : bytes) : M string :=
  let* dec := get _encoding in lift (dec (until_null s)).

(** A codec with one character per byte, such as latin-1. *)
Fixpoint decode_bytewise (s : bytes) : string :=
  match s with
  | [] => EmptyString
  | b :: s' => String (Ascii.ascii_of_N (Z.to_N b)) (decode_bytewise s')
  end.

Definition latin_1 (s : bytes) : result string := Ok (decode_bytewise s).

(** [type(o).__name__] as the messages of CPython print it. *)
Definition type_name (o : obj) : string :=
  match o with
  | ONone => "NoneType"
  | ONaT => "NaTType"
  | ODatetime _ => "datetime.datetime"
  | ONum (PyNum.PyInt _) => "int"
  | ONum (PyNum.PyFloat _) => "float"
  | OStr _ => "str"
  | OMissing _ => "StataMissingValue"
  end.

(** [sep.join(l)] on a list of Python values: every item must be a
    string. *)
Fixpoint join_from (i : Z) (sep : string) (l : list obj) : result string :=
  match l with
  | [] => Ok ""
  | OStr s :: l' =>
      rbind (join_from (i + 1) sep l') (fun t =>
      Ok (match l' with [] => s | _ => s +:+ sep +:+ t end))
  | o :: _ =>
      Raise (TypeError ("sequence item " +:+ pretty i +:+ ": expected str instance, "
                        +:+ type_name o +:+ " found"))
  end.

Definition join (sep : string) (l : list obj) : result string := join_from 0 sep l.

Definition int_objs (l : list Z) : list obj := map (fun z => ONum (PyNum.PyInt z)) l.

(** [int(s)] of three bytes: decimal digits. *)
Definition int_of_bytes (s : bytes) : result Z :=
  if forallb (fun b => (48 <=? b) && (b <=? 57)) s && negb (Nat.eqb (length s) 0)
  then Ok (fold_left (fun acc b => 10 * acc + (b - 48)) s 0)
  else Raise (ValueError "invalid literal for int() with base 10").

Definition version_error : exn :=
  ValueError ("Version of given Stata file is not 104, " +:+
              "105, 108, 113 (Stata 8/9), 114 (Stata " +:+
              "10/11), 115 (Stata 12) or 117 (Stata 13)").

(** *** The tagged header (format 117) *)

(** The [try] block that fills [self.typlist]. *)
Definition xml_typ (typ : Z) : result StataParser.typ :=
  if typ <=? 2045 then Ok (Tstr typ)
  else if typ =? 32768 then Raise (ValueError "Long strings are not supported")
  else match TYPE_MAP_XML typ with
       | Some t => Ok t
       | None => Raise KeyError
       end.

Definition convert_types_117 (typlist : list Z) : result (list StataParser.typ) :=
  try_except (rmapM xml_typ typlist)
    (rbind (join "," (int_objs typlist)) (fun s =>
     Raise (ValueError ("cannot convert stata types [" +:+ s +:+ "]")))).

Definition xml_dtyp (typ : Z) : result np_dtype :=
  if typ <=? 2045 then Ok (DName (pretty typ))
  else match DTYPE_MAP_XML typ with
       | Some t => Ok t
       | None => Raise KeyError
       end.

Definition convert_dtypes_117 (typlist : list Z) : result (list np_dtype) :=
  try_except (rmapM xml_dtyp typlist)
    (rbind (join "," (int_objs typlist)) (fun s =>
     Raise (ValueError ("cannot convert stata dtypes [" +:+ s +:+ "]")))).

(** The section positions computed from the [<map>] of the file. *)
Record seeks := {
  seek_vartypes : Z;
  seek_varnames : Z;
  seek_sortlist : Z;
  seek_formats : Z;
  seek_value_label_names : Z;
  seek_variable_labels : Z;
  map_data_location : Z;
  map_seek_strls : Z;
  map_seek_value_labels : Z
}.

Definition read_q (bo : Struct.byteorder) : M Z :=
  let* bs := read 8 in lift (unpack_q bo bs).

(** From [self.path_or_buf.read(8)  # 0x0000000000000000] to the last
    entry of the map. *)
Definition read_map (bo : Struct.byteorder) (nvar : Z) : M seeks :=
  read 8 ;;
  read 8 ;;
  let* v1 := read_q bo in
  let seek_vartypes := v1 + 16 in
  let* v2 := read_q bo in
  let seek_varnames := v2 + 10 in
  let* v3 := read_q bo in
  let seek_sortlist := v3 + 10 in
  let* v4 := read_q bo in
  let seek_formats := v4 + 9 in
  let* v5 := read_q bo in
  let seek_value_label_names := v5 + 19 in
  read 8 ;;
  let seek_variable_labels := seek_value_label_names + (33 * nvar) + 20 + 17 in
  read 8 ;;
  let* v8 := read_q bo in
  let data_location := v8 + 6 in
  let* v9 := read_q bo in
  let seek_strls := v9 + 7 in
  let* v10 := read_q bo in
  let seek_value_labels := v10 + 14 in
  ret {| seek_vartypes := seek_vartypes; seek_varnames := seek_varnames;
         seek_sortlist := seek_sortlist; seek_formats := seek_formats;
         seek_value_label_names := seek_value_label_names;
         seek_variable_labels := seek_variable_labels;
         map_data_location := data_location; map_seek_strls := seek_strls;
         map_seek_value_labels := seek_value_labels |}.

Definition read_strings (width : Z) (n : Z) : M (list string) :=
  replicateM (Z.to_nat n) (let* bs := read width in _null_terminate bs).

(** [struct.unpack(bo + 'h' * (nvar + 1), read(2 * (nvar + 1)))[:-1]]. *)
Fixpoint chunks2 (bs : bytes) : list bytes :=
  match bs with
  | a :: b :: bs' => [a; b] :: chunks2 bs'
  | _ => []
  end.

Definition read_srtlist (bo : Struct.byteorder) (nvar : Z) : M (list Z) :=
  let* bs := read (2 * (nvar + 1)) in
  if Z.of_nat (length bs) =? 2 * (nvar + 1)
  then let* vs := lift (rmapM (unpack_h bo) (chunks2 bs)) in ret (removelast vs)
  else raise StructError.

(** [_calcsize(fmt)]: [type(fmt) is int and fmt or struct.calcsize(...)];
    the [int] 0 is false and goes to [struct.calcsize], a [TypeError]. *)
Definition _calcsize (fmt : StataParser.typ) : result Z :=
  match fmt with
  | Tstr n => if n =? 0 then Raise (TypeError "cannot concatenate 'str' and 'int' objects")
              else Ok n
  | Tb => Ok 1 | Th => Ok 2 | Tl => Ok 4 | Tf => Ok 4 | Td => Ok 8
  end.

Definition is_int_typ (t : StataParser.typ) : bool :=
  match t with Tstr _ => true | _ => false end.

Definition msf : bytes := [77; 83; 70].

Definition bytes_eqb (a b : bytes) : bool :=
  Nat.eqb (length a) (length b) && forallb (fun '(x, y) => x =? y) (combine a b).

(** [struct.unpack('c', first_char)] wants exactly one byte. *)
Definition unpack_c (bs : bytes) : result Z :=
  match bs with
  | [b] => Ok b
  | _ => Raise StructError
  end.

Definition finish_header (h : header) : M unit :=
  let* sizes := lift (rmapM _calcsize (typlist h)) in
  modify (set_hdr
    {| format_version := format_version h; byteorder := byteorder h;
       filetype := filetype h; nvar := nvar h; nobs := nobs h;
       data_label := data_label h; time_stamp := time_stamp h;
       typlist := typlist h; dtyplist := dtyplist h; varlist := varlist h;
       srtlist := srtlist h; fmtlist := fmtlist h; lbllist := lbllist h;
       vlblist := vlblist h; data_location := data_location h;
       seek_strls := seek_strls h; seek_value_labels := seek_value_labels h;
       has_string_data := existsb is_int_typ (typlist h);
       col_sizes := sizes |}).

Definition _read_header_117 : M unit :=
  read 27 ;;
  let* v := read 3 in
  let* format_version := lift (int_of_bytes v) in
  if negb (format_version =? 117) then raise version_error else
  read 21 ;;
  let* b := read 3 in
  let byteorder := if bytes_eqb b msf then BigEndian else LittleEndian in
  read 15 ;;
  let* b := read 2 in
  let* nvar := lift (unpack_H byteorder b) in
  read 7 ;;
  let* b := read 4 in
  let* nobs := lift (unpack_I byteorder b) in
  read 11 ;;
  let* b := read 1 in
  let* strlen := lift (unpack_b b) in
  let* b := read strlen in
  let* data_label := _null_terminate b in
  read 19 ;;
  let* b := read 1 in
  let* strlen := lift (unpack_b b) in
  let* b := read strlen in
  let* time_stamp := _null_terminate b in
  read 26 ;;
  let* sk := read_map byteorder nvar in
  seek (seek_vartypes sk) ;;
  let* typlist := replicateM (Z.to_nat nvar)
                    (let* b := read 2 in lift (unpack_H byteorder b)) in
  let* self_typlist := lift (convert_types_117 typlist) in
  let* self_dtyplist := lift (convert_dtypes_117 typlist) in
  seek (seek_varnames sk) ;;
  let* varlist := read_strings 33 nvar in
  seek (seek_sortlist sk) ;;
  let* srtlist := read_srtlist byteorder nvar in
  seek (seek_formats sk) ;;
  let* fmtlist := read_strings 49 nvar in
  seek (seek_value_label_names sk) ;;
  let* lbllist := read_strings 33 nvar in
  seek (seek_variable_labels sk) ;;
  let* vlblist := read_strings 81 nvar in
  finish_header
    {| format_version := format_version; byteorder := byteorder; filetype := 0;
       nvar := nvar; nobs := nobs; data_label := data_label; time_stamp := time_stamp;
       typlist := self_typlist; dtyplist := self_dtyplist; varlist := varlist;
       srtlist := srtlist; fmtlist := fmtlist; lbllist := lbllist; vlblist := vlblist;
       data_location := map_data_location sk; seek_strls := map_seek_strls sk;
       seek_value_labels := map_seek_value_labels sk;
       has_string_data := false; col_sizes := [] |}.

(** *** The legacy header (formats 104 to 115) *)

Definition legacy_versions : list Z := [104; 105; 108; 113; 114; 115].

Definition legacy_typ (code : Z) : result StataParser.typ :=
  match TYPE_MAP code with
  | Some t => Ok t
  | None => Raise IndexError
  end.

Definition legacy_dtyp (code : Z) : result np_dtype :=
  match DTYPE_MAP code with
  | Some t => Ok t
  | None => Raise KeyError
  end.

Definition convert_types_legacy (typlist : list Z) : result (list StataParser.typ) :=
  try_except (rmapM legacy_typ typlist)
    (rbind (join "," (int_objs typlist)) (fun s =>
     Raise (ValueError ("cannot convert stata types [" +:+ s +:+ "]")))).

Definition convert_dtypes_legacy (typlist : list Z) : result (list np_dtype) :=
  try_except (rmapM legacy_dtyp typlist)
    (rbind (join "," (int_objs typlist)) (fun s =>
     Raise (ValueError ("cannot convert stata dtypes [" +:+ s +:+ "]")))).

(** [ord(read(1))] wants one byte. *)
Definition ord (bs : bytes) : result Z :=
  match bs with
  | [b] => Ok b
  | _ => Raise (TypeError "ord() expected a character")
  end.

(** [self._decode_bytes(s)], as [_read_header] calls it: with [errors]
    at its default [None] it is [s.decode(self._encoding, None)], and
    [decode] takes a string for [errors]: it raises a [TypeError] before
    it looks at the bytes. *)
Definition _decode_bytes (s : bytes) : M string :=
  raise (TypeError "decode() argument 'errors' must be str, not None").

(** [OLD_TYPE_MAPPING[self._decode_bytes(read(1))]]; the three keys are
    strings of one ASCII letter. *)
Definition old_type (bs : bytes) : M Z :=
  let* key := _decode_bytes bs in
  match key with
  | String c EmptyString =>
      match OLD_TYPE_MAPPING (Z.of_N (Ascii.N_of_ascii c)) with
      | Some code => ret code
      | None => raise KeyError
      end
  | _ => raise KeyError
  end.

(** The expansion fields: [while True: ...].  Every pass reads at least
    one byte or raises, so [fuel] passes suffice for a stream with
    fewer than [fuel] bytes left. *)
Fixpoint skip_expansion_fields (fuel : nat) (version : Z) (bo : Struct.byteorder)
  : M unit :=
  match fuel with
  | O => lift OutOfFuel
  | S fuel' =>
      let* b := read 1 in
      let* data_type := lift (unpack_signed bo 1 b) in
      let* data_len :=
        (if 108 <? version
         then (let* b := read 4 in lift (unpack_i bo b))
         else (let* b := read 2 in lift (unpack_h bo b))) in
      if data_type =? 0 then ret tt
      else (read data_len ;; skip_expansion_fields fuel' version bo)
  end.

Definition _read_header_legacy (first_char : bytes) : M unit :=
  let* format_version := lift (unpack_b first_char) in
  if negb (existsb (Z.eqb format_version) legacy_versions) then raise version_error else
  let* b := read 1 in
  let* bo := lift (unpack_b b) in
  let byteorder := if bo =? 1 then BigEndian else LittleEndian in
  let* b := read 1 in
  let* filetype := lift (unpack_b b) in
  read 1 ;;
  let* b := read 2 in
  let* nvar := lift (unpack_H byteorder b) in
  let* b := read 4 in
  let* nobs := lift (unpack_I byteorder b) in
  let* b := read (if 105 <? format_version then 81 else 32) in
  let* data_label := _null_terminate b in
  let* time_stamp :=
    (if 104 <? format_version
     then (let* b := read 18 in _null_terminate b)
     else ret EmptyString) in
  let* typlist :=
    (if 108 <? format_version
     then replicateM (Z.to_nat nvar) (let* b := read 1 in lift (ord b))
     else replicateM (Z.to_nat nvar) (let* b := read 1 in old_type b)) in
  let* self_typlist := lift (convert_types_legacy typlist) in
  let* self_dtyplist := lift (convert_dtypes_legacy typlist) in
  let* varlist := read_strings (if 108 <? format_version then 33 else 9) nvar in
  let* srtlist := read_srtlist byteorder nvar in
  let* fmtlist :=
    read_strings (if 113 <? format_version then 49
                  else if 104 <? format_version then 12 else 7) nvar in
  let* lbllist := read_strings (if 108 <? format_version then 33 else 9) nvar in
  let* vlblist := read_strings (if 105 <? format_version then 81 else 32) nvar in
  (if 104 <? format_version
   then (let* buf := get path_or_buf in
         skip_expansion_fields (S (length buf)) format_version byteorder)
   else ret tt) ;;
  let* data_location := tell in
  finish_header
    {| format_version := format_version; byteorder := byteorder; filetype := filetype;
       nvar := nvar; nobs := nobs; data_label := data_label; time_stamp := time_stamp;
       typlist := self_typlist; dtyplist := self_dtyplist; varlist := varlist;
       srtlist := srtlist; fmtlist := fmtlist; lbllist := lbllist; vlblist := vlblist;
       data_location := data_location; seek_strls := 0; seek_value_labels := 0;
       has_string_data := false; col_sizes := [] |}.

Definition _read_header : M unit :=
  let* first_char := read 1 in
  let* c := lift (unpack_c first_char) in
  if c =? 60 (* b'<' *) then _read_header_117 else _read_header_legacy first_char.

Definition empty_header : header :=
  {| format_version := 0; byteorder := LittleEndian; filetype := 0; nvar := 0; nobs := 0;
     data_label := ""; time_stamp := ""; typlist := []; dtyplist := []; varlist := [];
     srtlist := []; fmtlist := []; lbllist := []; vlblist := [];
     data_location := 0; seek_strls := 0; seek_value_labels := 0;
     has_string_data := false; col_sizes := [] |}.

(** [StataReader(path_or_buf, encoding)] on an open stream: the reader,
    or the exception of [_read_header]. *)
Definition __init__ (path_or_buf : bytes) (encoding : bytes -> result string)
  : result StataReader :=
  let self :=
    {| path_or_buf := path_or_buf; position := 0; _encoding := encoding;
       hdr := empty_header; _missing_values := false; _data_read := false;
       _value_labels_read := false; value_label_dict := None; GSO := None |} in
  match _read_header self with
  | (Ok _, self') => Ok self'
  | (Raise e, _) => Raise e
  | (OutOfFuel, _) => OutOfFuel
  end.

(** *** Value labels and long strings *)

Definition data_not_read_msg : string :=
  "Data has not been read. Because of the " +:+
  "layout of Stata files, this is necessary " +:+
  "before reading value labels.".

Definition labels_already_read_msg : string := "Value labels have already been read.".
Definition data_already_read_msg : string := "Data has already been read.".

Definition read_I (bo : Struct.byteorder) : M Z :=
  let* b := read 4 in lift (unpack_I bo b).

(** [txt[off:]]. *)
Definition slice_from (off : Z) (txt : bytes) : bytes := skipn (Z.to_nat off) txt.

(** [self.value_label_dict[labname] = dict()] and
    [self.value_label_dict[labname][v] = s]. *)
Definition current_labels (r : StataReader) : gmap string (gmap Z string) :=
  default ∅ (value_label_dict r).

Definition new_label_table (labname : string) : M unit :=
  modify (fun r => set_value_label_dict (<[ labname := ∅ ]> (current_labels r)) r).

Definition add_label (labname : string) (v : Z) (s : string) : M unit :=
  modify (fun r =>
    let d := current_labels r in
    set_value_label_dict (<[ labname := <[ v := s ]> (default ∅ (d !! labname)) ]> d) r).

Fixpoint fill_labels (labname : string) (txt : bytes) (ov : list (Z * Z)) : M unit :=
  match ov with
  | [] => ret tt
  | (o, v) :: ov' =>
      let* s := _null_terminate (slice_from o txt) in
      add_label labname v s ;;
      fill_labels labname txt ov'
  end.

(** One pass of the loop over the label tables: [false] for [break]. *)
Definition read_one_label_table (version : Z) (bo : Struct.byteorder) : M bool :=
  let* stop :=
    (if 117 <=? version
     then (let* tag := read 5 in ret (bytes_eqb tag [60; 47; 118; 97; 108]))  (* b'</val' *)
     else ret false) in
  if (stop : bool) then ret false else
  let* slength := read 4 in
  if Nat.eqb (length slength) 0 then ret false else
  let* b := read 33 in
  let* labname := _null_terminate b in
  read 3 ;;
  let* n := read_I bo in
  let* txtlen := read_I bo in
  let* off := replicateM (Z.to_nat n) (read_I bo) in
  let* val := replicateM (Z.to_nat n) (read_I bo) in
  let* txt := read txtlen in
  new_label_table labname ;;
  fill_labels labname txt (combine off val) ;;
  (if 117 <=? version then (read 6 ;; ret tt) else ret tt) ;;
  ret true.

Fixpoint label_tables (fuel : nat) (version : Z) (bo : Struct.byteorder) : M unit :=
  match fuel with
  | O => lift OutOfFuel
  | S fuel' =>
      let* continue := read_one_label_table version bo in
      if (continue : bool) then label_tables fuel' version bo else ret tt
  end.

Definition _read_value_labels : M unit :=
  let* h := get hdr in
  (if 117 <=? format_version h
   then seek (seek_value_labels h)
   else
     let* data_read := get _data_read in
     if negb data_read then raise (PyException data_not_read_msg) else
     let* labels_read := get _value_labels_read in
     if (labels_read : bool) then raise (PyException labels_already_read_msg) else
     ret tt) ;;
  modify (set_value_label_dict ∅) ;;
  if format_version h <=? 108 then ret tt else
  let* buf := get path_or_buf in
  label_tables (S (length buf)) (format_version h) (byteorder h) ;;
  modify (set_value_labels_read true).

Definition gso_tag : bytes := [71; 83; 79].

(** [struct.unpack(bo + 'L', read(8))]: ['L'] with a byte-order character
    is four bytes wide, so eight bytes are a [struct.error]. *)
Fixpoint strls (fuel : nat) (bo : Struct.byteorder) : M unit :=
  match fuel with
  | O => lift OutOfFuel
  | S fuel' =>
      let* tag := read 3 in
      if negb (bytes_eqb tag gso_tag) then ret tt else
      let* b := read 8 in
      let* v_o := lift (unpack_unsigned bo 4 b) in
      read 1 ;;
      let* length := read_I bo in
      let* s := read (length - 1) in
      modify (fun r => set_GSO (<[ v_o := s ]> (default ∅ (GSO r))) r) ;;
      read 1 ;;
      strls fuel' bo
  end.

Definition _read_strls : M unit :=
  let* h := get hdr in
  seek (seek_strls h) ;;
  modify (set_GSO ∅) ;;
  let* buf := get path_or_buf in
  strls (S (length buf)) (byteorder h).

(** *** The data block *)

(** The width of a field of the record dtype. *)
Definition field_width (t : StataParser.typ) : Z :=
  match t with
  | Tstr n => Z.max 0 n
  | _ => default 0 (NUMPY_TYPE_MAP t)
  end.

Fixpoint split_fields (widths : list Z) (rec : bytes) : list bytes :=
  match widths with
  | [] => []
  | w :: ws => firstn (Z.to_nat w) rec :: split_fields ws (skipn (Z.to_nat w) rec)
  end.

Fixpoint split_records (count : nat) (itemsize : Z) (buf : bytes) : list bytes :=
  match count with
  | O => []
  | S c => firstn (Z.to_nat itemsize) buf
           :: split_records c itemsize (skipn (Z.to_nat itemsize) buf)
  end.

(** [np.frombuffer(buf, dtype=dtype, count=count)]: the rows, each a
    list of raw fields. *)
Definition frombuffer (buf : bytes) (typs : list StataParser.typ) (count : Z)
  : result (list (list bytes)) :=
  let widths := map field_width typs in
  let itemsize := fold_right Z.add 0 widths in
  if itemsize =? 0 then Raise (ValueError "itemsize cannot be zero in type")
  else if Z.of_nat (length buf) <? count * itemsize
  then Raise (ValueError "buffer is smaller than requested size")
  else Ok (map (split_fields widths) (split_records (Z.to_nat count) itemsize buf)).

(** A numpy ['S'] cell drops its trailing null bytes. *)
Fixpoint strip_trailing_nulls (s : bytes) : bytes :=
  match s with
  | [] => []
  | b :: s' =>
      match strip_trailing_nulls s' with
      | [] => if b =? 0 then [] else [b]
      | t => b :: t
      end
  end.

(** Column [i] of the records.  The record dtype has no byte-order
    character: the numeric fields are read in the byte order of the
    host. *)
Definition raw_column (rows : list (list bytes)) (i : nat) : list bytes :=
  map (fun row => nth i row []) rows.

Definition typed_column (t : StataParser.typ) (cells : list bytes) : M series :=
  match t with
  | Tb => ret (IntSeries int8 (map (fun c => to_signed 8 (value native c)) cells))
  | Th => ret (IntSeries int16 (map (fun c => to_signed 16 (value native c)) cells))
  | Tl => ret (IntSeries int32 (map (fun c => to_signed 32 (value native c)) cells))
  | Tf => ret (Float32 (map (value native) cells))
  | Td => ret (Float64 (map (value native) cells))
  | Tstr _ =>
      (fix go (cs : list bytes) : M series :=
         match cs with
         | [] => ret (Object_ [])
         | c :: cs' =>
             let* s := _null_terminate (strip_trailing_nulls c) in
             let* rest := go cs' in
             match rest with
             | Object_ v => ret (Object_ (OStr s :: v))
             | other => ret other
             end
         end) cells
  end.

Fixpoint typed_columns (rows : list (list bytes)) (i : nat)
         (cols : list (string * StataParser.typ)) : M frame :=
  match cols with
  | [] => ret []
  | (name, t) :: cols' =>
      let* col := typed_column t (raw_column rows i) in
      let* rest := typed_columns rows (S i) cols' in
      ret ((LStr name, col) :: rest)
  end.

(** *** Missing values *)

Definition cell_is_missing (fmt : StataParser.typ) (nmin nmax : Z) (x : Z) : bool :=
  match fmt with
  | Tf => Float.ltb Float.binary32 x nmin || Float.ltb Float.binary32 nmax x
  | Td => Float.ltb Float.binary64 x nmin || Float.ltb Float.binary64 nmax x
  | _ => (x <? nmin) || (nmax <? x)
  end.

(** The Python number in a numeric cell. *)
Definition cell_number (fmt : StataParser.typ) (x : Z) : PyNum.t :=
  match fmt with
  | Tf => PyNum.PyFloat (PyNum.widen x)
  | Td => PyNum.PyFloat x
  | _ => PyNum.PyInt x
  end.

(** [replacement.iloc[loc] = StataMissingValue(um)] for each distinct
    missing value [um] of the column: every missing cell gets the marker
    of its value, and the first value that is no key of the table
    raises. *)
Definition to_marker (fmt : StataParser.typ) (nmin nmax : Z) (x : Z) : result obj :=
  if cell_is_missing fmt nmin nmax x
  then rbind (StataMissingValue.__init__ (cell_number fmt x)) (fun m => Ok (OMissing m))
  else Ok (ONum (cell_number fmt x)).

Definition to_nan (fmt : StataParser.typ) (nmin nmax : Z) (x : Z) : Z :=
  match fmt with
  | Tf => if cell_is_missing fmt nmin nmax x then Float.nan Float.binary32 else x
  | Td => if cell_is_missing fmt nmin nmax x then Float.nan Float.binary64 else x
  | _ => if cell_is_missing fmt nmin nmax x then Float.nan Float.binary64
         else Float.of_Z Float.binary64 x
  end.

Definition numeric_cells (s : series) : option (list Z) :=
  match s with
  | IntSeries _ v | Float32 v | Float64 v => Some v
  | _ => None
  end.

(** The body of [for i, colname in enumerate(data)] in [data]. *)
Definition replace_missing (_missing_values : bool) (fmt : StataParser.typ) (col : series)
  : result series :=
  match VALID_RANGE fmt, numeric_cells col with
  | Some (nmin, nmax), Some v =>
      if negb (existsb (cell_is_missing fmt nmin nmax) v) then Ok col
      else if _missing_values
      then rbind (rmapM (to_marker fmt nmin nmax) v) (fun cells => Ok (Object_ cells))
      else Ok (match fmt with
               | Tf => Float32 (map (to_nan fmt nmin nmax) v)
               | _ => Float64 (map (to_nan fmt nmin nmax) v)
               end)
  | _, _ => Ok col
  end.

Fixpoint replace_all_missing (_missing_values : bool) (typs : list StataParser.typ)
         (data : frame) : result frame :=
  match data, typs with
  | (name, col) :: data', fmt :: typs' =>
      rbind (replace_missing _missing_values fmt col) (fun col' =>
      rbind (replace_all_missing _missing_values typs' data') (fun rest =>
      Ok ((name, col') :: rest)))
  | _, _ => Ok data
  end.

(** *** Dates and categoricals *)

Fixpoint convert_date_columns (fmts : list string) (data : frame) : result frame :=
  match data, fmts with
  | (name, col) :: data', fmt :: fmts' =>
      rbind (if fmt_in fmt StataDates._date_formats
             then StataDates._stata_elapsed_date_to_datetime_vec col fmt
             else Ok col) (fun col' =>
      rbind (convert_date_columns fmts' data') (fun rest =>
      Ok ((name, col') :: rest)))
  | _, _ => Ok data
  end.

Definition float_int_value (f : Float.format) (b : Z) : option Z :=
  if Float.is_finite f b then
    let '(m, e) := PyNum.normalize (Float.finite_value f b) in
    if 0 <=? e then Some (m * 2 ^ e) else None
  else None.

Definition num_int_value (x : PyNum.t) : option Z :=
  match x with
  | PyNum.PyInt z => Some z
  | PyNum.PyFloat b => float_int_value Float.binary64 b
  end.

(** [labeled_data[(data[col] == k).values] = v] for every [(k, v)] of the
    table: a cell equal to a key becomes its label. *)
Definition label_cell (tbl : gmap Z string) (o : obj) (code : option Z) : obj :=
  match code with
  | Some k => match tbl !! k with Some v => OStr v | None => o end
  | None => o
  end.

Definition labeled (tbl : gmap Z string) (col : series) : series :=
  match col with
  | IntSeries _ v =>
      Object_ (map (fun z => label_cell tbl (ONum (PyNum.PyInt z)) (Some z)) v)
  | Float32 v =>
      Object_ (map (fun b => label_cell tbl (ONum (PyNum.PyFloat (PyNum.widen b)))
                               (float_int_value Float.binary32 b)) v)
  | Float64 v =>
      Object_ (map (fun b => label_cell tbl (ONum (PyNum.PyFloat b))
                               (float_int_value Float.binary64 b)) v)
  | Datetime64 v => Object_ (map (fun _ => ONaT) v)
  | Object_ v =>
      Object_ (map (fun o => label_cell tbl o
                               (match o with ONum x => num_int_value x | _ => None end)) v)
  end.

Fixpoint convert_categorical_columns (d : gmap string (gmap Z string))
         (lbls : list string) (data : frame) : frame :=
  match data, lbls with
  | (name, col) :: data', lbl :: lbls' =>
      (name, match d !! lbl with Some tbl => labeled tbl col | None => col end)
      :: convert_categorical_columns d lbls' data'
  | _, _ => data
  end.

(** *** [data]

  [index] is left at its default [None].  The step that rebuilds columns
  whose dtype differs from [dtyplist] changes no cell and is left out:
  a record field already has the dtype of its type code. *)

Definition data (convert_dates convert_categoricals convert_missing : bool) : M frame :=
  modify (set_missing_values convert_missing) ;;
  let* already := get _data_read in
  if (already : bool) then raise (PyException data_already_read_msg) else
  modify (set_data_read true) ;;
  let* h := get hdr in
  (if 117 <=? format_version h then _read_strls else ret tt) ;;
  let count := nobs h in
  let itemsize := fold_right Z.add 0 (map field_width (typlist h)) in
  let read_len := count * itemsize in
  seek (data_location h) ;;
  let* buf := read read_len in
  let* rows := lift (frombuffer buf (typlist h) count) in
  modify (set_data_read true) ;;
  (if convert_categoricals then _read_value_labels else ret tt) ;;
  let* data :=
    (if Nat.eqb (length rows) 0
     then ret (map (fun name => (LStr name, Object_ [])) (varlist h))
     else typed_columns rows 0 (combine (varlist h) (typlist h))) in
  let* missing_values := get _missing_values in
  let* data := lift (replace_all_missing missing_values (typlist h) data) in
  let* data :=
    (if convert_dates then lift (convert_date_columns (fmtlist h) data) else ret data) in
  if convert_categoricals then
    let* d := get value_label_dict in
    match d with
    | Some d => ret (convert_categorical_columns d (lbllist h) data)
    | None => raise (AttributeError "'StataReader' object has no attribute 'value_label_dict'")
    end
  else ret data.

Definition variable_labels : M (list (string * string)) :=
  let* h := get hdr in ret (combine (varlist h) (vlblist h)).

Definition value_labels : M (gmap string (gmap Z string)) :=
  let* labels_read := get _value_labels_read in
  (if negb labels_read then _read_value_labels else ret tt) ;;
  let* d := get value_label_dict in
  match d with
  | Some d => ret d
  | None => raise (AttributeError "'StataReader' object has no attribute 'value_label_dict'")
  end.

End Reader.

(** ** Names used in the statements *)

(** The kinds of numeric column. *)
Inductive kind := Kint8 | Kint16 | Kint32 | Kfloat32 | Kfloat64.

Definition kinds : list kind := [Kint8; Kint16; Kint32; Kfloat32; Kfloat64].

(** The [i]-th missing value of a kind, as the loops of
  [StataMissingValue] produce it: [i + b] for the integer kinds, the
  number with bit pattern [base + i * increment] for the others. *)
Definition sentinel (k : kind) (i : Z) : PyNum.t :=
match k with
| Kint8 => PyNum.PyInt (i + 101)
| Kint16 => PyNum.PyInt (i + 32741)
| Kint32 => PyNum.PyInt (i + 2147483621)
| Kfloat32 => PyNum.PyFloat (PyNum.widen (0x7f000000 + i * 0x00000800))
| Kfloat64 => PyNum.PyFloat (0x7fe0000000000000 + i * 0x0000010000000000)
end.

(** The symbol a value stands for, if it is a missing value. *)
Definition symbol_for (v : PyNum.t) : option string :=
StataMissingValue.MISSING_VALUES !! PyNum.key v.

Definition pair_eqb (a b : Z * Z) : bool := (fst a =? fst b) && (snd a =? snd b).


(** *** A synthetic file in format 117

  The file has its sections in the order of the format description; every
  entry of the map is the offset of the opening tag of its section. *)

Module Example117.

Import Struct.

Fixpoint bytes_of_string (s : string) : bytes :=
  match s with
  | EmptyString => []
  | String c s' => Z.of_N (Ascii.N_of_ascii c) :: bytes_of_string s'
  end.

Definition padded (width : nat) (s : string) : bytes :=
  bytes_of_string s ++ repeat 0 (width - String.length s).

Definition q (v : Z) : bytes := to_bytes LittleEndian 8 (v mod 2 ^ 64).

Definition preamble (nvar nobs : Z) : bytes :=
  bytes_of_string "<stata_dta><header><release>117</release><byteorder>LSF</byteorder><K>"
  ++ to_bytes LittleEndian 2 nvar
  ++ bytes_of_string "</K><N>"
  ++ to_bytes LittleEndian 4 nobs
  ++ bytes_of_string "</N><label>" ++ [0]
  ++ bytes_of_string "</label><timestamp>" ++ [0]
  ++ bytes_of_string "</timestamp></header>".

Definition section (tag : string) (content : bytes) : bytes :=
  bytes_of_string ("<" +:+ tag +:+ ">") ++ content ++ bytes_of_string ("</" +:+ tag +:+ ">").

(** One variable named [x] with type code [code], one observation
    [cell]; [stored_variable_labels] is what the map holds for the
    section of variable labels. *)
Definition file (code : Z) (cell : bytes) (stored_variable_labels : Z) : bytes :=
  let pre := preamble 1 1 in
  let vartypes := section "variable_types" (to_bytes LittleEndian 2 code) in
  let varnames := section "varnames" (padded 33 "x") in
  let sortlist := section "sortlist" (repeat 0 4) in
  let formats := section "formats" (padded 49 "%8.0g") in
  let vlnames := section "value_label_names" (padded 33 "") in
  let vlabels := section "variable_labels" (padded 81 "the label") in
  let chars := section "characteristics" [] in
  let data := section "data" cell in
  let strls := section "strls" [] in
  let vals := section "value_labels" [] in
  let o_map := Z.of_nat (length pre) in
  let o1 := o_map + 5 + 14 * 8 + 6 in
  let o2 := o1 + Z.of_nat (length vartypes) in
  let o3 := o2 + Z.of_nat (length varnames) in
  let o4 := o3 + Z.of_nat (length sortlist) in
  let o5 := o4 + Z.of_nat (length formats) in
  let o6 := o5 + Z.of_nat (length vlnames) in
  let o7 := o6 + Z.of_nat (length vlabels) in
  let o8 := o7 + Z.of_nat (length chars) in
  let o9 := o8 + Z.of_nat (length data) in
  let o10 := o9 + Z.of_nat (length strls) in
  let o11 := o10 + Z.of_nat (length vals) in
  pre ++ bytes_of_string "<map>"
  ++ q 0 ++ q o_map ++ q o1 ++ q o2 ++ q o3 ++ q o4 ++ q o5
  ++ q stored_variable_labels ++ q o7 ++ q o8 ++ q o9 ++ q o10 ++ q o11
  ++ q (o11 + 12)
  ++ bytes_of_string "</map>"
  ++ vartypes ++ varnames ++ sortlist ++ formats ++ vlnames ++ vlabels
  ++ chars ++ data ++ strls ++ vals ++ bytes_of_string "</stata_dta>".


End Example117.

(** *** A file in format 114 and one in format 108

  The file in format 114 has one variable [x] of type byte (code 251)
  and the observations [cells]; the one in format 108 has no variable
  and no observation. *)

Module ExampleLegacy.

Import Struct.

Definition zeros (n : nat) : bytes := repeat 0 n.

Definition file114 (cells : bytes) : bytes :=
  [114; 2; 1; 0] ++ to_bytes LittleEndian 2 1
  ++ to_bytes LittleEndian 4 (Z.of_nat (length cells))
  ++ zeros 81 ++ zeros 18
  ++ [251] ++ Example117.padded 33 "x" ++ zeros 4
  ++ Example117.padded 49 "%8.0g" ++ zeros 33 ++ zeros 81
  ++ zeros 5 ++ cells.

Definition file108 : bytes :=
  [108; 2; 1; 0] ++ to_bytes LittleEndian 2 0
  ++ to_bytes LittleEndian 4 0
  ++ zeros 81 ++ zeros 18
  ++ zeros 2
  ++ zeros 3.

(** The reader, or a reader of nothing if the header is refused. *)
Definition open (file : bytes) : Reader.StataReader :=
  from_result
    {| Reader.path_or_buf := []; Reader.position := 0;
       Reader._encoding := Reader.latin_1; Reader.hdr := Reader.empty_header;
       Reader._missing_values := false; Reader._data_read := false;
       Reader._value_labels_read := false;
       Reader.value_label_dict := None; Reader.GSO := None |}
    (Reader.__init__ file Reader.latin_1).

End ExampleLegacy.

(** *** Calls of the public and lazy methods of a reader *)

Inductive call : Type :=
| Data (convert_dates convert_categoricals convert_missing : bool)
| ValueLabels
| ReadValueLabels
| VariableLabels.

Definition forget {A} (x : result A * Reader.StataReader) : result unit * Reader.StataReader :=
(rbind (fst x) (fun _ => Ok tt), snd x).

Definition run (c : call) (r : Reader.StataReader) : result unit * Reader.StataReader :=
match c with
| Data a b c => forget (Reader.data a b c r)
| ValueLabels => forget (Reader.value_labels r)
| ReadValueLabels => Reader._read_value_labels r
| VariableLabels => forget (Reader.variable_labels r)
end.

(** The reader after a sequence of calls, whatever each of them returned
  or raised. *)
Definition run_all (cs : list call) (r : Reader.StataReader) : Reader.StataReader :=
fold_left (fun r c => snd (run c r)) cs r.

(** *** Columns of the writer *)

(** The cells of an integer column lie in the range of its dtype. *)
Definition in_dtype_range (dt : dtype) (x : Z) : Prop :=
match dt with
| bool_ => 0 <= x <= 1
| uint8 | uint16 | uint32 => 0 <= x <= Cast.iinfo_max dt
| int8 | int16 | int32 | int64 => - Cast.iinfo_max dt - 1 <= x <= Cast.iinfo_max dt
| _ => True
end.

(** The dtypes a Stata file can hold: [byte], [int], [long], [float] and
  [double]. *)
Definition stata_dtype (dt : dtype) : bool :=
match dt with
| int8 | int16 | int32 | float32 | float64 => true
| _ => false
end.

(** The dtypes [_cast_to_stata_types] is written for: [bool], [uint8],
  [uint16], [uint32], [int8], [int16], [int32], [int64], [float32] and
  [float64]. *)
Definition numeric_dtype (dt : dtype) : bool :=
match dt with
| datetime64 | object_ => false
| _ => true
end.

(** The cells of a column lie in the range of its dtype. *)
Definition column_in_range (col : series) : Prop :=
match col with
| IntSeries dt v => Forall (in_dtype_range dt) v
| _ => True
end.

(** An [int64] column with a cell of magnitude [2 ^ 53] or more. *)
Definition loses_precision (col : series) : bool :=
match col with
| IntSeries int64 v => existsb (fun x => (2 ^ 53 <=? x) || (x <=? - 2 ^ 53)) v
| _ => false
end.

(** What the cast makes of a column, [col'] from [col], in the words of
  the claim. *)
Definition cast_of (col col' : series) : Prop :=
(forall v, col = IntSeries int8 v ->
   col' = if existsb (fun x => 100 <? x) v || existsb (fun x => x <? - 127) v
          then IntSeries int16 v else IntSeries int8 v)
/\ (forall v, col = IntSeries int16 v ->
      col' = if existsb (fun x => 32740 <? x) v || existsb (fun x => x <? - 32767) v
             then IntSeries int32 v else IntSeries int16 v)
/\ (forall v, col = IntSeries int64 v -> v <> [] ->
      col' = if forallb (fun x => (- 2147483647 <=? x) && (x <=? 2147483620)) v
             then IntSeries int32 v
             else Float64 (map (Float.of_Z Float.binary64) v))
/\ (numeric_dtype (Cast.series_dtype col) = true ->
    stata_dtype (Cast.series_dtype col') = true).

(** *** Column names *)

(** One pass of the loop against duplicates. *)
Definition next_name (id : Z) (name : string) : string :=
Names.truncate ("_" +:+ pretty id +:+ name).

(** [renamed id name id' name']: [name'] comes from [name] by prepending
  ['_'] and the counter, from [id] up to [id' - 1], and cutting to 32
  characters each time. *)
Inductive renamed : Z -> string -> Z -> string -> Prop :=
| renamed_here id name : renamed id name id name
| renamed_next id name id' name' :
  renamed (id + 1) (next_name id name) id' name' -> renamed id name id' name'.

(** The lines of the warning: one for each column whose name changed, in
  the order of the columns. *)
Definition rename_log (olds news : list label) : list string :=
flat_map (fun '(o, n) =>
            if Names.label_eqb n o then []
            else [Names.logged_name o +:+ "   ->   " +:+ Names.text_type n])
         (combine olds news).

Fixpoint smap (f : ascii -> ascii) (s : string) : string :=
match s with
| EmptyString => EmptyString
| String c s' => String (f c) (smap f s')
end.

Definition starts_with_digit (s : string) : bool :=
match s with
| String c _ => Names.is_digit c
| EmptyString => false
end.

(** The name of a column before the check for duplicates: every character
  outside [A-Za-z0-9_] replaced by ['_'], a ['_'] in front of a reserved
  word, a ['_'] in front of a digit, and at most 32 characters. *)
Definition clean_name (s : string) : string :=
let s1 := smap (fun c => if Names.is_invalid c then "_"%char else c) s in
let s2 := if existsb (String.eqb s1) StataParser.RESERVED_WORDS then "_" +:+ s1 else s1 in
let s3 := if starts_with_digit s2 then "_" +:+ s2 else s2 in
Names.truncate s3.

(** How the new label of a column relates to its old one. *)
Definition checked_name (old new : label) : Prop :=
exists name,
  new = LStr name
  /\ (String.length name <= 32)%nat
  /\ (old = LStr (clean_name (Names.text_type old)) -> new = old)
  /\ (old <> LStr (clean_name (Names.text_type old)) ->
      new <> old
      /\ exists id id', 0 <= id <= id'
                        /\ renamed id (clean_name (Names.text_type old)) id' name).

(** ** The date tags and their grids

  The Stata Internal Format of a date is one number: milliseconds or
  days since 1960-01-01 for [tc] and [td], a count of weeks, months,
  quarters or half-years since 1960 for [tw], [tm], [tq] and [th], and
  the year for [ty].  A tag keeps a date only up to its own resolution,
  its grid. *)

Module DateTag.

Import Calendar.

Inductive t := tc | td | tw | tm | tq | th | ty.

(** The two spellings under which both directions know a tag. *)
Definition spellings (x : t) : list string :=
  match x with
  | tc => ["%tc"; "tc"]
  | td => ["%td"; "td"]
  | tw => ["%tw"; "tw"]
  | tm => ["%tm"; "tm"]
  | tq => ["%tq"; "tq"]
  | th => ["%th"; "th"]
  | ty => ["%ty"; "ty"]
  end.

(** Days since 1 January of the same year. *)
Definition yday (x : datetime) : Z := toordinal x - ymd2ord (year x) 1 1.

Definition midnight (x : datetime) : bool := time_us x =? 0.

Definition on_grid (g : t) (x : datetime) : bool :=
  match g with
  | tc => microsecond x mod 1000 =? 0
  | td => midnight x
  | tw => midnight x && (yday x mod 7 =? 0) && (yday x <? 364)
  | tm => midnight x && (day x =? 1)
  | tq => midnight x && (day x =? 1) && ((month x - 1) mod 3 =? 0)
  | th => midnight x && (day x =? 1) && ((month x - 1) mod 6 =? 0)
  | ty => midnight x && (day x =? 1) && (month x =? 1)
  end.

(** The years in which both directions work on [datetime64[ns]] cells
    without leaving the int64 range: the decoder takes its vectorised
    branch for years after [Timestamp.min.year] and before
    [Timestamp.max.year] (one year less for [tw]); [dates - stata_epoch]
    of the encoder stays an int64 up to 2251, and a count of
    microseconds stays below [2 ^ 53] up to 2244. *)
Definition first_year : Z := 1678.

Definition last_year (g : t) : Z :=
  match g with
  | tc => 2244
  | td => 2251
  | tw => 2260
  | tm | tq | th | ty => 2261
  end.

Definition in_range (g : t) (x : datetime) : bool :=
  valid_datetime x && (first_year <=? year x) && (year x <=? last_year g).

(** The number that stands for a date. *)
Definition sif (g : t) (x : datetime) : Z :=
  match g with
  | tc => (toordinal x - toordinal StataDates.stata_epoch) * 86400000 + time_us x / 1000
  | td => toordinal x - toordinal StataDates.stata_epoch
  | tw => 52 * (year x - 1960) + yday x / 7
  | tm => 12 * (year x - 1960) + month x - 1
  | tq => 4 * (year x - 1960) + (month x - 1) / 3
  | th => 2 * (year x - 1960) + (if 6 <? month x then 1 else 0)
  | ty => year x
  end.

(** The float64 that the encoder stores for a null date. *)
Definition missing_date : Z := 0x7fe0000000000000.

(** A cell of a date column, a date or null: as [datetime64[ns]], and as
    the float64 that stands for it in the file. *)
Definition date_cell (o : option datetime) : Z :=
  match o with Some x => to_datetime64 x | None => NaT end.

Definition stored_cell (g : t) (o : option datetime) : Z :=
  match o with Some x => StataDates.of_int (sif g x) | None => missing_date end.

Definition cell_in_range (g : t) (o : option datetime) : Prop :=
  match o with
  | Some x => in_range g x = true /\ on_grid g x = true
  | None => True
  end.

End DateTag.

(** ** The writer

  The helpers of the module that [StataWriter] uses, and the methods
  that write the header of a file.  Text is a [string] of characters
  below 256, which latin-1, the encoding of the writer, maps to one byte
  each; the file is the list of the bytes written. *)

Module Writer.

Import Struct StataParser.

(** [s.encode('latin-1')]. *)
Fixpoint encode_bytewise (s : string) : bytes :=
  match s with
  | EmptyString => []
  | String c s' => Z.of_N (Ascii.N_of_ascii c) :: encode_bytewise s'
  end.

(** ["\x00" * n]: empty for [n <= 0]. *)
Definition nulls (n : Z) : string :=
  fold_right String EmptyString (repeat Ascii.zero (Z.to_nat n)).

Definition len (s : string) : Z := Z.of_nat (String.length s).

Definition _pad_bytes (name : string) (length : Z) : string :=
  name +:+ nulls (length - len name).

(** [s[:n]] for [n >= 0]. *)
Definition prefix (n : Z) (s : string) : string := String.substring 0 (Z.to_nat n) s.

(** [StataWriter._null_terminate]: the text and a null byte, encoded or
    not according to [as_string]; the bytes are the same. *)
Definition _null_terminate (s : string) : string := s +:+ String Ascii.zero EmptyString.

Definition _convert_datetime_to_stata_type (fmt : string) : result dtype :=
  if fmt_in fmt ["tc"; "%tc"; "td"; "%td"; "tw"; "%tw"; "tm"; "%tm"; "tq";
                 "%tq"; "th"; "%th"; "ty"; "%ty"]
  then Ok float64
  else Raise (ValueError ("fmt " +:+ fmt +:+ " not understood")).

(** [varlist.index(key)]. *)
Fixpoint index (key : label) (varlist : list label) : option Z :=
  match varlist with
  | [] => None
  | v :: varlist' =>
      if Names.label_eqb key v then Some 0
      else option_map Z.succ (index key varlist')
  end.

Definition startswith_percent (s : string) : bool :=
  match s with
  | String c _ => Ascii.eqb c "%"%char
  | EmptyString => false
  end.

(** [_maybe_convert_to_int_keys]: the keys of [convert_dates] in the
    order of the iteration.  The formats are corrected in the dictionary
    that was passed; the result is the new dictionary with the corrected
    one. *)
Fixpoint _maybe_convert_to_int_keys (convert_dates : list (label * string))
         (varlist : list label) (new_dict : gmap Z string)
  : result (gmap Z string * list (label * string)) :=
  match convert_dates with
  | [] => Ok (new_dict, [])
  | (key, fmt) :: rest =>
      let fmt := if negb (startswith_percent fmt) then "%" +:+ fmt else fmt in
      let continue (k : Z) :=
        rbind (_maybe_convert_to_int_keys rest varlist (<[k := fmt]> new_dict))
              (fun '(d, rest') => Ok (d, (key, fmt) :: rest')) in
      match index key varlist with
      | Some i => continue i
      | None =>
          match key with
          | LInt k => continue k
          | LStr _ => Raise (ValueError
                        "convert_dates key is not in varlist and is not an int")
          end
      end
  end.

(** [str(dtype)]. *)
Definition dtype_name (dt : dtype) : string :=
  match dt with
  | bool_ => "bool" | uint8 => "uint8" | uint16 => "uint16" | uint32 => "uint32"
  | int8 => "int8" | int16 => "int16" | int32 => "int32" | int64 => "int64"
  | float32 => "float32" | float64 => "float64"
  | datetime64 => "datetime64[ns]" | object_ => "object"
  end.

Definition not_understood (dt : dtype) : exn :=
  ValueError ("Data type " +:+ dtype_name dt +:+ " not currently understood. "
              +:+ "Please report an error to the developers.").

(** The dtypes of numpy that [_dtype_to_stata_type] tells apart: the
    fixed-width strings, [np.dtype('S5')] with its [itemsize] 5, and the
    dtypes a column of a frame can have. *)
Inductive numpy_dtype : Type :=
| string_ (itemsize : Z)
| column (dt : dtype).

Coercion column : dtype >-> numpy_dtype.

(** [_dtype_to_stata_type]: the ordinal of the character it returns;
    [chr] takes the numbers below [0x110000]. *)
Definition _dtype_to_stata_type (dt : numpy_dtype) : result Z :=
  match dt with
  | string_ itemsize =>
      if (0 <=? itemsize) && (itemsize <? 1114112) then Ok itemsize
      else Raise (ValueError "chr() arg not in range(0x110000)")
  | column object_ => Ok 244
  | column float64 => Ok 255
  | column float32 => Ok 254
  | column int32 => Ok 253
  | column int16 => Ok 252
  | column int8 => Ok 251
  | column dt => Raise (not_understood dt)
  end.

Definition excessive_string_length_error (name : string) : string :=
  "
Fixed width strings in Stata .dta files are limited to 244 (or fewer) characters.
Column '" +:+ name +:+ "' does not satisfy this restriction.
".

(** [isnull] of a cell of an object column, [infer_dtype] of the cells
    that are left, and [max_len_string_array], which only measures
    strings. *)
Definition is_string (o : obj) : bool :=
  match o with OStr _ => true | _ => false end.

Definition inferred_string (cells : list obj) : bool :=
  let left := List.filter (fun o => negb (StataDates.obj_isnull o)) cells in
  negb (Nat.eqb (List.length left) 0) && forallb is_string left.

Definition max_len_string_array (cells : list obj) : Z :=
  fold_left (fun m o => match o with OStr s => Z.max m (len s) | _ => m end) cells 0.

Definition _dtype_to_default_stata_fmt (dt : dtype) (name : label) (column : series)
  : result string :=
  match dt with
  | object_ =>
      let cells := match column with Object_ v => v | _ => [] end in
      let length := match column with
                    | IntSeries _ v | Float32 v | Float64 v | Datetime64 v => List.length v
                    | Object_ v => List.length v
                    end in
      if negb (inferred_string cells || Nat.eqb length 0)
      then Raise (ValueError "Writing general object arrays is not supported")
      else
        let itemsize := max_len_string_array cells in
        if 244 <? itemsize
        then Raise (ValueError (excessive_string_length_error (Names.text_type name)))
        else Ok ("%" +:+ pretty itemsize +:+ "s")
  | float64 => Ok "%10.0g"
  | float32 => Ok "%9.0g"
  | int32 => Ok "%12.0g"
  | int8 | int16 => Ok "%8.0g"
  | _ => Raise (not_understood dt)
  end.

(** [StataWriter._replace_nans]: [fillna] with the generic missing value
    of the kind. *)
Definition fillna (f : Float.format) (replacement : Z) (v : list Z) : list Z :=
  map (fun x => if Float.is_nan f x then replacement else x) v.

Definition _replace_nans (data : frame) : frame :=
  map (fun '(c, col) =>
         match col with
         | Float32 v =>
             (c, Float32 (fillna Float.binary32 (Struct.value LittleEndian [0; 0; 0; 127]) v))
         | Float64 v =>
             (c, Float64 (fillna Float.binary64
                            (Struct.value LittleEndian [0; 0; 0; 0; 0; 0; 224; 127]) v))
         | _ => (c, col)
         end) data.

(** *** The header *)

Record StataWriter := {
  _byteorder : Struct.byteorder;
  nvar : Z;
  nobs : Z;
  typlist : list Z;
  varlist : list string;
  fmtlist : list string
}.

(** [time_stamp.strftime("%d %b %Y %H:%M")] in the C locale; Python 2
    refuses a year before 1900. *)
Definition two_digits (n : Z) : string :=
  if n <? 10 then "0" +:+ pretty n else pretty n.

Definition month_abbr (m : Z) : string :=
  nth (Z.to_nat m) [""; "Jan"; "Feb"; "Mar"; "Apr"; "May"; "Jun";
                    "Jul"; "Aug"; "Sep"; "Oct"; "Nov"; "Dec"] "".

Definition strftime (x : Calendar.datetime) : result string :=
  if Calendar.year x <? 1900
  then Raise (ValueError ("year=" +:+ pretty (Calendar.year x) +:+ " is before 1900; "
                          +:+ "the datetime strftime() methods require year >= 1900"))
  else Ok (two_digits (Calendar.day x) +:+ " " +:+ month_abbr (Calendar.month x) +:+ " "
           +:+ pretty (Calendar.year x) +:+ " " +:+ two_digits (Calendar.hour x) +:+ ":"
           +:+ two_digits (Calendar.minute x)).

(** [_write_header(data_label, time_stamp)], with [time_stamp] a
    datetime: the bytes it writes. *)
Definition _write_header (self : StataWriter) (data_label : option string)
           (time_stamp : Calendar.datetime) : result bytes :=
  rbind (pack_signed native 1 114) (fun version =>
  let byteorder := if match _byteorder self with BigEndian => true | _ => false end
                   then [1] else [2] in
  rbind (pack_signed (_byteorder self) 2 (nvar self)) (fun nvar_ =>
  rbind (pack_signed (_byteorder self) 4 (nobs self)) (fun nobs_ =>
  let label :=
    match data_label with
    | None => _null_terminate (_pad_bytes "" 80)
    | Some data_label => _null_terminate (_pad_bytes (prefix 80 data_label) 80)
    end in
  rbind (strftime time_stamp) (fun stamp =>
  Ok (version ++ byteorder ++ [1] ++ [0] ++ firstn 2 nvar_ ++ firstn 4 nobs_
      ++ encode_bytewise label ++ encode_bytewise (_null_terminate stamp)))))).

Definition chr (code : Z) : string :=
  String (Ascii.ascii_of_N (Z.to_N code)) EmptyString.

Definition _write_descriptors (self : StataWriter) : bytes :=
  let nvar := nvar self in
  concat (map (fun typ => encode_bytewise (chr typ)) (typlist self))
  ++ concat (map (fun name =>
                    let name := _null_terminate name in
                    encode_bytewise (_pad_bytes (prefix 32 name) 33)) (varlist self))
  ++ encode_bytewise (_pad_bytes "" (2 * (nvar + 1)))
  ++ concat (map (fun fmt => encode_bytewise (_pad_bytes fmt 49)) (fmtlist self))
  ++ concat (repeat (encode_bytewise (_pad_bytes "" 33)) (Z.to_nat nvar)).

Definition _write_variable_labels (self : StataWriter) : bytes :=
  concat (repeat (encode_bytewise (_pad_bytes "" 81)) (Z.to_nat (nvar self))).

(** [write_file] up to the data: the header, the descriptors, the
    variable labels and the five zeros of the expansion fields. *)
Definition write_file_head (self : StataWriter) (data_label : option string)
           (time_stamp : Calendar.datetime) : result bytes :=
  rbind (_write_header self data_label time_stamp) (fun header =>
  Ok (header ++ _write_descriptors self ++ _write_variable_labels self
      ++ encode_bytewise (_pad_bytes "" 5))).

End Writer.

(** * Theorems *)

(** ** Finite ranges *)

Lemma range_spec (a b i : Z) : In i (StataMissingValue.range a b) <-> a <= i < b.
Proof.
unfold StataMissingValue.range. rewrite in_map_iff. split.
- intros (n & <- & Hn). apply in_seq in Hn. lia.
- intros H. exists (Z.to_nat (i - a)). split; [lia|]. apply in_seq. lia.
Qed.

Lemma forallb_range (P : Z -> bool) (a b : Z) :
forallb P (StataMissingValue.range a b) = true ->
forall i, a <= i < b -> P i = true.
Proof.
intros H i Hi. rewrite forallb_forall in H. apply H, range_spec, Hi.
Qed.

Lemma pair_eqb_eq (a b : Z * Z) : pair_eqb a b = true <-> a = b.
Proof.
destruct a, b. unfold pair_eqb. simpl.
rewrite andb_true_iff, !Z.eqb_eq. split; [intros []|intros [=]]; subst; auto.
Qed.

(** ** The table of missing values *)

Section MissingValues.

Import StataMissingValue PyNum Struct.

(** The three loops end without an exception and leave 5 * 27 keys. *)
Definition is_ok {A} (r : result A) : bool :=
  match r with Ok _ => true | _ => false end.

Lemma MISSING_VALUES_built :
  MISSING_VALUES_build = Ok MISSING_VALUES /\ size MISSING_VALUES = 135%nat.
Proof.
  split; [|vm_compute; reflexivity].
  assert (H : is_ok MISSING_VALUES_build = true) by (vm_compute; reflexivity).
  unfold MISSING_VALUES. destruct MISSING_VALUES_build; simpl in *; congruence.
Qed.

Lemma increments :
  float32_increment = Ok 0x00000800 /\ float64_increment = Ok 0x0000010000000000.
Proof. split; reflexivity. Qed.

(** [base] at the start of pass [i] of each loop, read as an integer. *)
Definition base32_at (i : Z) : result Z :=
  rbind (float32_loop i ∅) (fun st => unpack_i LittleEndian (fst st)).

Definition base64_at (i : Z) : result Z :=
  rbind (float64_loop i ∅) (fun st => unpack_q native (fst st)).

Definition result_Z_eqb (r : result Z) (z : Z) : bool :=
  match r with Ok x => x =? z | _ => false end.

Lemma result_Z_eqb_eq r z : result_Z_eqb r z = true -> r = Ok z.
Proof. destruct r; simpl; try discriminate. intros ->%Z.eqb_eq. reflexivity. Qed.

Definition opt_string_eqb (o : option string) (s : string) : bool :=
  match o with Some x => String.eqb x s | None => false end.

Lemma opt_string_eqb_eq o s : opt_string_eqb o s = true -> o = Some s.
Proof. destruct o; simpl; try discriminate. intros ->%String.eqb_eq. reflexivity. Qed.

Definition patterns_check (i : Z) : bool :=
  result_Z_eqb (base32_at i) (0x7f000000 + i * 0x00000800)
  && result_Z_eqb (base64_at i) (0x7fe0000000000000 + i * 0x0000010000000000)
  && opt_string_eqb (symbol_for (sentinel Kfloat32 i)) (label i)
  && opt_string_eqb (symbol_for (sentinel Kfloat64 i)) (label i).

(** C8, as the code has it: in pass [i] of the float32 loop [base] is
    [0x7f000000 + i * 0x800]; in pass [i] of the float64 loop it is
    [0x7fe0000000000000 + i * 0x10000000000] (bytes 00 00 00 00 00 01 00 00
    read little-endian, that is [2 ^ 40]); the number with that bit
    pattern is the key under which the [i]-th symbol is stored. *)
Theorem float_sentinel_patterns (i : Z) :
  0 <= i < 27 ->
  base32_at i = Ok (0x7f000000 + i * 0x00000800)
  /\ base64_at i = Ok (0x7fe0000000000000 + i * 0x0000010000000000)
  /\ symbol_for (sentinel Kfloat32 i) = Some (label i)
  /\ symbol_for (sentinel Kfloat64 i) = Some (label i).
Proof.
  intros Hi.
  assert (H : patterns_check i = true).
  { revert i Hi. apply forallb_range. vm_compute. reflexivity. }
  unfold patterns_check in H.
  apply andb_prop in H as [H H4]. apply andb_prop in H as [H H3].
  apply andb_prop in H as [H1 H2].
  exact (conj (result_Z_eqb_eq _ _ H1)
           (conj (result_Z_eqb_eq _ _ H2)
              (conj (opt_string_eqb_eq _ _ H3) (opt_string_eqb_eq _ _ H4)))).
Qed.

Lemma float_sentinel_patterns_witness :
  0 <= 26 < 27
  /\ base32_at 26 = Ok 0x7f00d000
  /\ base64_at 26 = Ok 0x7fe01a0000000000
  /\ symbol_for (sentinel Kfloat32 26) = Some ".z"
  /\ symbol_for (sentinel Kfloat64 26) = Some ".z".
Proof. split; [lia|]. apply (float_sentinel_patterns 26). lia. Defined.

(** The increment of the float64 loop is not [0x0000000001000000]: the
    second pattern is [0x7fe0010000000000], and the number with pattern
    [0x7fe0000001000000] is no key of the table. *)
Lemma float64_increment_is_not_2_24 :
  float64_increment <> Ok 0x0000000001000000
  /\ base64_at 1 <> Ok (0x7fe0000000000000 + 1 * 0x0000000001000000)
  /\ symbol_for (PyFloat (0x7fe0000000000000 + 1 * 0x0000000001000000)) = None.
Proof.
  split; [|split].
  - vm_compute. discriminate.
  - vm_compute. discriminate.
  - vm_compute. reflexivity.
Qed.

(** The [i]-th missing value of each kind is stored under the [i]-th
    symbol. *)
Lemma sentinel_symbol (k : kind) (i : Z) :
  0 <= i < 27 -> symbol_for (sentinel k i) = Some (label i).
Proof.
  intros Hi. apply opt_string_eqb_eq. revert i Hi. apply forallb_range.
  destruct k; vm_compute; reflexivity.
Qed.

Definition bijection_check (k : kind) (i : Z) : bool :=
  opt_string_eqb (symbol_for (sentinel k i)) (label i)
  && forallb (fun j =>
                implb (String.eqb (label i) (label j)) (i =? j)
                && implb (pair_eqb (key (sentinel k i)) (key (sentinel k j))) (i =? j))
             (range 0 27).

(** C2: for each kind, the [i]-th missing value is stored under the
    [i]-th symbol, distinct indices have distinct symbols and distinct
    values: on the 27 missing values of a kind the table is a bijection
    onto the 27 symbols. *)
Theorem missing_values_bijection (k : kind) (i : Z) :
  0 <= i < 27 ->
  symbol_for (sentinel k i) = Some (label i)
  /\ (forall j, 0 <= j < 27 -> label i = label j -> i = j)
  /\ (forall j, 0 <= j < 27 -> key (sentinel k i) = key (sentinel k j) -> i = j).
Proof.
  intros Hi.
  assert (H : bijection_check k i = true).
  { revert i Hi. apply forallb_range. destruct k; vm_compute; reflexivity. }
  unfold bijection_check in H. apply andb_prop in H as [H1 H2].
  split; [apply opt_string_eqb_eq, H1|].
  split; intros j Hj E; pose proof (forallb_range _ _ _ H2 j Hj) as H;
    apply andb_prop in H as [Ha Hb].
  - rewrite E, String.eqb_refl in Ha. simpl in Ha. apply Z.eqb_eq, Ha.
  - apply pair_eqb_eq in E. rewrite E in Hb. simpl in Hb. apply Z.eqb_eq, Hb.
Qed.

Lemma missing_values_bijection_witness :
  0 <= 3 < 27
  /\ symbol_for (sentinel Kint16 3) = Some ".c"
  /\ (forall j, 0 <= j < 27 -> ".c" = label j -> 3 = j)
  /\ (forall j, 0 <= j < 27 -> key (sentinel Kint16 3) = key (sentinel Kint16 j) -> 3 = j).
Proof. split; [lia|]. apply (missing_values_bijection Kint16 3). lia. Defined.

(** The symbols are ['.'], ['.a'], ..., ['.z']. *)
Lemma labels_are_the_symbols :
  map label (range 0 27) =
  ["."; ".a"; ".b"; ".c"; ".d"; ".e"; ".f"; ".g"; ".h"; ".i"; ".j"; ".k"; ".l"; ".m";
   ".n"; ".o"; ".p"; ".q"; ".r"; ".s"; ".t"; ".u"; ".v"; ".w"; ".x"; ".y"; ".z"].
Proof. reflexivity. Qed.

End MissingValues.

(** ** The reader: monad laws used below *)

Section ReaderBasics.

Import Reader Struct.

Lemma bind_ok {A B} (m : M A) (k : A -> M B) r a r' :
  m r = (Ok a, r') -> bind m k r = k a r'.
Proof. unfold bind. intros ->. reflexivity. Qed.

Lemma bind_raise {A B} (m : M A) (k : A -> M B) r e r' :
  m r = (Raise e, r') -> bind m k r = (Raise e, r').
Proof. unfold bind. intros ->. reflexivity. Qed.

Lemma rmapM_raise_in {A B} (f : A -> result B) (l : list A) (x : A) e :
  (forall a, f a <> OutOfFuel) ->
  In x l -> f x = Raise e -> exists e', rmapM f l = Raise e'.
Proof.
  intros Hf. induction l as [|a l IH]; simpl; [tauto|].
  intros [->|Hin] Hx.
  - rewrite Hx. simpl. eauto.
  - destruct (f a) eqn:Ha; simpl; eauto.
    + destruct (IH Hin Hx) as [e' ->]. simpl. eauto.
    + exfalso. eapply Hf, Ha.
Qed.

End ReaderBasics.

(** ** Type codes of the tagged header *)

Section LongStrings.

Import Reader Struct StataParser.

Lemma xml_typ_fuel (typ : Z) : xml_typ typ <> OutOfFuel.
Proof.
  unfold xml_typ. destruct (typ <=? 2045); [discriminate|].
  destruct (typ =? 32768); [discriminate|].
  destruct (TYPE_MAP_XML typ); discriminate.
Qed.

Lemma xml_typ_long_string :
  xml_typ 32768 = Raise (ValueError "Long strings are not supported").
Proof. reflexivity. Qed.

(** C9, what the code does: a list of type codes that holds 32768 makes
    the [try] block raise, the bare [except] replaces that exception, and
    its own message is built with [','.join] on a list of integers, so
    the exception that leaves [_read_header] is a [TypeError]; the text
    about long strings is lost. *)
Theorem long_string_message_is_lost (typlist : list Z) :
  In 32768 typlist ->
  convert_types_117 typlist
  = Raise (TypeError "sequence item 0: expected str instance, int found").
Proof.
  intros Hin. unfold convert_types_117.
  destruct (rmapM_raise_in xml_typ typlist 32768 _ xml_typ_fuel Hin xml_typ_long_string)
    as [e ->].
  simpl. destruct typlist as [|t l]; [destruct Hin|]. reflexivity.
Qed.

Lemma long_string_message_is_lost_witness :
  In 32768 [65530; 32768]
  /\ convert_types_117 [65530; 32768]
     = Raise (TypeError "sequence item 0: expected str instance, int found").
Proof.
  split; [right; left; reflexivity|].
  apply (long_string_message_is_lost [65530; 32768]). right; left; reflexivity.
Defined.

(** The same on a whole file: a format-117 file whose only variable has
    type code 32768. *)
Example long_string_file :
  __init__ (Example117.file 32768 [0] 0) latin_1
  = Raise (TypeError "sequence item 0: expected str instance, int found").
Proof. vm_compute. reflexivity. Qed.

End LongStrings.

(** ** The map of the tagged header *)

Section HeaderMap.

Import Reader Struct StataParser.








(** The whole header of that file: the names, formats and labels are
    found at the corrected offsets. *)
Example header_of_synthetic_file :
  option_map (fun r => (varlist (hdr r), fmtlist (hdr r), lbllist (hdr r),
                        vlblist (hdr r), data_location (hdr r)))
    (match __init__ (Example117.file 65530 [7] (-1)) latin_1 with
     | Ok r => Some r | _ => None end)
  = Some (["x"], ["%8.0g"], [""], ["the label"], 670).
Proof. vm_compute. reflexivity. Qed.

End HeaderMap.

(** ** Missing values on read *)

Section MissingOnRead.

Import Reader Struct StataParser.

Lemma int8_valid_range : VALID_RANGE Tb = Some (-127, 100).
Proof. reflexivity. Qed.

(** In a byte column 101 is missing and 100 is not. *)
Lemma int8_101_missing_100_not :
  cell_is_missing Tb (-127) 100 101 = true /\ cell_is_missing Tb (-127) 100 100 = false.
Proof. split; reflexivity. Qed.

Lemma int8_missing_iff (x : Z) :
  cell_is_missing Tb (-127) 100 x = true <-> x < -127 \/ 100 < x.
Proof. unfold cell_is_missing. rewrite orb_true_iff, !Z.ltb_lt. tauto. Qed.

(** The integer kinds, with the first missing value of each. *)
Inductive int_kind : StataParser.typ -> kind -> Z -> Z -> Z -> Prop :=
| int_kind_b : int_kind Tb Kint8 (-127) 100 101
| int_kind_h : int_kind Th Kint16 (-32767) 32740 32741
| int_kind_l : int_kind Tl Kint32 (-2147483647) 2147483620 2147483621.

Lemma int_kind_range fmt k nmin nmax b :
  int_kind fmt k nmin nmax b -> VALID_RANGE fmt = Some (nmin, nmax) /\ b = nmax + 1.
Proof. destruct 1; split; reflexivity. Qed.

Lemma int_marker fmt k nmin nmax b x :
  int_kind fmt k nmin nmax b -> b <= x < b + 27 ->
  StataMissingValue.__init__ (PyNum.PyInt x)
  = Ok {| StataMissingValue.value := PyNum.PyInt x;
          StataMissingValue.string_ := StataMissingValue.label (x - b) |}.
Proof.
  intros Hk Hx.
  pose proof (sentinel_symbol k (x - b) ltac:(lia)) as H.
  unfold symbol_for in H. unfold StataMissingValue.__init__.
  replace (sentinel k (x - b)) with (PyNum.PyInt x) in H.
  - rewrite H. reflexivity.
  - destruct Hk; unfold sentinel; f_equal; lia.
Qed.

(** What a cell of an integer column becomes when markers are asked for. *)
Definition marked (nmax : Z) (x : Z) : obj :=
  if nmax <? x
  then OMissing {| StataMissingValue.value := PyNum.PyInt x;
                   StataMissingValue.string_ := StataMissingValue.label (x - (nmax + 1)) |}
  else ONum (PyNum.PyInt x).

Lemma to_marker_int fmt k nmin nmax b x :
  int_kind fmt k nmin nmax b -> nmin <= x <= nmax + 27 ->
  to_marker fmt nmin nmax x = Ok (marked nmax x).
Proof.
  intros Hk Hx. destruct (int_kind_range _ _ _ _ _ Hk) as [_ Hb].
  unfold to_marker, marked.
  assert (Hm : cell_is_missing fmt nmin nmax x = (nmax <? x)).
  { destruct Hk; unfold cell_is_missing;
      (destruct (x <? _) eqn:E; [lia|reflexivity]). }
  rewrite Hm. destruct (nmax <? x) eqn:E.
  - assert (cell_number fmt x = PyNum.PyInt x) as -> by (destruct Hk; reflexivity).
    rewrite (int_marker fmt k nmin nmax b x Hk) by lia. subst b. reflexivity.
  - destruct Hk; reflexivity.
Qed.

Lemma rmapM_ok {A B} (f : A -> result B) (g : A -> B) (l : list A) :
  (forall x, In x l -> f x = Ok (g x)) -> rmapM f l = Ok (map g l).
Proof.
  induction l as [|a l IH]; intros H; simpl; [reflexivity|].
  rewrite (H a) by (left; reflexivity). simpl.
  rewrite IH by (intros; apply H; right; assumption). reflexivity.
Qed.

(** When markers are asked for, a column of an integer kind whose cells
    are data or one of the 27 missing values gets a marker in every
    missing cell. *)
Lemma markers_for_the_27 fmt k nmin nmax b dt (v : list Z) :
  int_kind fmt k nmin nmax b ->
  (forall x, In x v -> nmin <= x <= nmax + 27) ->
  existsb (cell_is_missing fmt nmin nmax) v = true ->
  replace_missing true fmt (IntSeries dt v) = Ok (Object_ (map (marked nmax) v)).
Proof.
  intros Hk Hv Hex. destruct (int_kind_range _ _ _ _ _ Hk) as [Hr _].
  unfold replace_missing. rewrite Hr. simpl. rewrite Hex. simpl.
  rewrite (rmapM_ok _ (marked nmax)); [reflexivity|].
  intros x Hx. eapply to_marker_int; eauto.
Qed.

(** Without markers the missing cells become NaN; a column of an integer
    kind becomes [float64], a [float32] column stays [float32]. *)
Lemma nan_for_missing fmt nmin nmax (col : series) (v : list Z) :
  VALID_RANGE fmt = Some (nmin, nmax) ->
  numeric_cells col = Some v ->
  existsb (cell_is_missing fmt nmin nmax) v = true ->
  replace_missing false fmt col
  = Ok (match fmt with
        | Tf => Float32 (map (to_nan fmt nmin nmax) v)
        | _ => Float64 (map (to_nan fmt nmin nmax) v)
        end).
Proof.
  intros Hr Hv Hex. unfold replace_missing. rewrite Hr, Hv, Hex. reflexivity.
Qed.

Lemma to_nan_int fmt k nmin nmax b x :
  int_kind fmt k nmin nmax b ->
  to_nan fmt nmin nmax x
  = if (x <? nmin) || (nmax <? x) then Float.nan Float.binary64
    else Float.of_Z Float.binary64 x.
Proof. destruct 1; reflexivity. Qed.

(** A column without a missing cell is left as it is. *)
Lemma no_missing_no_change flag fmt nmin nmax (col : series) (v : list Z) :
  VALID_RANGE fmt = Some (nmin, nmax) ->
  numeric_cells col = Some v ->
  existsb (cell_is_missing fmt nmin nmax) v = false ->
  replace_missing flag fmt col = Ok col.
Proof.
  intros Hr Hv Hex. unfold replace_missing. rewrite Hr, Hv, Hex. reflexivity.
Qed.

(** C5, where the code departs from it: the cell -128 of a byte column
    is below the valid range, so it is classified as missing; with
    [convert_missing] the constructor of the marker looks -128 up in the
    table of the 27 missing values and raises [KeyError]; without it the
    cell becomes NaN. *)
Theorem missing_below_range_has_no_marker :
  cell_is_missing Tb (-127) 100 (-128) = true
  /\ replace_missing true Tb (IntSeries int8 [1; -128]) = Raise KeyError
  /\ replace_missing false Tb (IntSeries int8 [1; -128])
     = Ok (Float64 [Float.of_Z Float.binary64 1; Float.nan Float.binary64])
  /\ fst (data true true true (ExampleLegacy.open (ExampleLegacy.file114 [1; 128])))
     = Raise KeyError.
Proof. repeat split; vm_compute; reflexivity. Qed.

(** The same file with 101 in place of -128 is read. *)
Example missing_101_read :
  fst (data true true true (ExampleLegacy.open (ExampleLegacy.file114 [100; 101])))
  = Ok [(LStr "x",
         Object_ [ONum (PyNum.PyInt 100);
                  OMissing {| StataMissingValue.value := PyNum.PyInt 101;
                              StataMissingValue.string_ := "." |}])]
  /\ fst (data true true false (ExampleLegacy.open (ExampleLegacy.file114 [100; 101])))
     = Ok [(LStr "x",
            Float64 [Float.of_Z Float.binary64 100; Float.nan Float.binary64])].
Proof. split; vm_compute; reflexivity. Qed.

End MissingOnRead.

(** ** What the methods of the reader leave unchanged *)

Section Keeps.

Import Reader Struct StataParser.

(** A relation between the reader before and after a method; the reads
    and the lazy tables respect it. *)
Class Stable (R : StataReader -> StataReader -> Prop) := {
  stable_refl : forall r, R r r;
  stable_trans : forall a b c, R a b -> R b c -> R a c;
  stable_stream : forall r buf pos, R r (set_stream buf pos r);
  stable_dict : forall r d, R r (set_value_label_dict d r);
  stable_GSO : forall r g, R r (set_GSO g r)
}.

Context (R : StataReader -> StataReader -> Prop) `{!Stable R}.

Definition keeps {A} (m : M A) : Prop := forall r, R r (snd (m r)).

Lemma keeps_ret {A} (a : A) : keeps (ret a).
Proof. intros r. apply stable_refl. Qed.

Lemma keeps_raise {A} (e : exn) : keeps (raise (A := A) e).
Proof. intros r. apply stable_refl. Qed.

Lemma keeps_lift {A} (x : result A) : keeps (lift x).
Proof. intros r. apply stable_refl. Qed.

Lemma keeps_get {A} (f : StataReader -> A) : keeps (get f).
Proof. intros r. apply stable_refl. Qed.

Lemma keeps_bind {A B} (m : M A) (k : A -> M B) :
  keeps m -> (forall a, keeps (k a)) -> keeps (bind m k).
Proof.
  intros Hm Hk r. unfold bind. specialize (Hm r).
  destruct (m r) as [[a|e|] r']; simpl in *; auto.
  eapply stable_trans; [exact Hm|apply Hk].
Qed.

Lemma keeps_modify (f : StataReader -> StataReader) :
  (forall r, R r (f r)) -> keeps (modify f).
Proof. intros H r. apply H. Qed.

Lemma keeps_read n : keeps (read n).
Proof. intros r. apply stable_stream. Qed.

Lemma keeps_seek p : keeps (seek p).
Proof.
  intros r. unfold seek. destruct (p <? 0); [apply stable_refl|apply stable_stream].
Qed.

Lemma keeps_replicateM {A} n (m : M A) : keeps m -> keeps (replicateM n m).
Proof.
  intros Hm. induction n as [|n IH]; simpl.
  - apply keeps_ret.
  - apply keeps_bind; [exact Hm|]. intros a.
    apply keeps_bind; [exact IH|]. intros l. apply keeps_ret.
Qed.

End Keeps.

(** One step of a proof that a method keeps a relation. *)
Ltac keeps_step :=
lazymatch goal with
| |- Stable _ => exact _
| |- forall _, _ => intros ?
| |- keeps _ (Reader.bind _ _) => apply keeps_bind
| |- keeps _ (Reader.ret _) => apply keeps_ret
| |- keeps _ (Reader.raise _) => apply keeps_raise
| |- keeps _ (Reader.lift _) => apply keeps_lift
| |- keeps _ (Reader.get _) => apply keeps_get
| |- keeps _ Reader.tell => apply keeps_get
| |- keeps _ (Reader.read _) => apply keeps_read
| |- keeps _ (Reader.seek _) => apply keeps_seek
| |- keeps _ (Reader.replicateM _ _) => apply keeps_replicateM
| |- keeps _ (Reader.modify _) =>
    apply keeps_modify; try exact _; intros ?;
    first [ apply stable_dict | apply stable_GSO | apply stable_stream ]
| |- keeps _ (if ?b then _ else _) => destruct b
| |- keeps _ (match ?x with _ => _ end) => destruct x
end.

Ltac keeps_auto := repeat keeps_step.

Section KeepsMethods.

Import Reader Struct StataParser.

Context (R : StataReader -> StataReader -> Prop) `{!Stable R}.

Lemma keeps_null_terminate s : keeps R (_null_terminate s).
Proof. unfold _null_terminate. keeps_auto. Qed.

Lemma keeps_read_I bo : keeps R (read_I bo).
Proof. unfold read_I. keeps_auto. Qed.

Lemma keeps_read_q bo : keeps R (read_q bo).
Proof. unfold read_q. keeps_auto. Qed.

Lemma keeps_fill_labels labname txt ov : keeps R (fill_labels labname txt ov).
Proof.
  induction ov as [|[o v] ov IH]; simpl; [keeps_auto|].
  unfold add_label.
  repeat first [ exact IH | apply keeps_null_terminate | keeps_step ].
Qed.

Lemma keeps_read_one_label_table version bo :
  keeps R (read_one_label_table version bo).
Proof.
  unfold read_one_label_table, new_label_table.
  repeat first [ apply keeps_null_terminate | apply keeps_read_I
               | apply keeps_fill_labels | keeps_step ].
Qed.

Lemma keeps_label_tables fuel version bo : keeps R (label_tables fuel version bo).
Proof.
  induction fuel as [|fuel IH]; simpl; [keeps_auto|].
  repeat first [ exact IH | apply keeps_read_one_label_table | keeps_step ].
Qed.

Lemma keeps_strls fuel bo : keeps R (strls fuel bo).
Proof.
  induction fuel as [|fuel IH]; simpl; [keeps_auto|].
  repeat first [ exact IH | apply keeps_read_I | keeps_step ].
Qed.

Lemma keeps_read_strls : keeps R _read_strls.
Proof.
  unfold _read_strls. repeat first [ apply keeps_strls | keeps_step ].
Qed.

Lemma keeps_typed_column t cells : keeps R (typed_column t cells).
Proof.
  destruct t; simpl; try (keeps_auto; fail).
  induction cells as [|c cells IH]; [keeps_auto|].
  repeat first [ exact IH | apply keeps_null_terminate | keeps_step ].
Qed.

Lemma keeps_typed_columns rows i cols : keeps R (typed_columns rows i cols).
Proof.
  revert i. induction cols as [|[name t] cols IH]; intros i; simpl; [keeps_auto|].
  repeat first [ apply IH | apply keeps_typed_column | keeps_step ].
Qed.

End KeepsMethods.

(** The attributes that only [data] and [_read_value_labels] assign. *)
Definition same_core (r r' : Reader.StataReader) : Prop :=
Reader.hdr r' = Reader.hdr r
/\ Reader._encoding r' = Reader._encoding r
/\ Reader._missing_values r' = Reader._missing_values r
/\ Reader._data_read r' = Reader._data_read r
/\ Reader._value_labels_read r' = Reader._value_labels_read r.

#[local] Instance same_core_stable : Stable same_core.
Proof.
split.
- intros r. repeat split.
- intros a b c (?&?&?&?&?) (?&?&?&?&?). repeat split; congruence.
- intros r buf pos. repeat split.
- intros r d. repeat split.
- intros r g. repeat split.
Qed.

(** The header stays, and a flag that is set stays set. *)
Definition flags_up (r r' : Reader.StataReader) : Prop :=
Reader.hdr r' = Reader.hdr r
/\ (Reader._data_read r = true -> Reader._data_read r' = true)
/\ (Reader._value_labels_read r = true -> Reader._value_labels_read r' = true).

#[local] Instance flags_up_stable : Stable flags_up.
Proof.
split.
- intros r. repeat split; auto.
- intros a b c (?&?&?) (?&?&?). repeat split; [congruence|auto..].
- intros r buf pos. repeat split; auto.
- intros r d. repeat split; auto.
- intros r g. repeat split; auto.
Qed.

Section Sequence.

Import Reader Struct StataParser.

Lemma keeps_read_value_labels : keeps flags_up _read_value_labels.
Proof.
  unfold _read_value_labels.
  repeat first [ apply keeps_label_tables
               | apply keeps_modify; intros r; repeat split; auto; fail
               | keeps_step ].
Qed.

Lemma keeps_data a b c : keeps flags_up (data a b c).
Proof.
  unfold data.
  repeat first [ apply keeps_read_value_labels | apply keeps_read_strls
               | apply keeps_typed_columns
               | apply keeps_modify; intros r; repeat split; auto; fail
               | keeps_step ].
Qed.

Lemma keeps_value_labels : keeps flags_up value_labels.
Proof.
  unfold value_labels. repeat first [ apply keeps_read_value_labels | keeps_step ].
Qed.

Lemma keeps_run c : keeps flags_up (run c).
Proof.
  destruct c; intros r; simpl.
  - apply keeps_data.
  - apply keeps_value_labels.
  - apply keeps_read_value_labels.
  - repeat split; auto.
Qed.

Lemma run_all_flags cs r : flags_up r (run_all cs r).
Proof.
  revert r. induction cs as [|c cs IH]; intros r; simpl.
  - apply stable_refl.
  - eapply stable_trans; [apply keeps_run|apply IH].
Qed.

(** A second call of [data] raises, and only stores [convert_missing]. *)
Lemma data_again a b c r :
  _data_read r = true ->
  data a b c r = (Raise (PyException data_already_read_msg), set_missing_values c r).
Proof.
  intros H. unfold data, bind, modify, get, raise. simpl. rewrite H. reflexivity.
Qed.

(** [data] leaves the flag set, whatever it returns or raises. *)
Lemma data_sets_flag a b c r : _data_read (snd (data a b c r)) = true.
Proof.
  destruct (_data_read r) eqn:E.
  - rewrite data_again by exact E. exact E.
  - unfold data.
    rewrite (bind_ok _ _ r tt (set_missing_values c r)) by reflexivity.
    rewrite (bind_ok _ _ (set_missing_values c r) false (set_missing_values c r))
      by (unfold get; simpl; rewrite E; reflexivity).
    rewrite (bind_ok _ _ (set_missing_values c r) tt
               (set_data_read true (set_missing_values c r))) by reflexivity.
    lazymatch goal with
    | |- _data_read (snd (?m _)) = true => assert (K : keeps flags_up m)
    end.
    { repeat first [ apply keeps_read_value_labels | apply keeps_read_strls
                   | apply keeps_typed_columns
                   | apply keeps_modify; intros r0; repeat split; auto; fail
                   | keeps_step ]. }
    apply (K (set_data_read true (set_missing_values c r))). reflexivity.
Qed.

(** C10: [data] sets [_data_read] before it touches the stream, and
    nothing resets it: after a first call of [data], whether it returned
    or raised, and after any further calls, [data] raises
    ["Data has already been read."]. *)
Theorem data_read_at_most_once (r : StataReader) (a b c : bool)
        (later : list call) (a' b' c' : bool) :
  _data_read (snd (data a b c r)) = true
  /\ fst (data a' b' c' (run_all later (snd (data a b c r))))
     = Raise (PyException data_already_read_msg)
  /\ position (snd (data a' b' c' (run_all later (snd (data a b c r)))))
     = position (run_all later (snd (data a b c r))).
Proof.
  pose proof (data_sets_flag a b c r) as H1.
  destruct (run_all_flags later (snd (data a b c r))) as (_ & H2 & _).
  specialize (H2 H1).
  split; [exact H1|]. rewrite (data_again a' b' c' _ H2). split; reflexivity.
Qed.

(** A stream cut inside the data block: the first call fails in
    [np.frombuffer], the second one does not retry. *)
Example truncated_stream :
  let r := ExampleLegacy.open (firstn 316 (ExampleLegacy.file114 [1; 2; 3])) in
  fst (data true true false r)
  = Raise (ValueError "buffer is smaller than requested size")
  /\ fst (data true true false (snd (data true true false r)))
     = Raise (PyException data_already_read_msg).
Proof. split; vm_compute; reflexivity. Qed.

End Sequence.

(** The two flags; [_read_header] does not touch them. *)
Definition same_flags (r r' : Reader.StataReader) : Prop :=
Reader._data_read r' = Reader._data_read r
/\ Reader._value_labels_read r' = Reader._value_labels_read r.

#[local] Instance same_flags_stable : Stable same_flags.
Proof.
split.
- intros r. split; reflexivity.
- intros a b c [] []. split; congruence.
- intros r buf pos. split; reflexivity.
- intros r d. split; reflexivity.
- intros r g. split; reflexivity.
Qed.

Section FreshReader.

Import Reader Struct StataParser.

Ltac header_auto :=
  repeat first [ apply keeps_null_terminate | apply keeps_read_q
               | apply keeps_modify; intros ?; split; reflexivity
               | keeps_step ].

Lemma keeps_read_strings w n : keeps same_flags (read_strings w n).
Proof. unfold read_strings. header_auto. Qed.

Lemma keeps_read_srtlist bo n : keeps same_flags (read_srtlist bo n).
Proof. unfold read_srtlist. header_auto. Qed.

Lemma keeps_read_map bo n : keeps same_flags (read_map bo n).
Proof. unfold read_map. header_auto. Qed.

Lemma keeps_finish_header h : keeps same_flags (finish_header h).
Proof. unfold finish_header. header_auto. Qed.

Lemma keeps_skip_expansion_fields fuel v bo :
  keeps same_flags (skip_expansion_fields fuel v bo).
Proof.
  induction fuel as [|fuel IH]; simpl; [keeps_auto|].
  repeat first [ exact IH | keeps_step ].
Qed.

Lemma keeps_old_type bs : keeps same_flags (old_type bs).
Proof. unfold old_type, _decode_bytes. keeps_auto. Qed.

Lemma keeps_read_header : keeps same_flags _read_header.
Proof.
  unfold _read_header, _read_header_117, _read_header_legacy.
  repeat first [ apply keeps_read_strings | apply keeps_read_srtlist
               | apply keeps_old_type
               | apply keeps_read_map | apply keeps_finish_header
               | apply keeps_skip_expansion_fields | apply keeps_null_terminate
               | keeps_step ].
Qed.

(** A reader that [__init__] returns has read neither data nor labels. *)
Lemma init_fresh file enc r :
  __init__ file enc = Ok r -> _data_read r = false /\ _value_labels_read r = false.
Proof.
  unfold __init__.
  match goal with |- context [_read_header ?s] => pose proof (keeps_read_header s) as K end.
  destruct (_read_header _) as [[[]|e|] r']; intros [= <-]. exact K.
Qed.

End FreshReader.

Section LabelOrdering.

Import Reader Struct StataParser.

Lemma bind_inv {A B} (m : M A) (k : A -> M B) r b r' :
  bind m k r = (Ok b, r') -> exists a r1, m r = (Ok a, r1) /\ k a r1 = (Ok b, r').
Proof.
  unfold bind. destruct (m r) as [[a|e|] r1]; try discriminate. eauto.
Qed.

Lemma labels_before_data r :
  format_version (hdr r) < 117 -> _data_read r = false ->
  _read_value_labels r = (Raise (PyException data_not_read_msg), r).
Proof.
  intros Hv Hd. unfold _read_value_labels, bind, get, raise. simpl.
  destruct (117 <=? format_version (hdr r)) eqn:E; [lia|]. simpl.
  rewrite Hd. reflexivity.
Qed.

Lemma value_labels_before_data r :
  format_version (hdr r) < 117 -> _data_read r = false -> _value_labels_read r = false ->
  value_labels r = (Raise (PyException data_not_read_msg), r).
Proof.
  intros Hv Hd Hl. unfold value_labels.
  rewrite (bind_ok _ _ r false r) by (unfold get; rewrite Hl; reflexivity).
  simpl. erewrite bind_raise; [reflexivity|]. apply labels_before_data; assumption.
Qed.

(** In formats 109 to 115 a completed [_read_value_labels] sets the flag
    that makes the next one raise. *)
Lemma labels_twice r r' :
  108 < format_version (hdr r) < 117 ->
  _read_value_labels r = (Ok tt, r') ->
  _read_value_labels r' = (Raise (PyException labels_already_read_msg), r').
Proof.
  intros Hv H.
  assert (Hr' : hdr r' = hdr r /\ _data_read r' = true /\ _value_labels_read r' = true).
  { unfold _read_value_labels in H.
    apply bind_inv in H as (h & r0 & H0 & H). injection H0 as <- <-.
    destruct (117 <=? format_version (hdr r)) eqn:E; [lia|].
    apply bind_inv in H as ([] & r1 & H1 & H).
    apply bind_inv in H1 as (d & r0 & H0 & H1). injection H0 as <- <-.
    destruct (_data_read r) eqn:Hd; simpl in H1; [|discriminate].
    apply bind_inv in H1 as (l & r0 & H0 & H1). injection H0 as <- <-.
    destruct (_value_labels_read r) eqn:Hl; simpl in H1; [discriminate|].
    injection H1 as <-.
    apply bind_inv in H as ([] & r1 & H1 & H). injection H1 as <-.
    destruct (format_version (hdr r) <=? 108) eqn:E2; [lia|].
    apply bind_inv in H as (buf & r0 & H0 & H). injection H0 as <- <-.
    apply bind_inv in H as ([] & r2 & H2 & H). injection H as <-.
    pose proof (keeps_label_tables same_core (S (length (path_or_buf r)))
                  (format_version (hdr r)) (Reader.byteorder (hdr r))
                  (set_value_label_dict ∅ r)) as K.
    rewrite H2 in K. destruct K as (K1 & _ & _ & K4 & _). simpl in *.
    repeat split; congruence. }
  destruct Hr' as (Hh & Hd & Hl).
  unfold _read_value_labels, bind, get, raise. simpl. rewrite Hh.
  destruct (117 <=? format_version (hdr r)) eqn:E; [lia|]. simpl.
  rewrite Hd. simpl. rewrite Hl. reflexivity.
Qed.

(** C6, as the code has it.  For a reader of a legacy file (format below
    117): before [data] was called, asking for the value labels raises
    ["Data has not been read..."]; a call of [data] after a call of
    [data] raises ["Data has already been read."]; and in formats 109 to
    115, in any later state [r1] of the reader, [_read_value_labels] after
    a completed [_read_value_labels] raises
    ["Value labels have already been read."]. *)
Theorem legacy_label_ordering (r : StataReader) :
  format_version (hdr r) < 117 ->
  _data_read r = false -> _value_labels_read r = false ->
  fst (_read_value_labels r) = Raise (PyException data_not_read_msg)
  /\ fst (value_labels r) = Raise (PyException data_not_read_msg)
  /\ (forall a b c a' b' c',
        fst (data a' b' c' (snd (data a b c r)))
        = Raise (PyException data_already_read_msg))
  /\ (108 < format_version (hdr r) ->
      forall r1 r2, hdr r1 = hdr r ->
        _read_value_labels r1 = (Ok tt, r2) ->
        fst (_read_value_labels r2) = Raise (PyException labels_already_read_msg)).
Proof.
  intros Hv Hd Hl. split; [|split; [|split]].
  - rewrite labels_before_data by assumption. reflexivity.
  - rewrite value_labels_before_data by assumption. reflexivity.
  - intros a b c a' b' c'.
    rewrite (data_again a' b' c' _ (data_sets_flag a b c r)). reflexivity.
  - intros Hv2 r1 r2 Hh H.
    rewrite (labels_twice r1 r2); [reflexivity| rewrite Hh; lia | exact H].
Qed.

Lemma legacy_label_ordering_witness :
  format_version (hdr (ExampleLegacy.open (ExampleLegacy.file114 [1; 2]))) < 117
  /\ _data_read (ExampleLegacy.open (ExampleLegacy.file114 [1; 2])) = false
  /\ _value_labels_read (ExampleLegacy.open (ExampleLegacy.file114 [1; 2])) = false
  /\ fst (_read_value_labels (ExampleLegacy.open (ExampleLegacy.file114 [1; 2])))
     = Raise (PyException data_not_read_msg).
Proof.
  assert (H1 : format_version (hdr (ExampleLegacy.open (ExampleLegacy.file114 [1; 2]))) < 117)
    by (vm_compute; reflexivity).
  assert (H2 : _data_read (ExampleLegacy.open (ExampleLegacy.file114 [1; 2])) = false)
    by (vm_compute; reflexivity).
  assert (H3 : _value_labels_read (ExampleLegacy.open (ExampleLegacy.file114 [1; 2])) = false)
    by (vm_compute; reflexivity).
  split; [exact H1|]. split; [exact H2|]. split; [exact H3|].
  exact (proj1 (legacy_label_ordering _ H1 H2 H3)).
Defined.

(** In format 114 the whole sequence on a file: data, labels, labels. *)
Example labels_twice_114 :
  let r := ExampleLegacy.open (ExampleLegacy.file114 [1; 2]) in
  let r1 := snd (data true false false r) in
  fst (_read_value_labels r1) = Ok tt
  /\ fst (_read_value_labels (snd (_read_value_labels r1)))
     = Raise (PyException labels_already_read_msg).
Proof. split; vm_compute; reflexivity. Qed.

(** C6 as stated fails in format 108: [_read_value_labels] returns before
    it sets [_value_labels_read], so a second call returns as the first
    one did.  The file has no variable (with one, [_decode_bytes] raises
    in [_read_header]); [data] sets [_data_read] and then fails in
    [np.frombuffer]. *)
Lemma labels_twice_108_returns :
  exists r,
    __init__ ExampleLegacy.file108 latin_1 = Ok r
    /\ format_version (hdr r) = 108
    /\ fst (data true true false r) = Raise (ValueError "itemsize cannot be zero in type")
    /\ _data_read (snd (data true true false r)) = true
    /\ fst (_read_value_labels (snd (data true true false r))) = Ok tt
    /\ fst (_read_value_labels
              (snd (_read_value_labels (snd (data true true false r))))) = Ok tt.
Proof. eexists. split; [vm_compute; reflexivity|]. repeat split; vm_compute; reflexivity. Qed.

(** A file in format 108 with a variable is refused when it is opened. *)
Example old_type_is_refused :
  __init__ ([108; 2; 1; 0] ++ [1; 0] ++ [0; 0; 0; 0] ++ ExampleLegacy.zeros 99
            ++ [98] ++ ExampleLegacy.zeros 200) latin_1
  = Raise (TypeError "decode() argument 'errors' must be str, not None").
Proof. vm_compute. reflexivity. Qed.

End LabelOrdering.

(** ** Facts on the binary64 conversion of integers *)

Section FloatFacts.

Import Float.

Lemma floor_log2_int (a : Z) : 0 < a -> floor_log2_Q a 1 = Z.log2 a.
Proof.
  intros Ha. unfold floor_log2_Q. simpl Z.log2. rewrite Z.sub_0_r.
  pose proof (Z.log2_nonneg a) as Hn.
  destruct (0 <=? Z.log2 a) eqn:E; [|lia].
  pose proof (Z.log2_spec a Ha) as [Hl _].
  destruct (1 * 2 ^ Z.log2 a <=? a) eqn:E2; [reflexivity|lia].
Qed.

(** The magnitude bits of a positive integer below [2 ^ 53]: exact. *)
Lemma round_mag_small (a : Z) :
  0 < a < 2 ^ 53 ->
  round_mag binary64 a 1 = (Z.log2 a + 1022) * 2 ^ 52 + a * 2 ^ (52 - Z.log2 a).
Proof.
  intros Ha. unfold round_mag.
  destruct (a =? 0) eqn:E0; [lia|].
  rewrite floor_log2_int by lia.
  pose proof (Z.log2_nonneg a) as Hn.
  assert (Hl : Z.log2 a < 53) by (apply Z.log2_lt_pow2; lia).
  change (emin binary64) with (-1022). change (mbits binary64) with 52.
  change (emax_field binary64) with 2047.
  rewrite Z.max_l by lia.
  destruct (0 <=? 52 - Z.log2 a) eqn:E1; [|lia].
  rewrite Z.div_1_r, Z.mod_1_r. simpl.
  pose proof (Z.log2_spec a ltac:(lia)) as [Hlo Hhi].
  assert (Hq : a * 2 ^ (52 - Z.log2 a) < 2 ^ 53).
  { replace (2 ^ 53) with (2 ^ Z.succ (Z.log2 a) * 2 ^ (52 - Z.log2 a)).
    - apply Z.mul_lt_mono_pos_r; [apply Z.pow_pos_nonneg; lia|lia].
    - rewrite <- Z.pow_add_r by lia. f_equal. lia. }
  rewrite Z.min_l; [lia|]. lia.
Qed.

(** The magnitude bits of an integer from [2 ^ 53] on are at least those
    of [2 ^ 53]. *)
Lemma round_mag_large (a : Z) :
  2 ^ 53 <= a -> 1076 * 2 ^ 52 <= round_mag binary64 a 1.
Proof.
  intros Ha. unfold round_mag.
  destruct (a =? 0) eqn:E0; [lia|].
  rewrite floor_log2_int by lia.
  assert (Hl : 53 <= Z.log2 a) by (apply Z.log2_le_pow2; lia).
  change (emin binary64) with (-1022). change (mbits binary64) with 52.
  change (emax_field binary64) with 2047.
  rewrite Z.max_l by lia.
  destruct (0 <=? 52 - Z.log2 a) eqn:E1; [lia|].
  rewrite Z.mul_1_l.
  replace (- (52 - Z.log2 a)) with (Z.log2 a - 52) by lia.
  pose proof (Z.log2_spec a ltac:(lia)) as [Hlo Hhi].
  set (d := 2 ^ (Z.log2 a - 52)).
  assert (Hd : 0 < d) by (apply Z.pow_pos_nonneg; lia).
  assert (Hq : 2 ^ 52 <= a / d).
  { apply Z.div_le_lower_bound; [exact Hd|].
    unfold d. rewrite <- Z.pow_add_r by lia.
    replace (Z.log2 a - 52 + 52) with (Z.log2 a) by lia. exact Hlo. }
  apply Z.min_glb; [|lia].
  destruct ((d <? 2 * (a mod d)) || (d =? 2 * (a mod d)) && Z.odd (a / d)); nia.
Qed.

Lemma round_mag_range (a : Z) :
  0 <= a -> 0 <= round_mag binary64 a 1 <= 2047 * 2 ^ 52.
Proof.
  intros Ha. unfold round_mag.
  destruct (a =? 0) eqn:E0; [lia|].
  rewrite floor_log2_int by lia.
  pose proof (Z.log2_nonneg a) as Hn.
  change (emin binary64) with (-1022). change (mbits binary64) with 52.
  change (emax_field binary64) with 2047.
  rewrite Z.max_l by lia.
  split; [|apply Z.le_min_r].
  apply Z.min_glb; [|lia].
  set (num := if 0 <=? 52 - Z.log2 a then a * 2 ^ (52 - Z.log2 a) else a).
  set (den := if 0 <=? 52 - Z.log2 a then 1 else 1 * 2 ^ (- (52 - Z.log2 a))).
  assert (Hden : 0 < den).
  { unfold den. destruct (0 <=? 52 - Z.log2 a) eqn:E; [lia|].
    rewrite Z.mul_1_l. apply Z.pow_pos_nonneg; lia. }
  assert (Hnum : 0 <= num).
  { unfold num. destruct (0 <=? 52 - Z.log2 a) eqn:E; [|lia].
    apply Z.mul_nonneg_nonneg; [lia|]. apply Z.pow_nonneg. lia. }
  pose proof (Z.div_pos num den Hnum Hden) as Hq.
  destruct ((den <? 2 * (num mod den)) || (den =? 2 * (num mod den)) && Z.odd (num / den));
    nia.
Qed.

(** A pattern made of a sign and magnitude bits. *)
Lemma fields_of_sum (s g : Z) :
  (s = 0 \/ s = 2 ^ 63) -> 0 <= g < 2 ^ 63 ->
  sign_bit binary64 (s + g) = negb (s =? 0)
  /\ exp_field binary64 (s + g) = g / 2 ^ 52
  /\ man_field binary64 (s + g) = g mod 2 ^ 52
  /\ key binary64 (s + g) = if s =? 0 then g else - g.
Proof.
  intros Hs Hg.
  assert (Hsign : sign_bit binary64 (s + g) = negb (s =? 0)).
  { unfold sign_bit. change (mbits binary64 + ebits binary64) with 63.
    destruct Hs as [->| ->]; simpl negb.
    - rewrite Z.add_0_l. apply Z.bits_above_log2; [lia|].
      destruct (Z.eq_dec g 0) as [->|]; [reflexivity|].
      apply Z.log2_lt_pow2; lia.
    - rewrite Z.testbit_true by lia.
      replace ((2 ^ 63 + g) / 2 ^ 63) with 1; [reflexivity|].
      apply Z.div_unique with (r := g); lia. }
  assert (Hmod : (s + g) mod 2 ^ 63 = g).
  { destruct Hs as [->| ->].
    - rewrite Z.add_0_l. apply Z.mod_small. lia.
    - symmetry. apply Z.mod_unique with (q := 1); lia. }
  split; [exact Hsign|]. split; [|split].
  - unfold exp_field. change (mbits binary64) with 52. change (ebits binary64) with 11.
    destruct Hs as [->| ->].
    + rewrite Z.add_0_l. apply Z.mod_small. split.
      * apply Z.div_pos; lia.
      * apply Z.div_lt_upper_bound; lia.
    + replace (2 ^ 63 + g) with (g + 2 ^ 11 * 2 ^ 52) by lia.
      rewrite Z.div_add by lia. rewrite Z.add_mod by lia.
      rewrite Z.mod_same by lia. rewrite Z.add_0_r, Z.mod_mod by lia.
      apply Z.mod_small. split.
      * apply Z.div_pos; lia.
      * apply Z.div_lt_upper_bound; lia.
  - unfold man_field. change (mbits binary64) with 52.
    destruct Hs as [->| ->]; [rewrite Z.add_0_l; reflexivity|].
    replace (2 ^ 63 + g) with (g + 2 ^ 11 * 2 ^ 52) by lia.
    apply Z.mod_add. lia.
  - unfold key. change (mbits binary64 + ebits binary64) with 63.
    rewrite Hsign, Hmod. destruct Hs as [->| ->]; reflexivity.
Qed.

Lemma of_Z_sum (z : Z) :
  of_Z binary64 z = (if z <? 0 then 2 ^ 63 else 0) + round_mag binary64 (Z.abs z) 1.
Proof. reflexivity. Qed.

Lemma of_Z_fields (z : Z) :
  let g := round_mag binary64 (Z.abs z) 1 in
  sign_bit binary64 (of_Z binary64 z) = (z <? 0)
  /\ exp_field binary64 (of_Z binary64 z) = g / 2 ^ 52
  /\ man_field binary64 (of_Z binary64 z) = g mod 2 ^ 52
  /\ key binary64 (of_Z binary64 z) = if z <? 0 then - g else g.
Proof.
  intros g. rewrite of_Z_sum. fold g.
  pose proof (round_mag_range (Z.abs z) ltac:(lia)) as Hg. fold g in Hg.
  destruct (z <? 0) eqn:E.
  - destruct (fields_of_sum (2 ^ 63) g) as (H1 & H2 & H3 & H4); [right; reflexivity|lia|].
    rewrite H1, H2, H3, H4. repeat split; reflexivity.
  - destruct (fields_of_sum 0 g) as (H1 & H2 & H3 & H4); [left; reflexivity|lia|].
    rewrite H1, H2, H3, H4. repeat split; reflexivity.
Qed.

Lemma of_Z_not_nan (z : Z) : is_nan binary64 (of_Z binary64 z) = false.
Proof.
  destruct (of_Z_fields z) as (_ & H2 & H3 & _). unfold is_nan. rewrite H2, H3.
  pose proof (round_mag_range (Z.abs z) ltac:(lia)) as Hg.
  set (g := round_mag binary64 (Z.abs z) 1) in *.
  change (emax_field binary64) with 2047.
  destruct (g / 2 ^ 52 =? 2047) eqn:E; [|reflexivity]. simpl.
  apply Z.eqb_eq in E.
  pose proof (Z.div_mod g (2 ^ 52) ltac:(lia)) as Hdm.
  pose proof (Z.mod_pos_bound g (2 ^ 52) ltac:(lia)) as Hm.
  replace (g mod 2 ^ 52) with 0 by lia. reflexivity.
Qed.

Definition T53 : Z := 1076 * 2 ^ 52.

(** The key of the conversion of [z] passes that of [2 ^ 53] exactly when
    [z] passes [2 ^ 53]. *)
Lemma key_of_Z_ge (z : Z) : (T53 <=? key binary64 (of_Z binary64 z)) = (2 ^ 53 <=? z).
Proof.
  destruct (of_Z_fields z) as (_ & _ & _ & Hk). rewrite Hk. unfold T53.
  pose proof (round_mag_range (Z.abs z) ltac:(lia)) as Hg.
  destruct (z <? 0) eqn:E.
  - destruct (2 ^ 53 <=? z) eqn:E2; lia.
  - destruct (Z.eq_dec z 0) as [->|Hz]; [reflexivity|].
    destruct (2 ^ 53 <=? z) eqn:E2.
    + pose proof (round_mag_large (Z.abs z) ltac:(lia)). lia.
    + rewrite round_mag_small by lia.
      assert (Hl : Z.log2 (Z.abs z) < 53) by (apply Z.log2_lt_pow2; lia).
      pose proof (Z.log2_nonneg (Z.abs z)).
      pose proof (Z.log2_spec (Z.abs z) ltac:(lia)) as [Hlo Hhi].
      assert (Hq : Z.abs z * 2 ^ (52 - Z.log2 (Z.abs z)) < 2 ^ 53).
      { replace (2 ^ 53) with (2 ^ Z.succ (Z.log2 (Z.abs z)) * 2 ^ (52 - Z.log2 (Z.abs z))).
        - apply Z.mul_lt_mono_pos_r; [apply Z.pow_pos_nonneg; lia|lia].
        - rewrite <- Z.pow_add_r by lia. f_equal. lia. }
      apply Z.leb_gt. nia.
Qed.

Lemma key_of_Z_le (z : Z) : (key binary64 (of_Z binary64 z) <=? - T53) = (z <=? - 2 ^ 53).
Proof.
  pose proof (key_of_Z_ge (- z)) as H.
  destruct (of_Z_fields z) as (_ & _ & _ & Hk).
  destruct (of_Z_fields (- z)) as (_ & _ & _ & Hk').
  rewrite Hk' in H. rewrite Hk. rewrite Z.abs_opp in *.
  pose proof (round_mag_range (Z.abs z) ltac:(lia)) as Hg.
  set (g := round_mag binary64 (Z.abs z) 1) in *.
  destruct (Z.eq_dec z 0) as [->|Hz]; [reflexivity|].
  unfold T53 in *.
  destruct (z <? 0) eqn:E1; destruct (- z <? 0) eqn:E2; lia.
Qed.

(** The value of a pattern against [2 ^ 53], read off its key. *)
Lemma value_ge_2_53 (z : Z) :
  match Cast.dy_cmp (finite_value binary64 (of_Z binary64 z)) (2 ^ 53) with
  | Lt => false | _ => true
  end = (2 ^ 53 <=? z).
Proof.
  rewrite <- key_of_Z_ge.
  destruct (of_Z_fields z) as (Hs & He & Hm & Hk). rewrite Hk. unfold T53.
  unfold finite_value. rewrite Hs, He, Hm.
  pose proof (round_mag_range (Z.abs z) ltac:(lia)) as Hg.
  set (g := round_mag binary64 (Z.abs z) 1) in *.
  change (mbits binary64) with 52. change (bias binary64) with 1023.
  pose proof (Z.div_mod g (2 ^ 52) ltac:(lia)) as Hdm.
  pose proof (Z.mod_pos_bound g (2 ^ 52) ltac:(lia)) as Hmb.
  assert (HE : 0 <= g / 2 ^ 52) by (apply Z.div_pos; lia).
  set (E := g / 2 ^ 52) in *. set (M := g mod 2 ^ 52) in *.
  set (m := if E =? 0 then M else 2 ^ 52 + M).
  set (e := (if E =? 0 then 1 else E) - 1023 - 52).
  assert (Hm0 : 0 <= m < 2 ^ 53) by (unfold m; destruct (E =? 0); lia).
  unfold Cast.dy_cmp.
  destruct (z <? 0) eqn:Ez.
  - (* negative: below the threshold *)
    replace (1076 * 2 ^ 52 <=? - g) with false by (symmetry; apply Z.leb_gt; lia).
    destruct (0 <=? e) eqn:Ee.
    + assert (0 <= m * 2 ^ e) by (apply Z.mul_nonneg_nonneg; [lia|apply Z.pow_nonneg; lia]).
      destruct (Z.compare_spec (- m * 2 ^ e) (2 ^ 53)); try reflexivity; nia.
    + assert (0 < 2 ^ (- e)) by (apply Z.pow_pos_nonneg; lia).
      destruct (- m ?= 2 ^ 53 * 2 ^ (- e)) eqn:C; try reflexivity.
      * apply Z.compare_eq in C. nia.
      * apply Z.compare_gt_iff in C. nia.
  - destruct (1076 * 2 ^ 52 <=? g) eqn:Eg.
    + assert (HE2 : 1076 <= E) by (unfold E; apply Z.div_le_lower_bound; lia).
      assert (Hm1 : m = 2 ^ 52 + M) by (unfold m; destruct (E =? 0) eqn:Q; lia).
      assert (He1 : e = E - 1075) by (unfold e; destruct (E =? 0) eqn:Q; lia).
      destruct (0 <=? e) eqn:Ee; [|lia].
      assert (H2e : 2 ^ 1 <= 2 ^ e) by (apply Z.pow_le_mono_r; lia).
      change (2 ^ 1) with 2 in H2e.
      assert (2 ^ 52 * 2 <= m * 2 ^ e) by (apply Z.mul_le_mono_nonneg; lia).
      destruct (Z.compare_spec (m * 2 ^ e) (2 ^ 53)); try reflexivity; nia.
    + assert (HE2 : E < 1076) by (unfold E; apply Z.div_lt_upper_bound; lia).
      assert (He1 : e <= 0) by (unfold e; destruct (E =? 0) eqn:Q; lia).
      destruct (0 <=? e) eqn:Ee.
      * replace e with 0 by lia. rewrite Z.pow_0_r, Z.mul_1_r.
        destruct (Z.compare_spec (m) (2 ^ 53)); try reflexivity; nia.
      * assert (H2e : 2 ^ 0 <= 2 ^ (- e)) by (apply Z.pow_le_mono_r; lia).
        change (2 ^ 0) with 1 in H2e.
        assert (2 ^ 53 * 1 <= 2 ^ 53 * 2 ^ (- e)) by (apply Z.mul_le_mono_nonneg; lia).
        destruct (Z.compare_spec (m) (2 ^ 53 * 2 ^ (- e))); try reflexivity; nia.
Qed.

Lemma finite_value_opp (z : Z) :
  finite_value binary64 (of_Z binary64 (- z))
  = (- fst (finite_value binary64 (of_Z binary64 z)),
     snd (finite_value binary64 (of_Z binary64 z))).
Proof.
  destruct (Z.eq_dec z 0) as [->|Hz]; [reflexivity|].
  destruct (of_Z_fields z) as (Hs & He & Hm & _).
  destruct (of_Z_fields (- z)) as (Hs' & He' & Hm' & _).
  rewrite Z.abs_opp in *.
  unfold finite_value. rewrite Hs, He, Hm, Hs', He', Hm'. simpl.
  destruct (z <? 0) eqn:E1; destruct (- z <? 0) eqn:E2; try lia; f_equal; lia.
Qed.

Lemma dy_cmp_opp (m e c : Z) :
  Cast.dy_cmp (- m, e) (- c) = CompOpp (Cast.dy_cmp (m, e) c).
Proof.
  unfold Cast.dy_cmp. destruct (0 <=? e).
  - rewrite Z.mul_opp_l, Z.compare_opp. apply Z.compare_antisym.
  - rewrite Z.mul_opp_l, Z.compare_opp. apply Z.compare_antisym.
Qed.

Lemma value_le_neg_2_53 (z : Z) :
  match Cast.dy_cmp (finite_value binary64 (of_Z binary64 z)) (- 2 ^ 53) with
  | Gt => false | _ => true
  end = (z <=? - 2 ^ 53).
Proof.
  pose proof (value_ge_2_53 (- z)) as H. rewrite finite_value_opp in H.
  destruct (finite_value binary64 (of_Z binary64 z)) as [m e]. cbn [fst snd] in H.
  replace (Cast.dy_cmp (- m, e) (2 ^ 53)) with (Cast.dy_cmp (- m, e) (- - 2 ^ 53)) in H
    by (f_equal; lia).
  rewrite dy_cmp_opp in H.
  replace (z <=? - 2 ^ 53) with (2 ^ 53 <=? - z) by lia.
  rewrite <- H. destruct (Cast.dy_cmp (m, e) (- 2 ^ 53)); reflexivity.
Qed.

(** The largest and the smallest of a column of converted integers. *)
Lemma ltb_of_Z (x y : Z) :
  ltb binary64 (of_Z binary64 x) (of_Z binary64 y)
  = (key binary64 (of_Z binary64 x) <? key binary64 (of_Z binary64 y)).
Proof. unfold ltb. rewrite !of_Z_not_nan. reflexivity. Qed.

Lemma float_max_of_Z (v : list Z) (acc : option Z) :
  exists w,
    fold_left
      (fun acc x =>
         if is_nan binary64 x then acc
         else match acc with
              | None => Some x
              | Some a => if ltb binary64 a x then Some x else acc
              end)
      (map (of_Z binary64) v) (option_map (of_Z binary64) acc)
    = option_map (of_Z binary64) w
    /\ (forall c, match w with
                  | Some m => c <=? key binary64 (of_Z binary64 m)
                  | None => false
                  end
                  = (match acc with
                     | Some a => c <=? key binary64 (of_Z binary64 a)
                     | None => false
                     end || existsb (fun z => c <=? key binary64 (of_Z binary64 z)) v)).
Proof.
  revert acc. induction v as [|x v IH]; intros acc; simpl.
  - exists acc. split; [reflexivity|]. intros c. rewrite orb_false_r. reflexivity.
  - rewrite of_Z_not_nan. destruct acc as [a|]; simpl.
    + rewrite ltb_of_Z.
      destruct (key binary64 (of_Z binary64 a) <? key binary64 (of_Z binary64 x)) eqn:E.
      * destruct (IH (Some x)) as (w & Hw & Hc). exists w. split; [exact Hw|].
        intros c. rewrite Hc. simpl.
        destruct (existsb _ v); [rewrite !orb_true_r; reflexivity|].
        rewrite !orb_false_r. lia.
      * destruct (IH (Some a)) as (w & Hw & Hc). exists w. split; [exact Hw|].
        intros c. rewrite Hc. simpl.
        destruct (existsb _ v); [rewrite !orb_true_r; reflexivity|].
        rewrite !orb_false_r. lia.
    + destruct (IH (Some x)) as (w & Hw & Hc). exists w. split; [exact Hw|].
      intros c. rewrite Hc. reflexivity.
Qed.

Lemma float_min_of_Z (v : list Z) (acc : option Z) :
  exists w,
    fold_left
      (fun acc x =>
         if is_nan binary64 x then acc
         else match acc with
              | None => Some x
              | Some a => if ltb binary64 x a then Some x else acc
              end)
      (map (of_Z binary64) v) (option_map (of_Z binary64) acc)
    = option_map (of_Z binary64) w
    /\ (forall c, match w with
                  | Some m => key binary64 (of_Z binary64 m) <=? c
                  | None => false
                  end
                  = (match acc with
                     | Some a => key binary64 (of_Z binary64 a) <=? c
                     | None => false
                     end || existsb (fun z => key binary64 (of_Z binary64 z) <=? c) v)).
Proof.
  revert acc. induction v as [|x v IH]; intros acc; simpl.
  - exists acc. split; [reflexivity|]. intros c. rewrite orb_false_r. reflexivity.
  - rewrite of_Z_not_nan. destruct acc as [a|]; simpl.
    + rewrite ltb_of_Z.
      destruct (key binary64 (of_Z binary64 x) <? key binary64 (of_Z binary64 a)) eqn:E.
      * destruct (IH (Some x)) as (w & Hw & Hc). exists w. split; [exact Hw|].
        intros c. rewrite Hc. simpl.
        destruct (existsb _ v); [rewrite !orb_true_r; reflexivity|].
        rewrite !orb_false_r. lia.
      * destruct (IH (Some a)) as (w & Hw & Hc). exists w. split; [exact Hw|].
        intros c. rewrite Hc. simpl.
        destruct (existsb _ v); [rewrite !orb_true_r; reflexivity|].
        rewrite !orb_false_r. lia.
    + destruct (IH (Some x)) as (w & Hw & Hc). exists w. split; [exact Hw|].
      intros c. rewrite Hc. reflexivity.
Qed.

End FloatFacts.

(** ** [_cast_to_stata_types] *)

Section CastFacts.

Import Cast.

Lemma existsb_gt_max (c x : Z) (v : list Z) :
  (c <? fold_left Z.max v x) = existsb (fun y => c <? y) (x :: v).
Proof.
  revert x. induction v as [|y v IH]; intros x; simpl.
  - rewrite orb_false_r. reflexivity.
  - rewrite IH. simpl. rewrite orb_assoc. f_equal. lia.
Qed.

Lemma existsb_lt_min (c x : Z) (v : list Z) :
  (fold_left Z.min v x <? c) = existsb (fun y => y <? c) (x :: v).
Proof.
  revert x. induction v as [|y v IH]; intros x; simpl.
  - rewrite orb_false_r. reflexivity.
  - rewrite IH. simpl. rewrite orb_assoc. f_equal. lia.
Qed.

Lemma forallb_le_max (c x : Z) (v : list Z) :
  (fold_left Z.max v x <=? c) = forallb (fun y => y <=? c) (x :: v).
Proof.
  revert x. induction v as [|y v IH]; intros x; simpl.
  - rewrite andb_true_r. reflexivity.
  - rewrite IH. simpl. rewrite andb_assoc. f_equal. lia.
Qed.

Lemma forallb_ge_min (c x : Z) (v : list Z) :
  (c <=? fold_left Z.min v x) = forallb (fun y => c <=? y) (x :: v).
Proof.
  revert x. induction v as [|y v IH]; intros x; simpl.
  - rewrite andb_true_r. reflexivity.
  - rewrite IH. simpl. rewrite andb_assoc. f_equal. lia.
Qed.

Lemma dy_cmp_int (z c : Z) : dy_cmp (z, 0) c = (z ?= c).
Proof. unfold dy_cmp. simpl. rewrite Z.mul_1_r. reflexivity. Qed.

Definition nonempty {A} (v : list A) : bool :=
  match v with [] => false | _ => true end.

Lemma v_gt_max dt v c : v_gt (col_max (IntSeries dt v)) c = existsb (fun y => c <? y) v.
Proof.
  destruct v as [|x v]; [reflexivity|].
  rewrite <- existsb_gt_max. unfold col_max, series_max, option_map, v_gt.
  rewrite dy_cmp_int. destruct (Z.compare_spec (fold_left Z.max v x) c); lia.
Qed.

Lemma v_lt_min dt v c : v_lt (col_min (IntSeries dt v)) c = existsb (fun y => y <? c) v.
Proof.
  destruct v as [|x v]; [reflexivity|].
  rewrite <- existsb_lt_min. unfold col_min, series_min, option_map, v_lt.
  rewrite dy_cmp_int. destruct (Z.compare_spec (fold_left Z.min v x) c); lia.
Qed.

Lemma v_le_max dt v c :
  v_le (col_max (IntSeries dt v)) c = nonempty v && forallb (fun y => y <=? c) v.
Proof.
  destruct v as [|x v]; [reflexivity|].
  rewrite <- forallb_le_max. unfold col_max, series_max, option_map, v_le.
  rewrite dy_cmp_int. simpl. destruct (Z.compare_spec (fold_left Z.max v x) c); lia.
Qed.

Lemma v_ge_min dt v c :
  v_ge (col_min (IntSeries dt v)) c = nonempty v && forallb (fun y => c <=? y) v.
Proof.
  destruct v as [|x v]; [reflexivity|].
  rewrite <- forallb_ge_min. unfold col_min, series_min, option_map, v_ge.
  rewrite dy_cmp_int. simpl. destruct (Z.compare_spec (fold_left Z.min v x) c); lia.
Qed.

Lemma existsb_ext {A} (f g : A -> bool) (l : list A) :
  (forall x, f x = g x) -> existsb f l = existsb g l.
Proof. intros H. induction l as [|a l IH]; simpl; [reflexivity|]. rewrite H, IH. reflexivity. Qed.

(** The same for a column that was converted to [float64]. *)
Lemma v_ge_max_float v :
  v_ge (col_max (Float64 (map (Float.of_Z Float.binary64) v))) (2 ^ 53)
  = existsb (fun y => 2 ^ 53 <=? y) v.
Proof.
  unfold col_max, float_extreme.
  destruct (float_max_of_Z v None) as (w & Hw & Hc). simpl in Hw. rewrite Hw.
  specialize (Hc T53). simpl in Hc.
  rewrite (existsb_ext _ (fun y => 2 ^ 53 <=? y) v key_of_Z_ge) in Hc.
  rewrite <- Hc. destruct w as [m|]; [|reflexivity]. simpl.
  rewrite key_of_Z_ge. apply value_ge_2_53.
Qed.

Lemma v_le_min_float v :
  v_le (col_min (Float64 (map (Float.of_Z Float.binary64) v))) (- 2 ^ 53)
  = existsb (fun y => y <=? - 2 ^ 53) v.
Proof.
  unfold col_min, float_extreme.
  destruct (float_min_of_Z v None) as (w & Hw & Hc). simpl in Hw. rewrite Hw.
  specialize (Hc (- T53)). simpl in Hc.
  rewrite (existsb_ext _ (fun y => y <=? - 2 ^ 53) v key_of_Z_le) in Hc.
  rewrite <- Hc. destruct w as [m|]; [|reflexivity]. simpl.
  rewrite key_of_Z_le. apply value_le_neg_2_53.
Qed.

End CastFacts.

Section CastTheorems.

Import Cast.

Lemma wrap_to_int16 x : - 32768 <= x <= 32767 -> wrap_to int16 x = x.
Proof.
  intros H. unfold wrap_to, Struct.to_signed. simpl iinfo_bits.
  change (2 ^ 16) with 65536. change (2 ^ (16 - 1)) with 32768.
  pose proof (Z.mod_pos_bound x 65536 ltac:(lia)) as Hb.
  pose proof (Z.div_mod x 65536 ltac:(lia)) as Hd.
  destruct (x mod 65536 <? 32768) eqn:E; lia.
Qed.

Lemma wrap_to_int32 x : - 2147483648 <= x <= 2147483647 -> wrap_to int32 x = x.
Proof.
  intros H. unfold wrap_to, Struct.to_signed. simpl iinfo_bits.
  change (2 ^ 32) with 4294967296. change (2 ^ (32 - 1)) with 2147483648.
  pose proof (Z.mod_pos_bound x 4294967296 ltac:(lia)) as Hb.
  pose proof (Z.div_mod x 4294967296 ltac:(lia)) as Hd.
  destruct (x mod 4294967296 <? 2147483648) eqn:E; lia.
Qed.

Lemma map_id_on {A} (f : A -> A) (v : list A) :
  (forall x, In x v -> f x = x) -> map f v = v.
Proof.
  induction v as [|a v IH]; intros H; simpl; [reflexivity|].
  rewrite H by (left; reflexivity). rewrite IH; [reflexivity|].
  intros x Hx. apply H. right. exact Hx.
Qed.

Lemma cast_int8 (v : list Z) (ws : string) :
  Forall (in_dtype_range int8) v ->
  cast_column (IntSeries int8 v) ws
  = (if existsb (fun x => 100 <? x) v || existsb (fun x => x <? - 127) v
     then IntSeries int16 v else IntSeries int8 v, ws).
Proof.
  intros Hv. unfold cast_column. cbn [fold_left conversion_data unsupported_step
    series_dtype dtype_eqb]. rewrite v_gt_max, v_lt_min.
  destruct (existsb _ v || existsb _ v); [|reflexivity].
  unfold astype. cbn [is_integer_dtype]. rewrite map_id_on; [reflexivity|].
  intros x Hx. rewrite List.Forall_forall in Hv. specialize (Hv x Hx). simpl in Hv.
  apply wrap_to_int16. lia.
Qed.

Lemma cast_int16 (v : list Z) (ws : string) :
  Forall (in_dtype_range int16) v ->
  cast_column (IntSeries int16 v) ws
  = (if existsb (fun x => 32740 <? x) v || existsb (fun x => x <? - 32767) v
     then IntSeries int32 v else IntSeries int16 v, ws).
Proof.
  intros Hv. unfold cast_column. cbn [fold_left conversion_data unsupported_step
    series_dtype dtype_eqb]. rewrite v_gt_max, v_lt_min.
  destruct (existsb _ v || existsb _ v); [|reflexivity].
  unfold astype. cbn [is_integer_dtype]. rewrite map_id_on; [reflexivity|].
  intros x Hx. rewrite List.Forall_forall in Hv. specialize (Hv x Hx). simpl in Hv.
  apply wrap_to_int32. lia.
Qed.

Lemma cast_int64 (v : list Z) (ws : string) :
  cast_column (IntSeries int64 v) ws
  = if nonempty v && forallb (fun x => x <=? 2147483620) v
       && (nonempty v && forallb (fun x => - 2147483647 <=? x) v)
    then (IntSeries int32 v, ws)
    else (Float64 (map (Float.of_Z Float.binary64) v),
          if existsb (fun x => 2 ^ 53 <=? x) v || existsb (fun x => x <=? - 2 ^ 53) v
          then precision_loss_doc "int64" "float64" else ws).
Proof.
  unfold cast_column. cbn [fold_left conversion_data unsupported_step
    series_dtype dtype_eqb]. rewrite v_le_max, v_ge_min.
  destruct (nonempty v && forallb (fun x => x <=? 2147483620) v) eqn:E1;
    [destruct (nonempty v && forallb (fun x => - 2147483647 <=? x) v) eqn:E2|];
    cbn [andb].
  - unfold astype. cbn [is_integer_dtype]. rewrite map_id_on; [reflexivity|].
    intros x Hx.
    apply andb_prop in E1 as [_ E1]. apply andb_prop in E2 as [_ E2].
    rewrite forallb_forall in E1, E2. specialize (E1 x Hx). specialize (E2 x Hx).
    apply wrap_to_int32. lia.
  - unfold astype. cbn [is_integer_dtype].
    rewrite v_ge_max_float, v_le_min_float.
    destruct (existsb _ v || existsb _ v); reflexivity.
  - unfold astype. cbn [is_integer_dtype].
    rewrite v_ge_max_float, v_le_min_float.
    destruct (existsb _ v || existsb _ v); reflexivity.
Qed.

(** Every numeric column leaves the cast with a dtype of the format. *)
Lemma cast_lands_on_stata_dtype (col : series) (ws : string) :
  numeric_dtype (series_dtype col) = true ->
  stata_dtype (series_dtype (fst (cast_column col ws))) = true.
Proof.
  intros H. destruct col as [dt v| | | |]; try discriminate; try reflexivity.
  destruct dt; try discriminate; try reflexivity;
    unfold cast_column; cbn;
    repeat match goal with
           | |- context [if ?b then _ else _] =>
               lazymatch b with
               | context [if _ then _ else _] => fail
               | _ => destruct b; cbn
               end
           end; reflexivity.
Qed.

(** What a column becomes does not depend on the message collected so
    far. *)
Lemma cast_column_fst (col : series) (ws : string) :
  fst (cast_column col ws) = fst (cast_column col "").
Proof.
  destruct col as [dt v| | | |]; try reflexivity.
  destruct dt; try reflexivity;
    unfold cast_column; cbn;
    repeat match goal with
           | |- context [if ?b then _ else _] =>
               lazymatch b with
               | context [if _ then _ else _] => fail
               | _ => destruct b; cbn
               end
           end; reflexivity.
Qed.

Lemma wrap_to_int64 x : - 2 ^ 63 <= x <= 2 ^ 63 - 1 -> wrap_to int64 x = x.
Proof.
  intros H. unfold wrap_to, Struct.to_signed. simpl iinfo_bits.
  change (2 ^ 64) with 18446744073709551616 in *.
  change (2 ^ (64 - 1)) with 9223372036854775808 in *.
  change (2 ^ 63) with 9223372036854775808 in *.
  pose proof (Z.mod_pos_bound x 18446744073709551616 ltac:(lia)) as Hb.
  pose proof (Z.div_mod x 18446744073709551616 ltac:(lia)) as Hd.
  destruct (x mod 18446744073709551616 <? 9223372036854775808) eqn:E; lia.
Qed.

(** The message after a column: that of an [int64] column which loses
    precision, or the one before. *)
Lemma cast_column_snd (col : series) (ws : string) :
  column_in_range col ->
  snd (cast_column col ws)
  = if loses_precision col then precision_loss_doc "int64" "float64" else ws.
Proof.
  intros Hr. destruct col as [dt v| | | |]; try reflexivity.
  destruct dt; try reflexivity;
    try (unfold cast_column; cbn;
         repeat match goal with
                | |- context [if ?b then _ else _] =>
                    lazymatch b with
                    | context [if _ then _ else _] => fail
                    | _ => destruct b; cbn
                    end
                end; reflexivity).
  - (* uint32: cast to int64 when the maximum is above that of int32 *)
    cbn [column_in_range] in Hr. rewrite List.Forall_forall in Hr.
    assert (Hv : map (wrap_to int64) v = v).
    { apply map_id_on. intros x Hx. specialize (Hr x Hx). simpl in Hr.
      apply wrap_to_int64. lia. }
    assert (E : cast_column (IntSeries uint32 v) ws
                = if v_le (col_max (IntSeries uint32 v)) 2147483647
                  then (IntSeries int32 (map (wrap_to int32) v), ws)
                  else cast_column (IntSeries int64 v) ws).
    { unfold cast_column. cbn [fold_left conversion_data unsupported_step series_dtype
                                dtype_eqb iinfo_max].
      destruct (v_le (col_max (IntSeries uint32 v)) 2147483647); cbn.
      - reflexivity.
      - rewrite Hv. reflexivity. }
    rewrite E. cbn [loses_precision].
    destruct (v_le (col_max (IntSeries uint32 v)) 2147483647); [reflexivity|].
    rewrite cast_int64.
    assert (H1 : existsb (fun x => 2 ^ 53 <=? x) v = false).
    { apply not_true_is_false. intros H. apply existsb_exists in H.
      destruct H as (x & Hx & H). specialize (Hr x Hx). simpl in Hr.
      apply Z.leb_le in H. lia. }
    assert (H2 : existsb (fun x => x <=? - 2 ^ 53) v = false).
    { apply not_true_is_false. intros H. apply existsb_exists in H.
      destruct H as (x & Hx & H). specialize (Hr x Hx). simpl in Hr.
      apply Z.leb_le in H. lia. }
    rewrite H1, H2. destruct (_ && _); reflexivity.
  - (* int64 *)
    rewrite cast_int64. cbn [loses_precision].
    assert (He : existsb (fun x => 2 ^ 53 <=? x) v || existsb (fun x => x <=? - 2 ^ 53) v
                 = existsb (fun x => (2 ^ 53 <=? x) || (x <=? - 2 ^ 53)) v).
    { clear. induction v as [|x v IH]; simpl; [reflexivity|]. rewrite <- IH.
      destruct (2 ^ 53 <=? x), (x <=? - 2 ^ 53),
        (existsb (fun x => 2 ^ 53 <=? x) v); reflexivity. }
    rewrite <- He.
    destruct (nonempty v && forallb (fun x => x <=? 2147483620) v
              && (nonempty v && forallb (fun x => - 2147483647 <=? x) v)) eqn:E;
      [|reflexivity].
    cbn [snd]. apply andb_prop in E as [E1 E2].
    apply andb_prop in E1 as [_ E1]. apply andb_prop in E2 as [_ E2].
    rewrite forallb_forall in E1, E2.
    assert (H1 : existsb (fun x => 2 ^ 53 <=? x) v = false).
    { apply not_true_is_false. intros H. apply existsb_exists in H.
      destruct H as (x & Hx & H). specialize (E1 x Hx). apply Z.leb_le in H, E1. lia. }
    assert (H2 : existsb (fun x => x <=? - 2 ^ 53) v = false).
    { apply not_true_is_false. intros H. apply existsb_exists in H.
      destruct H as (x & Hx & H). specialize (E2 x Hx). apply Z.leb_le in H, E2. lia. }
    rewrite H1, H2. reflexivity.
Qed.

(** The loop over the columns. *)
Lemma cast_loop (data done : frame) (ws : string) :
  Forall (fun nc => column_in_range (snd nc)) data ->
  fold_left
    (fun '(done, ws) '(name, col) =>
       let '(col, ws) := cast_column col ws in (done ++ [(name, col)], ws))
    data (done, ws)
  = (done ++ map (fun nc => (fst nc, fst (cast_column (snd nc) ""))) data,
     if existsb (fun nc => loses_precision (snd nc)) data
     then precision_loss_doc "int64" "float64" else ws).
Proof.
  intros H. revert done ws. induction H as [|[name col] data Hc _ IH]; intros done ws.
  - cbn. rewrite app_nil_r. reflexivity.
  - cbn [fold_left map existsb fst snd].
    pose proof (cast_column_fst col ws) as Hf. pose proof (cast_column_snd col ws Hc) as Hs.
    destruct (cast_column col ws) as [col' ws']. cbn [fst snd] in Hf, Hs. subst col' ws'.
    rewrite IH, <- app_assoc. cbn [app].
    destruct (loses_precision col); cbn [orb]; [|reflexivity].
    destruct (existsb _ data); reflexivity.
Qed.

(** The frame the cast returns: every column cast on its own. *)
Lemma cast_frame_fst (data : frame) :
  fst (_cast_to_stata_types data)
  = map (fun nc => (fst nc, fst (cast_column (snd nc) ""))) data.
Proof.
  unfold _cast_to_stata_types.
  assert (H : forall (data done : frame) (ws : string),
             fst (fold_left
                    (fun '(done, ws) '(name, col) =>
                       let '(col, ws) := cast_column col ws in (done ++ [(name, col)], ws))
                    data (done, ws))
             = done ++ map (fun nc => (fst nc, fst (cast_column (snd nc) ""))) data).
  { clear. induction data as [|[name col] data IH]; intros done ws.
    - cbn. rewrite app_nil_r. reflexivity.
    - cbn [fold_left map fst snd]. pose proof (cast_column_fst col ws) as Hf.
      destruct (cast_column col ws) as [col' ws']. cbn [fst] in Hf. subst col'.
      rewrite IH, <- app_assoc. reflexivity. }
  destruct (fold_left _ data ([], "")) as [out ws] eqn:E. cbn [fst].
  change out with (fst (out, ws)). rewrite <- E. apply (H data [] "").
Qed.

(** What the cast makes of one column, in the words of the claim. *)
Lemma cast_column_cast_of (col : series) :
  column_in_range col -> cast_of col (fst (cast_column col "")).
Proof.
  intros Hr. split; [|split; [|split]].
  - intros v ->. rewrite (cast_int8 v "" Hr). reflexivity.
  - intros v ->. rewrite (cast_int16 v "" Hr). reflexivity.
  - intros v -> Hne. rewrite cast_int64.
    assert (Hn : nonempty v = true) by (destruct v; [contradiction|reflexivity]).
    rewrite Hn. simpl andb.
    assert (Hf : forallb (fun x => x <=? 2147483620) v
                 && forallb (fun x => - 2147483647 <=? x) v
                 = forallb (fun x => (- 2147483647 <=? x) && (x <=? 2147483620)) v).
    { clear. induction v as [|x v IH]; simpl; [reflexivity|]. rewrite <- IH.
      destruct (x <=? 2147483620), (- 2147483647 <=? x),
        (forallb (fun x => x <=? 2147483620) v); reflexivity. }
    rewrite Hf. clear Hf.
    destruct (forallb (fun x => (- 2147483647 <=? x) && (x <=? 2147483620)) v);
      reflexivity.
  - intros Hn. apply cast_lands_on_stata_dtype. exact Hn.
Qed.

(** C3, as the code has it.  [_cast_to_stata_types] on a frame whose
    cells lie in the range of their dtypes returns the columns under
    their names, each cast on its own: an [int8] column widened to
    [int16] when its maximum exceeds 100 or its minimum is below -127, an
    [int16] column to [int32] when its maximum exceeds 32740 or its
    minimum is below -32767, an [int64] column that is not empty cast to
    [int32] exactly when all its cells lie in [-2147483647, 2147483620]
    and otherwise to [float64], every column of a numeric dtype on a
    dtype of the format; and it issues one [PossiblePrecisionLoss]
    warning exactly when a cell of an [int64] column reaches [2 ^ 53] in
    magnitude, and none otherwise. *)
Theorem cast_to_stata_types_frame (data : frame) :
  Forall (fun nc => column_in_range (snd nc)) data ->
  exists out,
    _cast_to_stata_types data
    = (out, if existsb (fun nc => loses_precision (snd nc)) data
            then [PossiblePrecisionLoss (precision_loss_doc "int64" "float64")]
            else [])
    /\ Forall2 (fun nc nc' => fst nc' = fst nc /\ cast_of (snd nc) (snd nc')) data out.
Proof.
  intros H.
  exists (map (fun nc => (fst nc, fst (cast_column (snd nc) ""))) data). split.
  - unfold _cast_to_stata_types. pose proof (cast_loop data [] "" H) as L.
    destruct (fold_left _ data ([], "")) as [out ws] eqn:E.
    assert (L' : (out, ws)
                 = ([] ++ map (fun nc => (fst nc, fst (cast_column (snd nc) ""))) data,
                    if existsb (fun nc => loses_precision (snd nc)) data
                    then precision_loss_doc "int64" "float64" else ""))
      by (rewrite <- E; exact L).
    injection L' as -> ->. cbn [app].
    destruct (existsb _ data); reflexivity.
  - induction H as [|nc data Hc _ IH]; cbn [map]; constructor; [|exact IH].
    split; [reflexivity|]. apply cast_column_cast_of, Hc.
Qed.

Lemma cast_to_stata_types_frame_witness :
  Forall (fun nc => column_in_range (snd nc))
    [(LStr "n", IntSeries int64 [5; 2 ^ 53]); (LStr "b", IntSeries int8 [101])]
  /\ exists out,
       _cast_to_stata_types
         [(LStr "n", IntSeries int64 [5; 2 ^ 53]); (LStr "b", IntSeries int8 [101])]
       = (out, if existsb (fun nc => loses_precision (snd nc))
                    [(LStr "n", IntSeries int64 [5; 2 ^ 53]);
                     (LStr "b", IntSeries int8 [101])]
               then [PossiblePrecisionLoss (precision_loss_doc "int64" "float64")]
               else [])
       /\ Forall2 (fun nc nc' => fst nc' = fst nc /\ cast_of (snd nc) (snd nc'))
            [(LStr "n", IntSeries int64 [5; 2 ^ 53]); (LStr "b", IntSeries int8 [101])]
            out.
Proof.
  assert (H : Forall (fun nc => column_in_range (snd nc))
                [(LStr "n", IntSeries int64 [5; 2 ^ 53]); (LStr "b", IntSeries int8 [101])]).
  { repeat constructor; simpl; lia. }
  split; [exact H|].
  exact (cast_to_stata_types_frame _ H).
Defined.

(** C3 as stated fails on two kinds of column.  An empty [int64] column:
    all of its (no) cells lie in the range, but its maximum is NaN, the
    comparison is false and the column is cast to [float64].  A column
    that is not numeric: a [datetime64] column and an object column are
    left as they are, on a dtype that is none of the format and that the
    writer refuses. *)
Lemma cast_leaves_empty_int64_and_dates :
  Forall (fun x => - 2147483647 <= x <= 2147483620) (@nil Z)
  /\ _cast_to_stata_types [(LStr "a", IntSeries int64 [])]
     = ([(LStr "a", Float64 [])], [])
  /\ _cast_to_stata_types [(LStr "d", Datetime64 [0]); (LStr "o", Object_ [ONone])]
     = ([(LStr "d", Datetime64 [0]); (LStr "o", Object_ [ONone])], [])
  /\ stata_dtype datetime64 = false
  /\ stata_dtype object_ = false
  /\ Writer._dtype_to_stata_type (Writer.column datetime64)
     = Raise (Writer.not_understood datetime64)
  /\ Writer._dtype_to_default_stata_fmt object_ (LStr "o") (Object_ [ONone])
     = Raise (ValueError "Writing general object arrays is not supported").
Proof. split; [constructor|]. repeat split; reflexivity. Qed.

(** The examples of the specification. *)
Example cast_examples :
  fst (cast_column (IntSeries int64 [- 2147483647; 2147483620]) "")
  = IntSeries int32 [- 2147483647; 2147483620]
  /\ fst (cast_column (IntSeries int64 [2147483621]) "")
     = Float64 [Float.of_Z Float.binary64 2147483621]
  /\ snd (_cast_to_stata_types [(LStr "a", IntSeries int64 [2 ^ 53])])
     = [PossiblePrecisionLoss (precision_loss_doc "int64" "float64")]
  /\ snd (_cast_to_stata_types [(LStr "a", IntSeries int64 [2 ^ 53 - 1])]) = []
  /\ fst (cast_column (IntSeries int8 [101]) "") = IntSeries int16 [101]
  /\ fst (cast_column (IntSeries int16 [32741]) "") = IntSeries int32 [32741].
Proof. repeat split; vm_compute; reflexivity. Qed.

End CastTheorems.

(** ** Strings as lists of characters *)

Section StringFacts.

Import Names.

Lemma chars_app (a b : string) : chars (a +:+ b) = chars a ++ chars b.
Proof. induction a as [|c a IH]; simpl; [reflexivity|]. rewrite IH. reflexivity. Qed.

Lemma chars_inj (a b : string) : chars a = chars b -> a = b.
Proof.
  revert b. induction a as [|c a IH]; intros [|d b]; simpl; try discriminate.
  - reflexivity.
  - intros [= -> H]. f_equal. apply IH, H.
Qed.

Lemma chars_length (s : string) : length (chars s) = String.length s.
Proof. induction s as [|c s IH]; simpl; [reflexivity|]. rewrite IH. reflexivity. Qed.

Lemma chars_str_take (n : nat) (s : string) : chars (str_take n s) = firstn n (chars s).
Proof.
  revert s. induction n as [|n IH]; intros [|c s]; simpl; try reflexivity.
  rewrite IH. reflexivity.
Qed.

Lemma chars_truncate (s : string) : chars (truncate s) = firstn 32 (chars s).
Proof.
  unfold truncate. rewrite chars_str_take.
  destruct (Nat.le_ge_cases (String.length s) 32) as [H|H].
  - rewrite Nat.min_l by exact H.
    rewrite !firstn_all2; rewrite ?chars_length; auto.
  - rewrite Nat.min_r by exact H. reflexivity.
Qed.

Lemma truncate_length (s : string) : (String.length (truncate s) <= 32)%nat.
Proof.
  rewrite <- chars_length, chars_truncate, length_firstn. lia.
Qed.

Lemma truncate_short (s : string) : (String.length s <= 32)%nat -> truncate s = s.
Proof.
  intros H. apply chars_inj. rewrite chars_truncate.
  apply firstn_all2. rewrite chars_length. exact H.
Qed.

(** The loop of replacements is a map over the characters. *)
Definition clean_char (c : ascii) : ascii := if is_invalid c then "_"%char else c.

Lemma chars_replace (c : ascii) (s : string) :
  chars (replace c s) = map (fun a => if Ascii.eqb a c then "_"%char else a) (chars s).
Proof. induction s as [|a s IH]; simpl; [reflexivity|]. rewrite IH. reflexivity. Qed.

Lemma replace_invalid_fold (l : list ascii) (s : string) :
  chars (fold_left (fun name c => if is_invalid c then replace c name else name) l s)
  = map (fun a => if existsb (fun c => is_invalid c && Ascii.eqb a c) l
                  then "_"%char else a) (chars s).
Proof.
  revert s. induction l as [|c l IH]; intros s; simpl.
  - rewrite map_id. reflexivity.
  - rewrite IH. destruct (is_invalid c) eqn:Hc; simpl.
    + rewrite chars_replace, map_map. apply map_ext. intros a.
      destruct (Ascii.eqb a c) eqn:E; [|reflexivity].
      destruct (existsb _ l); reflexivity.
    + reflexivity.
Qed.

Lemma chars_replace_invalid (s : string) :
  chars (replace_invalid s) = map clean_char (chars s).
Proof.
  unfold replace_invalid. rewrite replace_invalid_fold.
  apply map_ext_in. intros a Ha. unfold clean_char.
  destruct (is_invalid a) eqn:E.
  - replace (existsb _ (chars s)) with true; [reflexivity|].
    symmetry. apply existsb_exists. exists a. split; [exact Ha|].
    rewrite E, Ascii.eqb_refl. reflexivity.
  - destruct (existsb _ (chars s)) eqn:E2; [|reflexivity].
    apply existsb_exists in E2 as (c & _ & Hc). apply andb_prop in Hc as [Hc1 Hc2].
    apply Ascii.eqb_eq in Hc2. subst c. congruence.
Qed.

End StringFacts.

(** ** Decimal numerals *)

Section Numerals.

Import Names.

Lemma pretty_N_char_digit (x : N) : is_digit (pretty_N_char x) = true.
Proof. unfold pretty_N_char. repeat case_match; reflexivity. Qed.

Lemma pretty_N_go_digits (x : N) (s : string) :
  Forall (fun c => is_digit c = true) (chars s) ->
  Forall (fun c => is_digit c = true) (chars (pretty_N_go x s)).
Proof.
  revert s. induction (N.lt_wf_0 x) as [x _ IH]. intros s Hs.
  destruct (N.eq_dec x 0%N) as [->|Hx]; [exact Hs|].
  rewrite pretty_N_go_step by lia. apply IH.
  - apply N.div_lt; lia.
  - simpl. constructor; [apply pretty_N_char_digit|exact Hs].
Qed.

Lemma pretty_N_go_length (k : nat) (x : N) (s : string) :
  (x < 10 ^ N.of_nat k)%N ->
  (String.length (pretty_N_go x s) <= String.length s + k)%nat.
Proof.
  revert x s. induction k as [|k IH]; intros x s Hx.
  - change (10 ^ N.of_nat 0)%N with 1%N in Hx.
    assert (x = 0%N) as -> by lia. rewrite pretty_N_go_0. lia.
  - destruct (N.eq_dec x 0%N) as [->|Hx0]; [rewrite pretty_N_go_0; lia|].
    rewrite pretty_N_go_step by lia.
    etrans; [apply IH|simpl; lia].
    apply N.Div0.div_lt_upper_bound.
    replace (N.of_nat (S k)) with (N.succ (N.of_nat k)) in Hx by lia.
    rewrite N.pow_succ_r' in Hx. exact Hx.
Qed.

Lemma pretty_Z_N (z : Z) : 0 <= z -> pretty z = pretty (Z.to_N z).
Proof. destruct z as [|p|p]; [reflexivity|reflexivity|lia]. Qed.

Lemma pretty_digits (z : Z) :
  0 <= z -> Forall (fun c => is_digit c = true) (chars (pretty z)).
Proof.
  intros Hz. rewrite pretty_Z_N by exact Hz. unfold pretty, pretty_N.
  case_decide.
  - repeat constructor.
  - apply pretty_N_go_digits. constructor.
Qed.

Lemma pretty_length (z : Z) :
  0 <= z < 10 ^ 29 -> (String.length (pretty z) <= 29)%nat.
Proof.
  intros Hz. rewrite pretty_Z_N by lia. unfold pretty, pretty_N.
  case_decide; [simpl; lia|].
  etrans; [apply (pretty_N_go_length 29)|simpl; lia].
  change (10 ^ N.of_nat 29)%N with (Z.to_N (10 ^ 29)). lia.
Qed.

(** Two numerals followed by characters that are no digits: the numerals
    are the same. *)
Lemma digit_span (d1 d2 : list ascii) (c1 c2 : ascii) (t1 t2 : list ascii) :
  Forall (fun c => is_digit c = true) d1 ->
  Forall (fun c => is_digit c = true) d2 ->
  is_digit c1 = false -> is_digit c2 = false ->
  d1 ++ c1 :: t1 = d2 ++ c2 :: t2 -> d1 = d2.
Proof.
  intros H1. revert d2. induction H1 as [|a d1 Ha H1 IH]; intros d2 H2 Hc1 Hc2 E.
  - destruct H2 as [|b d2 Hb H2]; [reflexivity|].
    simpl in E. injection E as -> _. congruence.
  - destruct H2 as [|b d2 Hb H2].
    + simpl in E. injection E as -> _. congruence.
    + simpl in E. injection E as -> E. f_equal. eapply IH; eauto.
Qed.

End Numerals.

(** ** The loop against duplicates *)

Section Dedup.

Import Names.

(** A name that is not empty and does not start with a digit. *)
Definition headed (s : string) : Prop :=
  exists c t, s = String c t /\ is_digit c = false.

Lemma label_eqb_eq (a b : label) : label_eqb a b = true <-> a = b.
Proof.
  destruct a as [s|x], b as [t|y]; simpl; try (split; [discriminate|congruence]).
  - rewrite String.eqb_eq. split; congruence.
  - rewrite Z.eqb_eq. split; congruence.
Qed.

Lemma count_pos (name : string) (cols : list label) :
  (0 <? count name cols)%nat = true <-> LStr name ∈ cols.
Proof.
  unfold count. rewrite Nat.ltb_lt. induction cols as [|l cols IH]; simpl.
  - split; [lia|]. intros H. apply elem_of_nil in H. destruct H.
  - rewrite elem_of_cons.
    destruct (label_eqb l (LStr name)) eqn:E; simpl.
    + apply label_eqb_eq in E. split; [auto|lia].
    + rewrite IH. split; [tauto|]. intros [H|H]; [|exact H].
      subst l. rewrite (proj2 (label_eqb_eq _ _) eq_refl) in E. discriminate.
Qed.

Lemma count_zero (name : string) (cols : list label) :
  (0 <? count name cols)%nat = false <-> LStr name ∉ cols.
Proof.
  rewrite <- count_pos. destruct (0 <? count name cols)%nat; split; congruence.
Qed.

(** What [dedup] returns when it returns. *)
Lemma dedup_ok fuel cols name id name' id' :
  dedup fuel cols name id = Ok (name', id') ->
  (LStr name' ∉ cols) /\ renamed id name id' name'.
Proof.
  revert name id. induction fuel as [|fuel IH]; intros name id; simpl; [discriminate|].
  destruct (0 <? count name cols)%nat eqn:E.
  - intros H. apply IH in H as [H1 H2]. split; [exact H1|].
    apply renamed_next. exact H2.
  - intros [= <- <-]. split; [apply count_zero, E|apply renamed_here].
Qed.

Lemma dedup_no_exception fuel cols name id e :
  dedup fuel cols name id <> Raise e.
Proof.
  revert name id. induction fuel as [|fuel IH]; intros name id; simpl; [discriminate|].
  destruct (0 <? count name cols)%nat; [apply IH|discriminate].
Qed.

(** The [k]-th name that the loop tries. *)
Fixpoint nth_name (k : nat) (id : Z) (name : string) : string :=
  match k with
  | O => name
  | S k' => nth_name k' (id + 1) (next_name id name)
  end.

Lemma nth_name_S k id name :
  nth_name (S k) id name = next_name (id + Z.of_nat k) (nth_name k id name).
Proof.
  revert id name. induction k as [|k IH]; intros id name.
  - simpl. rewrite Z.add_0_r. reflexivity.
  - change (nth_name (S (S k)) id name) with (nth_name (S k) (id + 1) (next_name id name)).
    rewrite IH. simpl nth_name. f_equal. lia.
Qed.

(** If the fuel runs out, every name that was tried is a column. *)
Lemma dedup_out_of_fuel fuel cols name id :
  dedup fuel cols name id = OutOfFuel ->
  forall k, (k < fuel)%nat -> LStr (nth_name k id name) ∈ cols.
Proof.
  revert name id. induction fuel as [|fuel IH]; intros name id H k Hk; [lia|].
  simpl in H. destruct (0 <? count name cols)%nat eqn:E; [|discriminate].
  destruct k as [|k].
  - simpl. apply count_pos, E.
  - simpl. apply IH; [exact H|lia].
Qed.

Lemma firstn_numeral {A} (x c : A) (d t : list A) :
  (length d <= 29)%nat ->
  firstn 32 ([x] ++ d ++ c :: t) = x :: d ++ c :: firstn (30 - length d) t.
Proof.
  intros Hl. change (firstn 32 ([x] ++ d ++ c :: t)) with (x :: firstn 31 (d ++ c :: t)).
  f_equal. rewrite firstn_app. rewrite (firstn_all2 d) by lia. f_equal.
  replace (31 - length d)%nat with (S (30 - length d)) by lia. reflexivity.
Qed.

(** The shape of a name after one pass. *)
Lemma next_name_chars id name :
  0 <= id < 10 ^ 29 -> headed name ->
  exists c t, chars (next_name id name) = "_"%char :: chars (pretty id) ++ c :: t
              /\ is_digit c = false.
Proof.
  intros Hid (c & t & -> & Hc). exists c.
  pose proof (pretty_length id Hid) as Hl. rewrite <- chars_length in Hl.
  exists (firstn (30 - length (chars (pretty id))) (chars t)). split; [|exact Hc].
  unfold next_name. rewrite chars_truncate, !chars_app.
  change (chars "_") with ["_"%char]. change (chars (String c t)) with (c :: chars t).
  apply firstn_numeral, Hl.
Qed.

Lemma next_name_headed_aux (s : string) : headed (truncate ("_" +:+ s)).
Proof.
  exists "_"%char, (str_take 31 s). split; [|reflexivity].
  apply chars_inj. rewrite chars_truncate.
  change (chars ("_" +:+ s)) with ("_"%char :: chars s).
  change (chars (String "_" (str_take 31 s))) with ("_"%char :: chars (str_take 31 s)).
  rewrite chars_str_take. reflexivity.
Qed.

Lemma next_name_headed id name : headed (next_name id name).
Proof. apply next_name_headed_aux. Qed.

Lemma nth_name_headed k id name : headed name -> headed (nth_name k id name).
Proof.
  revert id name. induction k as [|k IH]; intros id name H; simpl; [exact H|].
  apply IH, next_name_headed.
Qed.

(** The names tried after the first one are pairwise different. *)
Lemma nth_name_inj i j id name :
  headed name -> 0 <= id -> id + Z.of_nat i < 10 ^ 29 -> id + Z.of_nat j < 10 ^ 29 ->
  nth_name (S i) id name = nth_name (S j) id name -> i = j.
Proof.
  intros Hh Hid Hi Hj E. rewrite !nth_name_S in E.
  destruct (next_name_chars (id + Z.of_nat i) (nth_name i id name))
    as (c1 & t1 & E1 & Hc1); [lia|apply nth_name_headed, Hh|].
  destruct (next_name_chars (id + Z.of_nat j) (nth_name j id name))
    as (c2 & t2 & E2 & Hc2); [lia|apply nth_name_headed, Hh|].
  rewrite E, E2 in E1. injection E1 as E1.
  apply digit_span in E1; [|apply pretty_digits; lia..|assumption|assumption].
  apply chars_inj in E1. apply (inj pretty) in E1. lia.
Qed.

(** With more passes than columns the loop ends. *)
Lemma dedup_terminates (cols : list label) (name : string) (id : Z) :
  headed name -> 0 <= id -> id + Z.of_nat (length cols) < 10 ^ 29 ->
  exists name' id',
    dedup (S (S (length cols))) cols name id = Ok (name', id')
    /\ id <= id' <= id + Z.of_nat (length cols) + 1.
Proof.
  intros Hh Hid Hb.
  destruct (dedup (S (S (length cols))) cols name id) as [[name' id']|e|] eqn:E.
  - exists name', id'. split; [reflexivity|].
    assert (G : forall fuel name id, dedup fuel cols name id = Ok (name', id') ->
                  id <= id' <= id + Z.of_nat fuel - 1).
    { clear. induction fuel as [|fuel IH]; intros name id; simpl dedup; [discriminate|].
      destruct (0 <? count name cols)%nat.
      - intros H. apply IH in H. lia.
      - intros [= _ <-]. lia. }
    apply G in E. lia.
  - exfalso. eapply dedup_no_exception, E.
  - exfalso.
    pose proof (dedup_out_of_fuel _ _ _ _ E) as Hin.
    set (tried := map (fun k => LStr (nth_name (S k) id name)) (seq 0 (S (length cols)))).
    assert (Hnd : List.NoDup tried).
    { unfold tried. apply Finite.Injective_map_NoDup_in; [|apply seq_NoDup].
      intros i j Hi Hj [= Hij]. apply in_seq in Hi, Hj.
      eapply nth_name_inj; eauto; lia. }
    assert (Hincl : incl tried cols).
    { intros l Hl. unfold tried in Hl. apply in_map_iff in Hl as (k & <- & Hk).
      apply in_seq in Hk. apply list_elem_of_In. apply Hin. lia. }
    pose proof (NoDup_incl_length Hnd Hincl) as Hlen.
    unfold tried in Hlen. rewrite length_map, length_seq in Hlen. lia.
Qed.

End Dedup.

(** ** [_check_column_names] *)

Section CheckColumnNames.

Import Names.

Lemma chars_smap f s : chars (smap f s) = map f (chars s).
Proof. induction s as [|c s IH]; simpl; [reflexivity|]. rewrite IH. reflexivity. Qed.

Lemma replace_invalid_smap s : replace_invalid s = smap clean_char s.
Proof. apply chars_inj. rewrite chars_replace_invalid, chars_smap. reflexivity. Qed.

(** [clean] computes [clean_name], and raises only for the empty name. *)
Lemma clean_spec (orig : label) :
  text_type orig <> "" ->
  clean orig = Ok (clean_name (text_type orig)) /\ headed (clean_name (text_type orig)).
Proof.
  intros Hne. unfold clean, clean_name. rewrite replace_invalid_smap.
  fold clean_char.
  set (s1 := smap clean_char (text_type orig)).
  assert (H1 : s1 <> "").
  { unfold s1. destruct (text_type orig); [congruence|discriminate]. }
  set (s2 := if existsb (String.eqb s1) StataParser.RESERVED_WORDS then "_" +:+ s1 else s1).
  assert (H2 : s2 <> "").
  { unfold s2. destruct (existsb _ _); [discriminate|exact H1]. }
  destruct s2 as [|c t] eqn:E2; [congruence|].
  split; [reflexivity|]. unfold starts_with_digit.
  destruct (is_digit c) eqn:Hc.
  - apply next_name_headed_aux.
  - exists c, (str_take 31 t). split; [|exact Hc].
    apply chars_inj. rewrite chars_truncate.
    change (chars (String c t)) with (c :: chars t).
    change (chars (String c (str_take 31 t))) with (c :: chars (str_take 31 t)).
    rewrite chars_str_take. reflexivity.
Qed.

Lemma NoDup_insert_fresh (l : list label) (j : nat) (x : label) :
  NoDup l -> x ∉ l -> NoDup (<[j:=x]> l).
Proof.
  intros Hnd Hx. destruct (Nat.lt_ge_cases j (length l)) as [Hj|Hj].
  - destruct (lookup_lt_is_Some_2 l j Hj) as [y Hy].
    rewrite insert_take_drop by exact Hj.
    rewrite <- (take_drop_middle l j y Hy) in Hnd, Hx.
    apply NoDup_app in Hnd as (H1 & H2 & H3). apply NoDup_cons in H3 as [H3 H4].
    rewrite elem_of_app, elem_of_cons in Hx.
    apply NoDup_app. split; [exact H1|]. split.
    + intros z Hz. rewrite elem_of_cons. intros [->|Hz2]; [tauto|].
      apply (H2 z Hz). right. exact Hz2.
    + apply NoDup_cons. split; [tauto|exact H4].
  - rewrite list_insert_ge by exact Hj. exact Hnd.
Qed.

Lemma take_below {A} (j : nat) (l : list A) : take j l = take j (take (S j) l).
Proof. rewrite take_take. f_equal. lia. Qed.

Lemma renamed_length id c id' name :
  renamed id c id' name -> (String.length c <= 32)%nat -> (String.length name <= 32)%nat.
Proof.
  induction 1 as [|id c id' name _ IH]; intros Hc; [exact Hc|].
  apply IH. apply truncate_length.
Qed.

Lemma rename_log_cons o n olds news :
  rename_log (o :: olds) (n :: news)
  = (if label_eqb n o then [] else [logged_name o +:+ "   ->   " +:+ text_type n])
    ++ rename_log olds news.
Proof. reflexivity. Qed.

Lemma step_unchanged st j orig c :
  clean orig = Ok c -> LStr c = orig ->
  step st j orig
  = Ok {| columns := <[j:=LStr c]> (columns st);
          duplicate_var_id := duplicate_var_id st;
          converted_names := converted_names st |}.
Proof.
  intros Hc E. unfold step. rewrite Hc. cbn [rbind].
  rewrite (proj2 (label_eqb_eq _ _) E). reflexivity.
Qed.

Lemma step_renamed st j orig c name id' :
  clean orig = Ok c -> LStr c <> orig ->
  dedup (S (S (length (columns st)))) (columns st) c (duplicate_var_id st)
  = Ok (name, id') ->
  step st j orig
  = Ok {| columns := <[j:=LStr name]> (columns st);
          duplicate_var_id := id';
          converted_names :=
            converted_names st ++ [logged_name orig +:+ "   ->   " +:+ name] |}.
Proof.
  intros Hc E Hd. unfold step. rewrite Hc. cbn [rbind].
  destruct (label_eqb (LStr c) orig) eqn:E2; [apply label_eqb_eq in E2; congruence|].
  cbn [negb]. rewrite Hd. reflexivity.
Qed.

(** The loop over the columns, from column [j] on. *)
Lemma loop_spec (n : nat) :
  Z.of_nat n < 10 ^ 9 ->
  forall (rest : list label) (j : nat) (st : state),
    length (columns st) = n ->
    drop j (columns st) = rest ->
    NoDup (columns st) ->
    0 <= duplicate_var_id st <= Z.of_nat j * (Z.of_nat n + 1) ->
    Forall (fun l => text_type l <> "") rest ->
    exists st',
      loop st j rest = Ok st'
      /\ length (columns st') = n
      /\ NoDup (columns st')
      /\ take j (columns st') = take j (columns st)
      /\ Forall2 checked_name rest (drop j (columns st'))
      /\ converted_names st'
         = converted_names st ++ rename_log rest (drop j (columns st')).
Proof.
  intros Hn. induction rest as [|orig rest IH]; intros j st Hlen Hdrop Hnd Hid Hne.
  - exists st. simpl. rewrite Hdrop. simpl. rewrite app_nil_r.
    repeat split; auto.
  - assert (Hj : columns st !! j = Some orig).
    { rewrite <- (Nat.add_0_r j), <- lookup_drop, Hdrop. reflexivity. }
    assert (Hjn : (j < n)%nat) by (rewrite <- Hlen; eapply lookup_lt_Some, Hj).
    assert (Hrest : drop (S j) (columns st) = rest).
    { rewrite (drop_S _ _ _ Hj) in Hdrop. congruence. }
    apply Forall_cons in Hne as [Hne1 Hne].
    destruct (clean_spec orig Hne1) as [Hclean Hhead].
    set (c := clean_name (text_type orig)) in *.
    assert (Hc32 : (String.length c <= 32)%nat) by apply truncate_length.
    cbn [loop].
    destruct (label_eqb (LStr c) orig) eqn:E.
    + apply label_eqb_eq in E.
      rewrite (step_unchanged st j orig c Hclean E). cbn [rbind].
      assert (Hins : <[j:=LStr c]> (columns st) = columns st)
        by (apply list_insert_id; rewrite E; exact Hj).
      rewrite Hins.
      edestruct (IH (S j) {| columns := columns st;
                             duplicate_var_id := duplicate_var_id st;
                             converted_names := converted_names st |})
        as (st' & Hl & Hlen' & Hnd' & Htake & Hall & Hlog); simpl; auto; [nia|].
      exists st'. split; [exact Hl|]. split; [exact Hlen'|]. split; [exact Hnd'|].
      assert (Hj' : columns st' !! j = Some orig).
      { rewrite <- (lookup_take_lt _ (S j)) by lia. rewrite Htake.
        rewrite lookup_take_lt by lia. exact Hj. }
      rewrite (drop_S _ _ _ Hj').
      split; [|split].
      * rewrite (take_below j (columns st')), Htake, <- take_below. reflexivity.
      * constructor; [|exact Hall].
        exists c. split; [symmetry; exact E|]. split; [exact Hc32|].
        split; [reflexivity|]. intros Hc. exfalso. apply Hc. symmetry. exact E.
      * rewrite rename_log_cons. rewrite (proj2 (label_eqb_eq orig orig) eq_refl).
        exact Hlog.
    + assert (Hneq : orig <> LStr c).
      { intros Heq. rewrite (proj2 (label_eqb_eq (LStr c) orig) (eq_sym Heq)) in E.
        discriminate. }
      destruct (dedup_terminates (columns st) c (duplicate_var_id st))
        as (name & id' & Hd & Hb); [exact Hhead|lia|rewrite Hlen; nia|].
      rewrite Hlen in Hb.
      rewrite (step_renamed st j orig c name id' Hclean ltac:(congruence) Hd).
      cbn [rbind].
      destruct (dedup_ok _ _ _ _ _ _ Hd) as [Hfresh Hren].
      edestruct (IH (S j) {| columns := <[j:=LStr name]> (columns st);
                             duplicate_var_id := id';
                             converted_names :=
                               converted_names st
                               ++ [logged_name orig +:+ "   ->   " +:+ name] |})
        as (st' & Hl & Hlen' & Hnd' & Htake & Hall & Hlog); simpl.
      { rewrite length_insert. exact Hlen. }
      { rewrite drop_insert_lt by lia. exact Hrest. }
      { apply NoDup_insert_fresh; assumption. }
      { nia. }
      { exact Hne. }
      exists st'. split; [exact Hl|]. split; [exact Hlen'|]. split; [exact Hnd'|].
      assert (Hj' : columns st' !! j = Some (LStr name)).
      { rewrite <- (lookup_take_lt _ (S j)) by lia. rewrite Htake.
        rewrite lookup_take_lt by lia. apply list_lookup_insert_eq. lia. }
      rewrite (drop_S _ _ _ Hj').
      assert (Hnew : LStr name <> orig).
      { intros Heq. apply Hfresh. rewrite Heq. eapply list_elem_of_lookup_2, Hj. }
      split; [|split].
      * rewrite (take_below j (columns st')), Htake, <- take_below.
        apply take_insert_ge. lia.
      * constructor; [|exact Hall].
        exists name. split; [reflexivity|]. split; [eapply renamed_length; eauto|].
        split; [intros Hc; exfalso; apply Hneq; exact Hc|].
        intros _. split; [exact Hnew|].
        exists (duplicate_var_id st), id'. split; [lia|exact Hren].
      * rewrite rename_log_cons.
        destruct (label_eqb (LStr name) orig) eqn:E2;
          [apply label_eqb_eq in E2; congruence|].
        cbn [converted_names] in Hlog. rewrite Hlog, <- app_assoc. reflexivity.
Qed.

Definition the_warning (olds news : list label) : list warning :=
  match rename_log olds news with
  | [] => []
  | names => [InvalidColumnName (invalid_name_doc (join "
    " names))]
  end.

(** For column labels that are pairwise different and not empty, and
    without a dictionary of dates, [_check_column_names] returns; the new
    labels are pairwise different; each is the cleaned name of the old
    one or comes from it by prepending ['_'] and the running counter;
    and the renames are reported in one warning. *)
Lemma check_column_names_without_dates (cols : list label) :
  NoDup cols ->
  Forall (fun l => text_type l <> "") cols ->
  Z.of_nat (length cols) < 10 ^ 9 ->
  exists news,
    _check_column_names cols None
    = Ok {| new_columns := news; new_convert_dates := None;
            warnings := the_warning cols news |}
    /\ NoDup news
    /\ Forall2 checked_name cols news
    /\ (length (the_warning cols news) <= 1)%nat.
Proof.
  intros Hnd Hne Hn.
  destruct (loop_spec (length cols) Hn cols 0
              {| columns := cols; duplicate_var_id := 0; converted_names := [] |})
    as (st & Hl & Hlen & Hnd' & _ & Hall & Hlog); simpl; auto; [lia|].
  rewrite drop_0 in Hall, Hlog. simpl in Hlog.
  exists (columns st). unfold _check_column_names. rewrite Hl. cbn [rbind].
  split; [|split; [exact Hnd'|split; [exact Hall|]]].
  - unfold the_warning. rewrite Hlog. reflexivity.
  - unfold the_warning. destruct (rename_log cols (columns st)); simpl; lia.
Qed.

(** The update of the dictionary raises at the first renamed column that
    is no key. *)
Lemma fix_all_dates_raises (pairs : list (label * label)) (d : list (label * string)) :
  (forall c o, In (c, o) pairs -> c <> o ->
               find (fun kv => label_eqb (fst kv) o) d = None) ->
  (exists c o, In (c, o) pairs /\ c <> o) ->
  fix_all_dates d pairs = Raise KeyError.
Proof.
  induction pairs as [|[c o] pairs IH]; intros Hkeys (c0 & o0 & Hin & Hne).
  - destruct Hin.
  - cbn [fix_all_dates]. unfold fix_dates.
    destruct (label_eqb c o) eqn:E.
    + apply label_eqb_eq in E. subst o. cbn [rbind]. apply IH.
      * intros c' o' H' Hne'. apply (Hkeys c' o'); [right; exact H'|exact Hne'].
      * destruct Hin as [Hin|Hin]; [injection Hin as <- <-; contradiction|].
        exists c0, o0. split; assumption.
    + assert (Hco : c <> o)
        by (intros ->; rewrite (proj2 (label_eqb_eq o o) eq_refl) in E; discriminate).
      rewrite (Hkeys c o (or_introl eq_refl) Hco). reflexivity.
Qed.

Lemma Forall2_combine {A B} (P : A -> B -> Prop) (l1 : list A) (l2 : list B) a b :
  Forall2 P l1 l2 -> In (b, a) (combine l2 l1) -> P a b.
Proof.
  induction 1 as [|x y l1 l2 Hxy _ IH]; cbn [combine In]; [tauto|].
  intros [[= <- <-]|H]; [exact Hxy|apply IH, H].
Qed.

Lemma Forall2_In_l {A B} (P : A -> B -> Prop) (l1 : list A) (l2 : list B) a :
  Forall2 P l1 l2 -> In a l1 -> exists b, In (b, a) (combine l2 l1) /\ P a b.
Proof.
  induction 1 as [|x y l1 l2 Hxy _ IH]; cbn [combine In]; [tauto|].
  intros [<-|H]; [exists y; split; [left; reflexivity|exact Hxy]|].
  destruct (IH H) as (b & Hb & Pb). exists b. split; [right; exact Hb|exact Pb].
Qed.

(** C7, where the code departs from it.  With a dictionary of dates that
    is not empty, [_check_column_names] looks up the old label of every
    column that got a new name, [self._convert_dates[o]]: when the
    columns that need a new name are no keys of the dictionary, and
    there is one, the call raises [KeyError]; it returns no name and
    issues no warning. *)
Theorem renamed_column_breaks_convert_dates (cols : list label)
        (d : list (label * string)) :
  NoDup cols ->
  Forall (fun l => text_type l <> "") cols ->
  Z.of_nat (length cols) < 10 ^ 9 ->
  d <> [] ->
  (exists l c, In l cols /\ clean l = Ok c /\ LStr c <> l) ->
  (forall l c, In l cols -> clean l = Ok c -> LStr c <> l ->
               find (fun kv => label_eqb (fst kv) l) d = None) ->
  _check_column_names cols (Some d) = Raise KeyError.
Proof.
  intros Hnd Hne Hn Hd (l0 & c0 & Hl0 & Hc0 & Hr0) Hkeys.
  destruct (loop_spec (length cols) Hn cols 0
              {| columns := cols; duplicate_var_id := 0; converted_names := [] |})
    as (st & Hl & _ & _ & _ & Hall & _); simpl; auto; [lia|].
  rewrite drop_0 in Hall.
  assert (Hclean : forall l, In l cols -> clean l = Ok (clean_name (text_type l))).
  { intros l Hin. rewrite List.Forall_forall in Hne. apply clean_spec, Hne, Hin. }
  unfold _check_column_names. rewrite Hl. cbn [rbind].
  destruct d as [|kv d']; [contradiction|].
  rewrite fix_all_dates_raises; [reflexivity| |].
  - intros c o Hin Hco.
    assert (Ho : In o cols) by exact (in_combine_r _ _ _ _ Hin).
    pose proof (Forall2_combine _ _ _ _ _ Hall Hin) as (name & -> & _ & Hsame & _).
    apply (Hkeys o (clean_name (text_type o)) Ho (Hclean o Ho)).
    intros E. apply Hco. apply Hsame. symmetry. exact E.
  - destruct (Forall2_In_l _ _ _ _ Hall Hl0) as (c & Hin & name & -> & _ & _ & Hdiff).
    exists (LStr name), l0. split; [exact Hin|].
    rewrite (Hclean l0 Hl0) in Hc0. injection Hc0 as <-.
    apply Hdiff. intros E. apply Hr0. symmetry. exact E.
Qed.

Lemma renamed_column_breaks_convert_dates_witness :
  NoDup [LStr "1 a-b"; LStr "date"]
  /\ Forall (fun l => text_type l <> "") [LStr "1 a-b"; LStr "date"]
  /\ Z.of_nat (length [LStr "1 a-b"; LStr "date"]) < 10 ^ 9
  /\ [(LStr "date", "td")] <> []
  /\ (exists l c, In l [LStr "1 a-b"; LStr "date"] /\ clean l = Ok c /\ LStr c <> l)
  /\ (forall l c, In l [LStr "1 a-b"; LStr "date"] -> clean l = Ok c -> LStr c <> l ->
                  find (fun kv => label_eqb (fst kv) l) [(LStr "date", "td")] = None)
  /\ _check_column_names [LStr "1 a-b"; LStr "date"] (Some [(LStr "date", "td")])
     = Raise KeyError.
Proof.
  assert (H1 : NoDup [LStr "1 a-b"; LStr "date"])
    by (apply (bool_decide_unpack _); vm_compute; exact I).
  assert (H2 : Forall (fun l => text_type l <> "") [LStr "1 a-b"; LStr "date"])
    by (repeat constructor; discriminate).
  assert (H3 : Z.of_nat (length [LStr "1 a-b"; LStr "date"]) < 10 ^ 9) by (simpl; lia).
  assert (H4 : [(LStr "date", "td")] <> []) by discriminate.
  assert (H5 : exists l c, In l [LStr "1 a-b"; LStr "date"] /\ clean l = Ok c /\ LStr c <> l).
  { exists (LStr "1 a-b"), "_1_a_b". split; [left; reflexivity|].
    split; [vm_compute; reflexivity|discriminate]. }
  assert (H6 : forall l c, In l [LStr "1 a-b"; LStr "date"] -> clean l = Ok c ->
                           LStr c <> l ->
                           find (fun kv => label_eqb (fst kv) l) [(LStr "date", "td")] = None).
  { intros l c [<-|[<-|[]]] Hc Hne; [reflexivity|].
    vm_compute in Hc. injection Hc as <-. contradiction Hne. reflexivity. }
  split; [exact H1|]. split; [exact H2|]. split; [exact H3|]. split; [exact H4|].
  split; [exact H5|]. split; [exact H6|].
  exact (renamed_column_breaks_convert_dates _ _ H1 H2 H3 H4 H5 H6).
Defined.

(** The same frame without a dictionary: the names and the one warning,
    with the old name as ['{0}'.format] prints the encoded bytes. *)
Example renamed_column_without_dates :
  _check_column_names [LStr "1 a-b"; LStr "date"] None
  = Ok {| new_columns := [LStr "_1_a_b"; LStr "date"]; new_convert_dates := None;
          warnings := [InvalidColumnName
                         (invalid_name_doc "b'1 a-b'   ->   _1_a_b")] |}.
Proof. vm_compute. reflexivity. Qed.

(** The examples of the specification. *)
Example clean_name_examples :
  clean_name "1 a-b" = "_1_a_b"
  /\ clean_name "float" = "_float"
  /\ clean_name "a_very_long_name_of_more_than_32_characters"
     = "a_very_long_name_of_more_than_32"
  /\ option_map new_columns
       (match _check_column_names
                [LStr "1 a-b"; LStr "a b"; LStr "a-b"; LStr "float"; LInt 7] None
        with Ok r => Some r | _ => None end)
     = Some [LStr "_1_a_b"; LStr "a_b"; LStr "_0a_b"; LStr "_float"; LStr "_7"].
Proof. repeat split; vm_compute; reflexivity. Qed.

(** The names and the warning do not depend on [_convert_dates]: when
    the call returns with a dictionary of dates, it returns the labels
    and the warning it returns without one. *)
Lemma check_column_names_dates_irrelevant cols d r :
  _check_column_names cols d = Ok r ->
  exists r0, _check_column_names cols None = Ok r0
             /\ new_columns r = new_columns r0 /\ warnings r = warnings r0.
Proof.
  unfold _check_column_names.
  destruct (loop _ 0 cols) as [st|e|]; cbn [rbind]; try discriminate.
  destruct d as [[|kv d]|]; cbn [rbind].
  - intros [= <-]. eexists. split; [reflexivity|]. split; reflexivity.
  - destruct (fix_all_dates _ _) as [d'|e|]; cbn [rbind]; try discriminate.
    intros [= <-]. eexists. split; [reflexivity|]. split; reflexivity.
  - intros [= <-]. eexists. split; [reflexivity|]. split; reflexivity.
Qed.

End CheckColumnNames.

(** ** Exact binary64 arithmetic on small integers *)

Section FloatExact.

Import Float.

(** The magnitude bits of a positive integer below [2 ^ 53], split into
    the exponent field and the mantissa field. *)
Lemma round_mag_split (a : Z) :
  0 < a < 2 ^ 53 ->
  let g := round_mag binary64 a 1 in
  let p := a * 2 ^ (52 - Z.log2 a) in
  2 ^ 52 <= p < 2 ^ 53
  /\ g / 2 ^ 52 = Z.log2 a + 1023 /\ g mod 2 ^ 52 = p - 2 ^ 52.
Proof.
  intros Ha g p. unfold g. rewrite round_mag_small by exact Ha. fold p.
  pose proof (Z.log2_nonneg a) as Hn.
  assert (Hl : Z.log2 a < 53) by (apply Z.log2_lt_pow2; lia).
  pose proof (Z.log2_spec a ltac:(lia)) as [Hlo Hhi].
  assert (Hp : 2 ^ 52 <= p < 2 ^ 53).
  { unfold p. split.
    - replace (2 ^ 52) with (2 ^ Z.log2 a * 2 ^ (52 - Z.log2 a)).
      + apply Z.mul_le_mono_nonneg_r; [apply Z.pow_nonneg; lia|lia].
      + rewrite <- Z.pow_add_r by lia. f_equal. lia.
    - replace (2 ^ 53) with (2 ^ Z.succ (Z.log2 a) * 2 ^ (52 - Z.log2 a)).
      + apply Z.mul_lt_mono_pos_r; [apply Z.pow_pos_nonneg; lia|lia].
      + rewrite <- Z.pow_add_r by lia. f_equal. lia. }
  split; [exact Hp|].
  replace ((Z.log2 a + 1022) * 2 ^ 52 + p)
    with ((p - 2 ^ 52) + (Z.log2 a + 1023) * 2 ^ 52) by lia.
  split.
  - rewrite Z.div_add by lia. rewrite Z.div_small by lia. lia.
  - rewrite Z.mod_add by lia. apply Z.mod_small. lia.
Qed.

(** The value of the pattern of a non-zero integer below [2 ^ 53] in
    magnitude is the integer. *)
Lemma finite_value_of_Z (z : Z) :
  0 < Z.abs z < 2 ^ 53 ->
  is_finite binary64 (of_Z binary64 z) = true
  /\ finite_value binary64 (of_Z binary64 z)
     = (z * 2 ^ (52 - Z.log2 (Z.abs z)), Z.log2 (Z.abs z) - 52).
Proof.
  intros Hz.
  destruct (of_Z_fields z) as (Hs & He & Hm & _).
  destruct (round_mag_split (Z.abs z) Hz) as (Hp & Hq & Hr).
  pose proof (Z.log2_nonneg (Z.abs z)) as Hn.
  assert (Hl : Z.log2 (Z.abs z) < 53) by (apply Z.log2_lt_pow2; lia).
  rewrite Hq in He. rewrite Hr in Hm.
  unfold is_finite, finite_value. rewrite Hs, He, Hm.
  change (emax_field binary64) with 2047. change (mbits binary64) with 52.
  change (bias binary64) with 1023.
  destruct (Z.log2 (Z.abs z) + 1023 =? 2047) eqn:E1; [lia|].
  destruct (Z.log2 (Z.abs z) + 1023 =? 0) eqn:E2; [lia|].
  split; [reflexivity|].
  destruct (z <? 0) eqn:E3; f_equal; lia.
Qed.

(** [astype(np.int64)] undoes the conversion of an integer below
    [2 ^ 53] in magnitude. *)
Lemma to_int64_of_Z (z : Z) :
  Z.abs z < 2 ^ 53 -> to_int64 binary64 (of_Z binary64 z) = z.
Proof.
  intros Hz. destruct (Z.eq_dec z 0) as [->|Hnz]; [reflexivity|].
  destruct (finite_value_of_Z z ltac:(lia)) as [Hf Hv].
  unfold to_int64. rewrite Hf, Hv.
  pose proof (Z.log2_nonneg (Z.abs z)) as Hn.
  assert (Hl : Z.log2 (Z.abs z) < 53) by (apply Z.log2_lt_pow2; lia).
  assert (Ht : (if 0 <=? Z.log2 (Z.abs z) - 52
                then z * 2 ^ (52 - Z.log2 (Z.abs z)) * 2 ^ (Z.log2 (Z.abs z) - 52)
                else Z.quot (z * 2 ^ (52 - Z.log2 (Z.abs z)))
                            (2 ^ (- (Z.log2 (Z.abs z) - 52)))) = z).
  { destruct (0 <=? Z.log2 (Z.abs z) - 52) eqn:E.
    - replace (Z.log2 (Z.abs z)) with 52 by lia. simpl. lia.
    - replace (- (Z.log2 (Z.abs z) - 52)) with (52 - Z.log2 (Z.abs z)) by lia.
      apply Z.quot_mul. apply Z.pow_nonzero; lia. }
  rewrite Ht. unfold min_int64, max_int64.
  destruct ((- 2 ^ 63 <=? z) && (z <=? 2 ^ 63 - 1)) eqn:E; [reflexivity|].
  apply andb_false_iff in E. destruct E as [E|E]; lia.
Qed.

(** A quotient that is an integer below [2 ^ 53] is rounded to itself. *)
Lemma floor_log2_exact (k d : Z) :
  0 < k -> 0 < d -> floor_log2_Q (k * d) d = Z.log2 k.
Proof.
  intros Hk Hd. unfold floor_log2_Q.
  pose proof (Z.log2_mul_below k d Hk Hd) as Hb.
  pose proof (Z.log2_mul_above k d ltac:(lia) ltac:(lia)) as Ha.
  pose proof (Z.log2_nonneg k) as Hn.
  pose proof (Z.log2_spec k Hk) as [Hlo Hhi].
  set (e0 := Z.log2 (k * d) - Z.log2 d).
  assert (He0 : e0 = Z.log2 k \/ e0 = Z.succ (Z.log2 k)) by lia.
  destruct (0 <=? e0) eqn:E; [|lia].
  destruct He0 as [-> | ->].
  - assert (d * 2 ^ Z.log2 k <= d * k) by (apply Z.mul_le_mono_nonneg_l; lia).
    destruct (d * 2 ^ Z.log2 k <=? k * d) eqn:E2; [reflexivity|lia].
  - assert (d * k < d * 2 ^ Z.succ (Z.log2 k)) by (apply Z.mul_lt_mono_pos_l; lia).
    set (t := 2 ^ Z.succ (Z.log2 k)) in *.
    destruct (d * t <=? k * d) eqn:E2; lia.
Qed.

Lemma round_mag_exact (k d : Z) :
  0 < k < 2 ^ 53 -> 0 < d ->
  round_mag binary64 (k * d) d = round_mag binary64 k 1.
Proof.
  intros Hk Hd.
  destruct (round_mag_split k Hk) as (Hp & _ & _).
  rewrite (round_mag_small k Hk). unfold round_mag.
  destruct (k * d =? 0) eqn:E0; [nia|].
  rewrite floor_log2_exact by lia.
  pose proof (Z.log2_nonneg k) as Hn.
  assert (Hl : Z.log2 k < 53) by (apply Z.log2_lt_pow2; lia).
  change (emin binary64) with (-1022). change (mbits binary64) with 52.
  change (emax_field binary64) with 2047.
  rewrite Z.max_l by lia.
  destruct (0 <=? 52 - Z.log2 k) eqn:E1; [|lia].
  set (p := k * 2 ^ (52 - Z.log2 k)) in *.
  replace (k * d * 2 ^ (52 - Z.log2 k)) with (p * d) by (unfold p; ring).
  rewrite Z.div_mul, Z.mod_mul by lia.
  replace (d <? 2 * 0) with false by lia.
  replace (d =? 2 * 0) with false by lia.
  cbn [orb andb]. rewrite Z.min_l; lia.
Qed.

Lemma of_Q_exact (k d : Z) :
  Z.abs k < 2 ^ 53 -> 0 < d -> of_Q binary64 (k * d) d = of_Z binary64 k.
Proof.
  intros Hk Hd. unfold of_Z, of_Q.
  destruct (Z.eq_dec k 0) as [->|Hnz]; [reflexivity|].
  replace (k * d <? 0) with (k <? 0) by nia.
  rewrite Z.abs_mul, (Z.abs_eq d) by lia.
  rewrite round_mag_exact by lia. reflexivity.
Qed.

(** [d.delta / 1000] of a whole number of milliseconds. *)
Lemma div_of_Z_1000 (k : Z) :
  Z.abs (1000 * k) < 2 ^ 53 ->
  div binary64 (of_Z binary64 (1000 * k)) (of_Z binary64 1000) = of_Z binary64 k.
Proof.
  intros Hk. destruct (Z.eq_dec k 0) as [->|Hnz]; [reflexivity|].
  destruct (finite_value_of_Z (1000 * k) ltac:(lia)) as [Hf Hv].
  unfold div. rewrite !of_Z_not_nan, Hf, Hv.
  change (is_finite binary64 (of_Z binary64 1000)) with true.
  change (finite_value binary64 (of_Z binary64 1000)) with (1000 * 2 ^ 43, -43).
  cbn [orb andb].
  set (L := Z.log2 (Z.abs (1000 * k))).
  assert (HL : 9 <= L < 53).
  { unfold L. split.
    - apply Z.log2_le_pow2; lia.
    - apply Z.log2_lt_pow2; lia. }
  replace (1000 * 2 ^ 43 =? 0) with false by reflexivity.
  rewrite Z.max_r by lia. rewrite Z.max_l by lia.
  replace (Z.sgn (1000 * 2 ^ 43) * (1000 * k * 2 ^ (52 - L)) * 2 ^ (L - 52 - -43))
    with (k * (1000 * 2 ^ 43)).
  - replace (Z.abs (1000 * 2 ^ 43) * 2 ^ 0) with (1000 * 2 ^ 43) by reflexivity.
    apply of_Q_exact; lia.
  - replace (Z.sgn (1000 * 2 ^ 43)) with 1 by reflexivity.
    replace (2 ^ 43) with (2 ^ (52 - L) * 2 ^ (L - 52 - -43)).
    + ring.
    + rewrite <- Z.pow_add_r by lia. f_equal. lia.
Qed.

End FloatExact.

(** ** The calendar between 1678 and 2261 *)

Section CalendarFacts.

Import Calendar.

(** The first day of every month, and the first day of each of the 52
    weeks of every year, are found again by [ord2ymd]. *)
Definition month_ok (y m : Z) : bool :=
  let '(y', m', d') := ord2ymd (ymd2ord y m 1) in
  (y' =? y) && (m' =? m) && (d' =? 1).

Definition week_ok (y k : Z) : bool :=
  fst (fst (ord2ymd (ymd2ord y 1 1 + 7 * k))) =? y.

Definition year_ok (y : Z) : bool :=
  forallb (month_ok y) (StataMissingValue.range 1 13)
  && forallb (week_ok y) (StataMissingValue.range 0 52).

Lemma years_ok : forallb year_ok (StataMissingValue.range 1678 2262) = true.
Proof. vm_cast_no_check (eq_refl true). Qed.

Lemma first_of_month (y m : Z) :
  1678 <= y <= 2261 -> 1 <= m <= 12 -> ord2ymd (ymd2ord y m 1) = (y, m, 1).
Proof.
  intros Hy Hm.
  pose proof (forallb_range _ _ _ years_ok y ltac:(lia)) as H1.
  apply andb_prop in H1. destruct H1 as [H1 _].
  pose proof (forallb_range _ _ _ H1 m ltac:(lia)) as H2.
  unfold month_ok in H2. destruct (ord2ymd (ymd2ord y m 1)) as [[y' m'] d'].
  repeat (apply andb_prop in H2; destruct H2 as [H2 ?]).
  f_equal; [f_equal|]; lia.
Qed.

Lemma first_of_week (y k : Z) :
  1678 <= y <= 2261 -> 0 <= k < 52 ->
  fst (fst (ord2ymd (ymd2ord y 1 1 + 7 * k))) = y.
Proof.
  intros Hy Hk.
  pose proof (forallb_range _ _ _ years_ok y ltac:(lia)) as H1.
  apply andb_prop in H1. destruct H1 as [_ H1].
  pose proof (forallb_range _ _ _ H1 k ltac:(lia)) as H2.
  unfold week_ok in H2. lia.
Qed.

(** The first of January, as a day number. *)
Lemma new_year (y : Z) :
  ymd2ord y 1 1 = (y - 1) * 365 + (y - 1) / 4 - (y - 1) / 100 + (y - 1) / 400 + 1.
Proof.
  unfold ymd2ord, days_before_year. change (days_before_month y 1) with 0. lia.
Qed.

(** A date is at most 365 days after the first of January. *)
Lemma ymd2ord_bounds (y m d : Z) :
  valid_date y m d = true ->
  0 <= ymd2ord y m d - ymd2ord y 1 1 <= 365.
Proof.
  unfold valid_date. intros H.
  repeat (apply andb_prop in H; destruct H as [H ?]).
  unfold ymd2ord. change (days_before_month y 1) with 0.
  assert (Hm : m = 1 \/ m = 2 \/ m = 3 \/ m = 4 \/ m = 5 \/ m = 6 \/ m = 7 \/ m = 8
               \/ m = 9 \/ m = 10 \/ m = 11 \/ m = 12) by lia.
  unfold days_before_month.
  repeat (destruct Hm as [->|Hm]); try subst m;
    unfold days_in_month, DAYS_BEFORE_MONTH in *;
    match goal with
    | |- context [Z.to_nat ?k] =>
        let n := eval vm_compute in (Z.to_nat k) in change (Z.to_nat k) with n
    end;
    cbn in *; destruct (is_leap y); cbn in *; lia.
Qed.

End CalendarFacts.

(** ** Columns and masks *)

Section Masks.

Context {A B : Type}.

Lemma mask_set_same (p : A -> bool) (x : B) (f : A -> B) (v : list A) :
  mask_set (map p v) x (map f v) = map (fun c => if p c then x else f c) v.
Proof. induction v as [|c v IH]; cbn; [reflexivity|]. rewrite IH. reflexivity. Qed.

Lemma mask_set_self (p : A -> bool) (e : A) (v : list A) :
  mask_set (map p v) e v = map (fun c => if p c then e else c) v.
Proof. induction v as [|c v IH]; cbn; [reflexivity|]. rewrite IH. reflexivity. Qed.

Lemma no_mask (p : A -> bool) (x : B) (f : A -> B) (v : list A) :
  existsb id (map p v) = false ->
  map (fun c => if p c then x else f c) v = map f v.
Proof.
  induction v as [|c v IH]; cbn; [reflexivity|]. intros H.
  apply orb_false_elim in H. destruct H as [H1 H2]. unfold id in H1.
  rewrite H1, IH by exact H2. reflexivity.
Qed.

(** A cell under the mask is overwritten whatever stood there before. *)
Lemma mask_set_cells (p : A -> bool) (x : B) (f : A -> B) (e : A) (v : list A) :
  mask_set (map p v) x
    (map f (if existsb id (map p v) then mask_set (map p v) e v else v))
  = map (fun c => if p c then x else f c) v.
Proof.
  destruct (existsb id (map p v)); [|apply mask_set_same].
  rewrite mask_set_self, map_map.
  rewrite (mask_set_same p x (fun c => f (if p c then e else c))).
  apply map_ext. intros c. destruct (p c); reflexivity.
Qed.

End Masks.

(** ** The encoder, cell by cell *)

Section Encoder.

Import Calendar StataDates DateTag.

(** The number the encoder computes for a [datetime64[ns]] cell. *)
Definition enc_cell (g : DateTag.t) (ns : Z) : Z :=
  match g with
  | tc => Float.div Float.binary64
            (of_int (delta (parse_datetime64 true false false ns))) (of_int 1000)
  | td => of_int (delta (parse_datetime64 true false false ns) / US_PER_DAY)
  | tw => let r := parse_datetime64 false true true ns in
          of_int (52 * (p_year r - year stata_epoch) + p_days r / 7)
  | tm => let r := parse_datetime64 false true false ns in
          of_int (12 * (p_year r - year stata_epoch) + p_month r - 1)
  | tq => let r := parse_datetime64 false true false ns in
          of_int (4 * (p_year r - year stata_epoch) + (p_month r - 1) / 3)
  | th => let r := parse_datetime64 false true false ns in
          of_int (2 * (p_year r - year stata_epoch) + (if 6 <? p_month r then 1 else 0))
  | ty => of_int (p_year (parse_datetime64 false true false ns))
  end.

Ltac fmt_tests :=
  repeat match goal with
         | |- context [fmt_in ?a ?l] =>
             let b := eval vm_compute in (fmt_in a l) in change (fmt_in a l) with b
         end;
  cbv beta iota zeta.

Lemma encode_datetime64 (g : DateTag.t) (fmt : string) (v : list Z) :
  In fmt (spellings g) ->
  _datetime_to_stata_elapsed_vec (Datetime64 v) fmt
  = Ok (Float64 (map (fun ns => if NaT =? ns then missing_date else enc_cell g ns) v)).
Proof.
  intros Hfmt.
  assert (Hm : PyNum.unpack_d Struct.LittleEndian [0; 0; 0; 0; 0; 0; 224; 127]
               = Ok missing_date) by reflexivity.
  destruct g; cbn [spellings In] in Hfmt;
    destruct Hfmt as [<-|[<-|[]]];
    unfold _datetime_to_stata_elapsed_vec; fmt_tests; rewrite Hm;
    unfold isnull, set_epoch;
    (destruct (existsb id (map (Z.eqb NaT) v)) eqn:E;
     cbn [parse_dates_safe rbind]; rewrite map_map;
     [rewrite <- (mask_set_cells (Z.eqb NaT) missing_date _ (to_datetime64 stata_epoch) v), E
     |rewrite <- (mask_set_same (Z.eqb NaT) missing_date _ v)];
     cbv beta iota delta [enc_cell]; reflexivity).
Qed.

End Encoder.

(** ** The decoder, cell by cell *)

Section Decoder.

Import Calendar StataDates DateTag.

(** The int64 the decoder works on: a NaN cell is set to 1 first. *)
Definition dec_int (b : Z) : Z :=
  if Float.is_nan Float.binary64 b then 1 else Float.to_int64 Float.binary64 b.

(** The numbers for which the decoder stays on its vectorised branch. *)
Definition in_dec_range (g : DateTag.t) (z : Z) : bool :=
  match g with
  | tc => (MIN_MS_DELTA <=? z) && (z <=? MAX_MS_DELTA)
  | td => (MIN_DAY_DELTA <=? z) && (z <=? MAX_DAY_DELTA)
  | tw => (MIN_YEAR <? 1960 + z / 52) && (1960 + z / 52 <? MAX_YEAR - 1)
  | tm => (MIN_YEAR <? 1960 + z / 12) && (1960 + z / 12 <? MAX_YEAR)
  | tq => (MIN_YEAR <? 1960 + z / 4) && (1960 + z / 4 <? MAX_YEAR)
  | th => (MIN_YEAR <? 1960 + z / 2) && (1960 + z / 2 <? MAX_YEAR)
  | ty => (MIN_YEAR <? z) && (z <? MAX_YEAR)
  end.

(** The [datetime64[ns]] cell the vectorised branch computes. *)
Definition dec_cell (g : DateTag.t) (z : Z) : Z :=
  match g with
  | tc => wrap64 (to_datetime64 stata_epoch + wrap64 (z * 1000000))
  | td => wrap64 (to_datetime64 stata_epoch + wrap64 (z * NS_PER_DAY))
  | tw => wrap64 (dt64_of_ym (1960 + z / 52) 1 + wrap64 (z mod 52 * 7 * NS_PER_DAY))
  | tm => dt64_of_ym (1960 + z / 12) (z mod 12 + 1)
  | tq => dt64_of_ym (1960 + z / 4) (z mod 4 * 3 + 1)
  | th => dt64_of_ym (1960 + z / 2) (z mod 2 * 6 + 1)
  | ty => dt64_of_ym z 1
  end.

Lemma max_below (c x : Z) (v : list Z) :
  Forall (fun y => y < c) (x :: v) -> fold_left Z.max v x < c.
Proof.
  revert x. induction v as [|y v IH]; intros x H; cbn.
  - inversion H. assumption.
  - apply IH. inversion H as [|? ? Hx Hr]. inversion Hr as [|? ? Hy Hv].
    constructor; [lia|assumption].
Qed.

Lemma min_above (c x : Z) (v : list Z) :
  Forall (fun y => c < y) (x :: v) -> c < fold_left Z.min v x.
Proof.
  revert x. induction v as [|y v IH]; intros x H; cbn.
  - inversion H. assumption.
  - apply IH. inversion H as [|? ? Hx Hr]. inversion Hr as [|? ? Hy Hv].
    constructor; [lia|assumption].
Qed.

Lemma opt_ltb_max (c : Z) (v : list Z) :
  v <> [] -> Forall (fun y => y < c) v -> opt_ltb (series_max v) c = true.
Proof.
  destruct v as [|x v]; [contradiction|]. intros _ H. cbn.
  apply Z.ltb_lt, max_below, H.
Qed.

Lemma opt_gtb_min (c : Z) (v : list Z) :
  v <> [] -> Forall (fun y => c < y) v -> opt_gtb (series_min v) c = true.
Proof.
  destruct v as [|x v]; [contradiction|]. intros _ H. cbn.
  apply Z.ltb_lt, min_above, H.
Qed.

Lemma opt_gtb_max (c : Z) (v : list Z) :
  Forall (fun y => y < c + 1) v -> opt_gtb (series_max v) c = false.
Proof.
  destruct v as [|x v]; [reflexivity|]. intros H. cbn.
  apply Z.ltb_ge. pose proof (max_below _ _ _ H). lia.
Qed.

Lemma opt_ltb_min (c : Z) (v : list Z) :
  Forall (fun y => c - 1 < y) v -> opt_ltb (series_min v) c = false.
Proof.
  destruct v as [|x v]; [reflexivity|]. intros H. cbn.
  apply Z.ltb_ge. pose proof (min_above _ _ _ H). lia.
Qed.

Lemma Forall_map_bool {A} (P : Z -> Prop) (f : A -> Z) (q : A -> bool) (v : list A) :
  (forall a, q a = true -> P (f a)) ->
  Forall (fun a => q a = true) v -> Forall P (map f v).
Proof.
  intros H Hv. induction Hv as [|a v Ha Hv IH]; cbn; constructor; auto.
Qed.

Lemma decode_ints (w : list Z) :
  astype_int64
    (if existsb id (map (Float.is_nan Float.binary64) w)
     then set_bad_to_one (map (Float.is_nan Float.binary64) w) (Float64 w)
     else Float64 w)
  = map dec_int w.
Proof.
  destruct (existsb id (map (Float.is_nan Float.binary64) w)) eqn:E;
    cbn [set_bad_to_one astype_int64].
  - rewrite mask_set_self, map_map. apply map_ext. intros b. unfold dec_int.
    destruct (Float.is_nan Float.binary64 b); reflexivity.
  - symmetry. apply (no_mask (Float.is_nan Float.binary64) 1 _ w E).
Qed.

Lemma decode_finish (d : Z -> Z) (w : list Z) :
  (if existsb id (map (Float.is_nan Float.binary64) w)
   then set_NaT (map (Float.is_nan Float.binary64) w) (Datetime64 (map d (map dec_int w)))
   else Datetime64 (map d (map dec_int w)))
  = Datetime64 (map (fun b => if Float.is_nan Float.binary64 b then NaT
                              else d (Float.to_int64 Float.binary64 b)) w).
Proof.
  assert (H : map (fun b => if Float.is_nan Float.binary64 b then NaT else d (dec_int b)) w
              = map (fun b => if Float.is_nan Float.binary64 b then NaT
                              else d (Float.to_int64 Float.binary64 b)) w).
  { apply map_ext. intros b. unfold dec_int.
    destruct (Float.is_nan Float.binary64 b); reflexivity. }
  rewrite <- H, map_map.
  destruct (existsb id (map (Float.is_nan Float.binary64) w)) eqn:E; cbn [set_NaT].
  - rewrite (mask_set_same (Float.is_nan Float.binary64) NaT (fun b => d (dec_int b))).
    reflexivity.
  - rewrite (no_mask (Float.is_nan Float.binary64) NaT _ w E). reflexivity.
Qed.

Lemma decoder_constants :
  MIN_YEAR = 1677 /\ MAX_YEAR = 2262
  /\ MIN_DAY_DELTA = -103099 /\ MAX_DAY_DELTA = 110404
  /\ MIN_MS_DELTA = -8907753600000 /\ MAX_MS_DELTA = 9538905600000.
Proof. vm_compute. repeat split; reflexivity. Qed.

Lemma finish_eq (b : bool) (m : list bool) (X Y : list Z) :
  X = Y ->
  Ok (if b then set_NaT m (Datetime64 X) else Datetime64 X)
  = Ok (if b then set_NaT m (Datetime64 Y) else Datetime64 Y).
Proof. intros ->. reflexivity. Qed.

Lemma combine_map {A B C} (f : A -> B) (h : A -> C) (l : list A) :
  combine (map f l) (map h l) = map (fun x => (f x, h x)) l.
Proof. induction l as [|a l IH]; cbn; [reflexivity|]. rewrite IH. reflexivity. Qed.

Lemma combine_map_r {A C} (h : A -> C) (l : list A) :
  combine l (map h l) = map (fun x => (x, h x)) l.
Proof. induction l as [|a l IH]; cbn; [reflexivity|]. rewrite IH. reflexivity. Qed.

Lemma map_nonempty {A B} (f : A -> B) (l : list A) : l <> [] -> map f l <> [].
Proof. destruct l; [contradiction|discriminate]. Qed.

Ltac fmt_tests :=
  repeat match goal with
         | |- context [fmt_in ?a ?l] =>
             let b := eval vm_compute in (fmt_in a l) in change (fmt_in a l) with b
         end;
  cbv beta iota zeta.

Ltac cell_bounds H :=
  rewrite !List.Forall_map;
  eapply List.Forall_impl; [|exact H];
  let b := fresh "b" in let Hb := fresh "Hb" in
  intros b Hb; cbv beta in Hb |- *; unfold in_dec_range in Hb;
  destruct decoder_constants as (E1 & E2 & E3 & E4 & E5 & E6);
  rewrite ?E1, ?E2, ?E3, ?E4, ?E5, ?E6 in *;
  change (year stata_epoch) with 1960; lia.

Lemma decode_float64 (g : DateTag.t) (fmt : string) (w : list Z) :
  In fmt (spellings g) -> w <> [] ->
  Forall (fun b => in_dec_range g (dec_int b) = true) w ->
  _stata_elapsed_date_to_datetime_vec (Float64 w) fmt
  = Ok (Datetime64 (map (fun b => if Float.is_nan Float.binary64 b then NaT
                                  else dec_cell g (Float.to_int64 Float.binary64 b)) w)).
Proof.
  intros Hfmt Hne H.
  pose proof (map_nonempty dec_int w Hne) as Hne'.
  rewrite <- (decode_finish (dec_cell g) w).
  destruct g; cbn [spellings In] in Hfmt; destruct Hfmt as [<-|[<-|[]]];
    unfold _stata_elapsed_date_to_datetime_vec; cbn [isnan_series rbind];
    fmt_tests; rewrite !decode_ints.
  1-2: unfold convert_delta_safe;
       rewrite opt_gtb_max, opt_ltb_min by (apply List.Forall_map;
         eapply List.Forall_impl; [|exact H]; intros b Hb; cbv beta in Hb |- *;
         unfold in_dec_range in Hb; lia);
       cbn [orb rbind]; apply finish_eq; reflexivity.
  1-2: unfold convert_delta_safe;
       rewrite opt_gtb_max, opt_ltb_min by (apply List.Forall_map;
         eapply List.Forall_impl; [|exact H]; intros b Hb; cbv beta in Hb |- *;
         unfold in_dec_range in Hb; lia);
       cbn [orb rbind]; apply finish_eq; reflexivity.
  1-2: unfold convert_year_days_safe;
       rewrite opt_ltb_max, opt_gtb_min
         by first [exact Hne' | apply map_nonempty; exact Hne' | cell_bounds H];
       cbn [andb rbind]; apply finish_eq;
       rewrite combine_map, map_map; reflexivity.
  all: unfold convert_year_month_safe;
       rewrite opt_ltb_max, opt_gtb_min
         by first [exact Hne' | apply map_nonempty; exact Hne' | cell_bounds H];
       cbn [andb rbind]; apply finish_eq;
       rewrite ?combine_map, ?combine_map_r, ?map_map; reflexivity.
Qed.

End Decoder.

(** ** A date on the grid of its tag *)

Section GridCells.

Import Calendar StataDates DateTag.

Lemma wrap64_small (z : Z) : - 2 ^ 63 <= z < 2 ^ 63 -> wrap64 z = z.
Proof. intros H. unfold wrap64. rewrite Z.mod_small by lia. lia. Qed.

(** What the range of a tag gives on the fields of a date. *)
Lemma range_facts (g : DateTag.t) (x : datetime) :
  in_range g x = true ->
  valid_date (year x) (month x) (day x) = true
  /\ 1 <= month x <= 12
  /\ 0 <= time_us x < 86400000000
  /\ 0 <= microsecond x < 1000000
  /\ 1678 <= year x <= last_year g
  /\ 0 <= toordinal x - ymd2ord (year x) 1 1 <= 365.
Proof.
  unfold in_range, valid_datetime, first_year. intros H.
  assert (Hv : valid_date (year x) (month x) (day x) = true).
  { destruct (valid_date (year x) (month x) (day x)); [reflexivity|discriminate]. }
  pose proof (ymd2ord_bounds _ _ _ Hv) as Hb.
  repeat (apply andb_prop in H; destruct H as [H ?]).
  split; [exact Hv|].
  unfold time_us, toordinal. repeat split; try lia.
Qed.

Lemma last_year_le (g : DateTag.t) : last_year g <= 2261.
Proof. destruct g; cbn; lia. Qed.

(** The day number of a timestamp. *)
Lemma dt64_ordinal_of (x : datetime) :
  0 <= time_us x < 86400000000 -> dt64_ordinal (to_datetime64 x) = toordinal x.
Proof.
  intros Ht. unfold dt64_ordinal, to_datetime64.
  change NS_PER_DAY with 86400000000000.
  set (o := toordinal x - unix_epoch_ordinal).
  replace ((o * 86400000000000 + time_us x * 1000) / 86400000000000) with o; [unfold o; lia|].
  apply Z.div_unique with (r := time_us x * 1000); lia.
Qed.

End GridCells.

(** ** Round trips of the date codec *)

Section GridRoundTrip.

Import Calendar StataDates DateTag.

Definition cell_ok (g : DateTag.t) (x : datetime) : Prop :=
  let ns := to_datetime64 x in
  (NaT =? ns) = false
  /\ enc_cell g ns = of_int (sif g x)
  /\ Z.abs (sif g x) < 2 ^ 53
  /\ in_dec_range g (sif g x) = true
  /\ dec_cell g (sif g x) = ns.

Ltac cell_setup x Hr :=
  let Hv := fresh "Hv" in let Hm := fresh "Hm" in let Ht := fresh "Ht" in
  let Hus := fresh "Hus" in let Hy := fresh "Hy" in let Hyd := fresh "Hyd" in
  let Hny := fresh "Hny" in let Ho := fresh "Ho" in
  destruct (range_facts _ _ Hr) as (Hv & Hm & Ht & Hus & Hy & Hyd);
  pose proof (new_year (year x)) as Hny;
  pose proof (dt64_ordinal_of x Ht) as Ho;
  cbn [last_year] in Hy;
  destruct decoder_constants as (E1 & E2 & E3 & E4 & E5 & E6).

Ltac zdiv := Z.to_euclidean_division_equations; lia.

Lemma epoch_ns : to_datetime64 stata_epoch = -315619200000000000.
Proof. reflexivity. Qed.

Lemma cell_td (x : datetime) :
  in_range td x = true -> on_grid td x = true -> cell_ok td x.
Proof.
  intros Hr Hg. cell_setup x Hr.
  cbn [on_grid] in Hg. unfold midnight in Hg. apply Z.eqb_eq in Hg.
  unfold cell_ok, enc_cell, in_dec_range, dec_cell, sif, parse_datetime64.
  cbn [delta orb]. rewrite E3, E4, epoch_ns.
  change (toordinal stata_epoch) with 715510.
  unfold to_datetime64, NaT. rewrite Hg.
  change unix_epoch_ordinal with 719163.
  change NS_PER_DAY with 86400000000000. change US_PER_DAY with 86400000000.
  set (o := toordinal x) in *. set (ny := ymd2ord (year x) 1 1) in *.
  unfold wrap64. clearbody o ny.
  assert (T : 612513 <= ny <= 821796) by zdiv. clear Hny.
  repeat split; try lia; try zdiv.
  f_equal. zdiv.
Qed.

Lemma cell_tc (x : datetime) :
  in_range tc x = true -> on_grid tc x = true -> cell_ok tc x.
Proof.
  intros Hr Hg. cell_setup x Hr.
  cbn [on_grid] in Hg. apply Z.eqb_eq in Hg.
  assert (Hg' : time_us x mod 1000 = 0).
  { unfold time_us. clear - Hg. zdiv. }
  unfold cell_ok, enc_cell, in_dec_range, dec_cell, sif, parse_datetime64.
  cbn [delta orb]. rewrite E5, E6, epoch_ns.
  change (toordinal stata_epoch) with 715510.
  unfold to_datetime64, NaT.
  change unix_epoch_ordinal with 719163.
  change NS_PER_DAY with 86400000000000.
  set (o := toordinal x) in *. set (ny := ymd2ord (year x) 1 1) in *.
  set (t := time_us x) in *.
  clearbody o ny t.
  assert (T : 612513 <= ny <= 819239) by zdiv. clear Hny.
  set (ms := (o - 715510) * 86400000 + t / 1000).
  assert (Hms : Z.abs (1000 * ms) < 2 ^ 53) by (unfold ms; zdiv).
  assert (Hd : wrap64 ((o - 719163) * 86400000000000 + t * 1000 - -315619200000000000)
               / 1000 = 1000 * ms) by (unfold wrap64, ms; zdiv).
  rewrite Hd. unfold of_int. rewrite div_of_Z_1000 by exact Hms.
  unfold wrap64. unfold ms in *.
  repeat split; try lia; try zdiv.
Qed.

(** The first of a month at midnight: the timestamp and its fields. *)
Lemma first_of_month_cell (x : datetime) :
  1678 <= year x <= 2261 -> 1 <= month x <= 12 ->
  0 <= time_us x < 86400000000 ->
  midnight x = true -> day x = 1 ->
  to_datetime64 x = dt64_of_ym (year x) (month x)
  /\ dt64_year (to_datetime64 x) = year x
  /\ dt64_month (to_datetime64 x) = month x
  /\ (NaT =? to_datetime64 x) = false.
Proof.
  intros Hy Hm Ht Hmid Hday. unfold midnight in Hmid. apply Z.eqb_eq in Hmid.
  pose proof (dt64_ordinal_of x Ht) as Ho.
  pose proof (first_of_month (year x) (month x) Hy Hm) as Hf.
  unfold dt64_year, dt64_month. rewrite Ho. unfold toordinal. rewrite Hday, Hf.
  cbn [fst snd]. repeat split.
  - unfold to_datetime64, dt64_of_ym, toordinal. rewrite Hday, Hmid. lia.
  - pose proof (new_year (year x)) as Hny.
    assert (Hb : 0 <= ymd2ord (year x) (month x) 1 - ymd2ord (year x) 1 1 <= 365).
    { apply ymd2ord_bounds. unfold valid_date.
      assert (1 <= days_in_month (year x) (month x)).
      { unfold days_in_month. destruct (month x =? 2); [destruct (is_leap (year x)); lia|].
        destruct ((month x =? 4) || (month x =? 6) || (month x =? 9) || (month x =? 11)); lia. }
      repeat (apply andb_true_intro; split); lia. }
    unfold to_datetime64, toordinal, NaT. rewrite Hday, Hmid.
    change unix_epoch_ordinal with 719163. change NS_PER_DAY with 86400000000000.
    set (o := ymd2ord (year x) (month x) 1) in *.
    set (ny := ymd2ord (year x) 1 1) in *. clearbody o ny.
    apply Z.eqb_neq. zdiv.
Qed.

Ltac month_setup x Hr Hg :=
  cell_setup x Hr;
  cbn [on_grid] in Hg;
  repeat (apply andb_prop in Hg; destruct Hg as [Hg ?]);
  match goal with H : (day x =? 1) = true |- _ => apply Z.eqb_eq in H end;
  destruct (first_of_month_cell x) as (Hns & Hyr & Hmo & Hnat);
  [lia|lia|lia|assumption|assumption|];
  unfold cell_ok, enc_cell, in_dec_range, dec_cell, sif, parse_datetime64;
  cbn [p_year p_month orb]; rewrite Hyr, ?Hmo, Hns; rewrite Hns in Hnat;
  change (year stata_epoch) with 1960;
  match goal with
  | E1 : MIN_YEAR = _, E2 : MAX_YEAR = _ |- _ => rewrite E1, E2
  end.

Lemma cell_tm (x : datetime) :
  in_range tm x = true -> on_grid tm x = true -> cell_ok tm x.
Proof.
  intros Hr Hg. month_setup x Hr Hg.
  split; [exact Hnat|]. split; [reflexivity|]. split; [lia|]. split; [zdiv|].
  f_equal; zdiv.
Qed.

Lemma cell_tq (x : datetime) :
  in_range tq x = true -> on_grid tq x = true -> cell_ok tq x.
Proof.
  intros Hr Hg. month_setup x Hr Hg.
  match goal with H : (_ mod 3 =? 0) = true |- _ => apply Z.eqb_eq in H end.
  split; [exact Hnat|]. split; [reflexivity|]. split; [zdiv|]. split; [zdiv|].
  f_equal; zdiv.
Qed.

Lemma cell_th (x : datetime) :
  in_range th x = true -> on_grid th x = true -> cell_ok th x.
Proof.
  intros Hr Hg. month_setup x Hr Hg.
  match goal with H : (_ mod 6 =? 0) = true |- _ => apply Z.eqb_eq in H end.
  split; [exact Hnat|]. split; [reflexivity|].
  destruct (6 <? month x) eqn:E.
  - split; [lia|]. split; [zdiv|]. f_equal; zdiv.
  - split; [lia|]. split; [zdiv|]. f_equal; zdiv.
Qed.

Lemma cell_ty (x : datetime) :
  in_range ty x = true -> on_grid ty x = true -> cell_ok ty x.
Proof.
  intros Hr Hg. month_setup x Hr Hg.
  match goal with H : (month x =? 1) = true |- _ => apply Z.eqb_eq in H end.
  split; [exact Hnat|]. split; [reflexivity|]. split; [lia|]. split; [lia|].
  f_equal; lia.
Qed.

Lemma cell_tw (x : datetime) :
  in_range tw x = true -> on_grid tw x = true -> cell_ok tw x.
Proof.
  intros Hr Hg. cell_setup x Hr.
  cbn [on_grid] in Hg.
  repeat (apply andb_prop in Hg; destruct Hg as [Hg ?]).
  unfold midnight in Hg. apply Z.eqb_eq in Hg.
  match goal with H : (_ mod 7 =? 0) = true |- _ => apply Z.eqb_eq in H; rename H into H7 end.
  match goal with H : (_ <? 364) = true |- _ => apply Z.ltb_lt in H; rename H into H364 end.
  unfold yday in *.
  assert (Hyr : dt64_year (to_datetime64 x) = year x).
  { unfold dt64_year. rewrite Ho.
    replace (toordinal x)
      with (ymd2ord (year x) 1 1 + 7 * ((toordinal x - ymd2ord (year x) 1 1) / 7))
      by zdiv.
    apply first_of_week; [lia|zdiv]. }
  unfold cell_ok, enc_cell, in_dec_range, dec_cell, sif, parse_datetime64, yday.
  cbn [p_year p_days orb]. rewrite Hyr. rewrite E1, E2.
  change (year stata_epoch) with 1960.
  assert (Hq : 1960 + (52 * (year x - 1960) + (toordinal x - ymd2ord (year x) 1 1) / 7) / 52
               = year x) by zdiv.
  rewrite Hq.
  unfold to_datetime64, dt64_of_ym, NaT. rewrite Hg.
  change unix_epoch_ordinal with 719163. change NS_PER_DAY with 86400000000000.
  set (o := toordinal x) in *. set (ny := ymd2ord (year x) 1 1) in *.
  set (y := year x) in *. clearbody o ny y.
  assert (T : 612513 <= ny <= 825083) by zdiv. clear Hny.
  unfold wrap64.
  split; [apply Z.eqb_neq; lia|]. split; [f_equal; zdiv|].
  split; [zdiv|]. split; [lia|]. zdiv.
Qed.

(** Every date on the grid of its tag, in the range of the tag. *)
Lemma cell_on_grid (g : DateTag.t) (x : datetime) :
  in_range g x = true -> on_grid g x = true -> cell_ok g x.
Proof.
  destruct g; [apply cell_tc|apply cell_td|apply cell_tw|apply cell_tm
              |apply cell_tq|apply cell_th|apply cell_ty].
Qed.

(** The float64 of a small integer: no NaN, and the integer again. *)
Lemma dec_of_int (z : Z) :
  Z.abs z < 2 ^ 53 ->
  Float.is_nan Float.binary64 (of_int z) = false
  /\ Float.to_int64 Float.binary64 (of_int z) = z
  /\ dec_int (of_int z) = z.
Proof.
  intros Hz. unfold dec_int, of_int. rewrite of_Z_not_nan, to_int64_of_Z by exact Hz.
  repeat split.
Qed.

(** X1.  For every tag, under both of its spellings, a non-empty
    [datetime64[ns]] column of dates that lie in the range of the tag and
    on its grid is encoded and decoded back to itself. *)
Theorem date_round_trip (g : DateTag.t) (fmt : string) (l : list datetime) :
  In fmt (spellings g) -> l <> [] ->
  Forall (fun x => in_range g x = true /\ on_grid g x = true) l ->
  rbind (_datetime_to_stata_elapsed_vec (Datetime64 (map to_datetime64 l)) fmt)
        (fun sif => _stata_elapsed_date_to_datetime_vec sif fmt)
  = Ok (Datetime64 (map to_datetime64 l)).
Proof.
  intros Hfmt Hne Hl.
  assert (Hc : Forall (cell_ok g) l).
  { eapply List.Forall_impl; [|exact Hl]. intros x [H1 H2]. apply cell_on_grid; assumption. }
  rewrite (encode_datetime64 g fmt _ Hfmt). cbn [rbind]. rewrite map_map.
  assert (Hw : map (fun x => if NaT =? to_datetime64 x then missing_date
                             else enc_cell g (to_datetime64 x)) l
               = map (fun x => of_int (sif g x)) l).
  { apply map_ext_in. intros x Hx. rewrite List.Forall_forall in Hc.
    destruct (Hc x Hx) as (Ha & Hb & _). cbv zeta in Ha, Hb. rewrite Ha, Hb. reflexivity. }
  rewrite Hw.
  rewrite (decode_float64 g fmt _ Hfmt).
  - f_equal. f_equal. rewrite map_map. apply map_ext_in. intros x Hx.
    rewrite List.Forall_forall in Hc. destruct (Hc x Hx) as (_ & _ & Hb & _ & He).
    destruct (dec_of_int _ Hb) as (Hn & Hi & _). rewrite Hn, Hi. exact He.
  - apply map_nonempty, Hne.
  - rewrite List.Forall_map. eapply List.Forall_impl; [|exact Hc].
    intros x (_ & _ & Hb & Hd & _). destruct (dec_of_int _ Hb) as (_ & _ & Hi).
    rewrite Hi. exact Hd.
Qed.

Lemma date_round_trip_witness :
  In "%tq" (spellings tq)
  /\ [mk_date 1999 10 1; mk_date 1700 1 1] <> []
  /\ Forall (fun x => in_range tq x = true /\ on_grid tq x = true)
       [mk_date 1999 10 1; mk_date 1700 1 1]
  /\ rbind (_datetime_to_stata_elapsed_vec
              (Datetime64 (map to_datetime64 [mk_date 1999 10 1; mk_date 1700 1 1])) "%tq")
           (fun sif => _stata_elapsed_date_to_datetime_vec sif "%tq")
     = Ok (Datetime64 (map to_datetime64 [mk_date 1999 10 1; mk_date 1700 1 1])).
Proof.
  split; [left; reflexivity|]. split; [discriminate|].
  split; [repeat constructor|].
  apply (date_round_trip tq "%tq" [mk_date 1999 10 1; mk_date 1700 1 1]).
  - left. reflexivity.
  - discriminate.
  - repeat constructor.
Defined.

(** ** Null dates through the file *)

Definition read_cell (g : DateTag.t) (o : option datetime) : Z :=
  match o with Some x => of_int (sif g x) | None => Float.nan Float.binary64 end.

(** The missing-value pass of the reader leaves the float64 of a small
    integer alone and turns the encoder's pattern into NaN. *)
Lemma of_int_not_missing (z : Z) :
  Z.abs z < 2 ^ 53 ->
  Reader.cell_is_missing StataParser.Td
    (Struct.value Struct.LittleEndian StataParser.float64_min)
    (Struct.value Struct.LittleEndian StataParser.float64_max) (of_int z) = false.
Proof.
  intros Hz. unfold Reader.cell_is_missing, Float.ltb, of_int.
  rewrite of_Z_not_nan.
  pose proof (key_of_Z_ge z) as H1. pose proof (key_of_Z_le z) as H2.
  unfold T53 in *.
  set (k := Float.key Float.binary64 (Float.of_Z Float.binary64 z)) in *.
  assert (Hmin : Float.key Float.binary64
                   (Struct.value Struct.LittleEndian StataParser.float64_min)
                 = - 0x7fefffffffffffff) by reflexivity.
  assert (Hmax : Float.key Float.binary64
                   (Struct.value Struct.LittleEndian StataParser.float64_max)
                 = 0x7fdfffffffffffff) by reflexivity.
  rewrite Hmin, Hmax.
  replace (Float.is_nan Float.binary64
             (Struct.value Struct.LittleEndian StataParser.float64_min)) with false
    by reflexivity.
  replace (Float.is_nan Float.binary64
             (Struct.value Struct.LittleEndian StataParser.float64_max)) with false
    by reflexivity.
  cbn [negb andb].
  destruct (1076 * 2 ^ 52 <=? k) eqn:Ea; [lia|].
  destruct (k <=? - (1076 * 2 ^ 52)) eqn:Eb; [lia|].
  apply orb_false_intro; lia.
Qed.

Lemma missing_pass (g : DateTag.t) (l : list (option datetime)) :
  Forall (fun o => match o with Some x => Z.abs (sif g x) < 2 ^ 53 | None => True end) l ->
  Reader.replace_missing false StataParser.Td (Float64 (map (stored_cell g) l))
  = Ok (Float64 (map (read_cell g) l)).
Proof.
  intros Hl. unfold Reader.replace_missing.
  cbn [StataParser.VALID_RANGE Reader.numeric_cells].
  set (nmin := Struct.value Struct.LittleEndian StataParser.float64_min).
  set (nmax := Struct.value Struct.LittleEndian StataParser.float64_max).
  assert (Hm : map (Reader.to_nan StataParser.Td nmin nmax) (map (stored_cell g) l)
               = map (read_cell g) l).
  { rewrite map_map. apply map_ext_in. intros o Ho.
    rewrite List.Forall_forall in Hl. specialize (Hl o Ho).
    destruct o as [x|]; cbn [stored_cell read_cell Reader.to_nan].
    - unfold nmin, nmax. rewrite of_int_not_missing by exact Hl. reflexivity.
    - reflexivity. }
  destruct (existsb (Reader.cell_is_missing StataParser.Td nmin nmax)
              (map (stored_cell g) l)) eqn:E; cbn [negb].
  - rewrite Hm. reflexivity.
  - rewrite <- Hm. f_equal. f_equal. symmetry.
    rewrite <- (map_id (map (stored_cell g) l)) at 2.
    apply map_ext_in. intros b Hb. cbn [Reader.to_nan].
    destruct (Reader.cell_is_missing StataParser.Td nmin nmax b) eqn:Eb; [|reflexivity].
    assert (existsb (Reader.cell_is_missing StataParser.Td nmin nmax)
              (map (stored_cell g) l) = true); [|congruence].
    apply existsb_exists. exists b. split; assumption.
Qed.

(** X2.  A column of dates and nulls, written and read back: the encoder
    stores [0x7fe0000000000000] for a null, the missing-value pass of the
    reader (without [convert_missing]) makes it NaN, and the decoder
    gives [NaT]; the dates come back as in [date_round_trip].  For every
    tag but [ty], whose decoder leaves the vectorised branch when a null
    is present. *)
Theorem null_dates_round_trip (g : DateTag.t) (fmt : string) (l : list (option datetime)) :
  g <> ty -> In fmt (spellings g) -> l <> [] ->
  Forall (cell_in_range g) l ->
  _datetime_to_stata_elapsed_vec (Datetime64 (map date_cell l)) fmt
  = Ok (Float64 (map (stored_cell g) l))
  /\ rbind (_datetime_to_stata_elapsed_vec (Datetime64 (map date_cell l)) fmt)
       (fun sif => rbind (Reader.replace_missing false StataParser.Td sif)
       (fun sif => _stata_elapsed_date_to_datetime_vec sif fmt))
     = Ok (Datetime64 (map date_cell l)).
Proof.
  intros Hg Hfmt Hne Hl.
  assert (Hc : Forall (fun o => match o with Some x => cell_ok g x | None => True end) l).
  { eapply List.Forall_impl; [|exact Hl]. intros [x|]; [|trivial].
    intros [H1 H2]. apply cell_on_grid; assumption. }
  rewrite List.Forall_forall in Hc.
  assert (He : _datetime_to_stata_elapsed_vec (Datetime64 (map date_cell l)) fmt
               = Ok (Float64 (map (stored_cell g) l))).
  { rewrite (encode_datetime64 g fmt _ Hfmt). rewrite map_map. f_equal. f_equal.
    apply map_ext_in. intros o Ho. specialize (Hc o Ho).
    destruct o as [x|]; cbn [date_cell stored_cell]; [|reflexivity].
    destruct Hc as (Ha & Hb & _). cbv zeta in Ha, Hb. rewrite Ha, Hb. reflexivity. }
  split; [exact He|]. rewrite He. cbn [rbind].
  rewrite missing_pass.
  2:{ apply List.Forall_forall. intros o Ho. specialize (Hc o Ho).
      destruct o as [x|]; [|trivial]. destruct Hc as (_ & _ & Hb & _). exact Hb. }
  cbn [rbind]. rewrite (decode_float64 g fmt _ Hfmt).
  - f_equal. f_equal. rewrite map_map. apply map_ext_in. intros o Ho.
    specialize (Hc o Ho). destruct o as [x|]; cbn [read_cell date_cell]; [|reflexivity].
    destruct Hc as (_ & _ & Hb & _ & Hd).
    destruct (dec_of_int _ Hb) as (Hn & Hi & _). rewrite Hn, Hi. exact Hd.
  - apply map_nonempty, Hne.
  - rewrite List.Forall_map. apply List.Forall_forall. intros o Ho.
    specialize (Hc o Ho). destruct o as [x|]; cbn [read_cell].
    + destruct Hc as (_ & _ & Hb & Hd & _). destruct (dec_of_int _ Hb) as (_ & _ & Hi).
      rewrite Hi. exact Hd.
    + destruct g; try contradiction; vm_compute; reflexivity.
Qed.

Lemma null_dates_round_trip_witness :
  td <> ty /\ In "td" (spellings td)
  /\ [Some (mk_date 2001 2 3); None] <> []
  /\ Forall (cell_in_range td) [Some (mk_date 2001 2 3); None]
  /\ _datetime_to_stata_elapsed_vec
       (Datetime64 (map date_cell [Some (mk_date 2001 2 3); None])) "td"
     = Ok (Float64 [of_int 15009; missing_date])
  /\ rbind (_datetime_to_stata_elapsed_vec
              (Datetime64 (map date_cell [Some (mk_date 2001 2 3); None])) "td")
       (fun sif => rbind (Reader.replace_missing false StataParser.Td sif)
       (fun sif => _stata_elapsed_date_to_datetime_vec sif "td"))
     = Ok (Datetime64 (map date_cell [Some (mk_date 2001 2 3); None])).
Proof.
  assert (H1 : td <> ty) by discriminate.
  assert (H2 : In "td" (spellings td)) by (right; left; reflexivity).
  assert (H3 : [Some (mk_date 2001 2 3); None] <> []) by discriminate.
  assert (H4 : Forall (cell_in_range td) [Some (mk_date 2001 2 3); None]).
  { repeat constructor. }
  repeat (split; [assumption|]).
  exact (null_dates_round_trip td "td" [Some (mk_date 2001 2 3); None] H1 H2 H3 H4).
Defined.

(** ** Off the grid: the last day of a year under [tw] *)

Definition dec31_ok (y : Z) : bool :=
  fst (fst (ord2ymd (ymd2ord y 12 31))) =? y.

Lemma dec31_years : forallb dec31_ok (StataMissingValue.range 1678 2262) = true.
Proof. vm_cast_no_check (eq_refl true). Qed.

Lemma dec31_yday (y : Z) :
  364 <= ymd2ord y 12 31 - ymd2ord y 1 1 <= 365.
Proof.
  unfold ymd2ord, days_before_month, DAYS_BEFORE_MONTH.
  change (Z.to_nat 12) with 12%nat. change (Z.to_nat 1) with 1%nat.
  cbn [nth Z.ltb Z.compare Pos.compare Pos.compare_cont andb].
  destruct (is_leap y); lia.
Qed.

(** X3.  [tw] counts 52 weeks of seven days in a year, so the 31st of
    December is past the last week: it is stored as week 1 of the next
    year and read back as the 1st of January. *)
Theorem tw_last_day_of_year (y : Z) (fmt : string) :
  1678 <= y <= 2259 -> In fmt (spellings tw) ->
  rbind (_datetime_to_stata_elapsed_vec
           (Datetime64 [to_datetime64 (mk_date y 12 31)]) fmt)
        (fun sif => _stata_elapsed_date_to_datetime_vec sif fmt)
  = Ok (Datetime64 [to_datetime64 (mk_date (y + 1) 1 1)]).
Proof.
  intros Hy Hfmt.
  pose proof (forallb_range _ _ _ dec31_years y ltac:(lia)) as Hd.
  unfold dec31_ok in Hd. apply Z.eqb_eq in Hd.
  pose proof (dec31_yday y) as Hyd.
  pose proof (new_year y) as Hny. pose proof (new_year (y + 1)) as Hny1.
  assert (Ht : 0 <= time_us (mk_date y 12 31) < 86400000000) by (unfold time_us; cbn [hour minute second microsecond mk_date]; lia).
  pose proof (dt64_ordinal_of _ Ht) as Ho.
  set (ns := to_datetime64 (mk_date y 12 31)) in *.
  assert (Hyr : dt64_year ns = y).
  { unfold dt64_year. rewrite Ho. exact Hd. }
  assert (Hns : ns = (ymd2ord y 12 31 - 719163) * 86400000000000).
  { unfold ns, to_datetime64, toordinal, time_us.
    cbn [year month day hour minute second microsecond mk_date].
    change unix_epoch_ordinal with 719163. change NS_PER_DAY with 86400000000000. lia. }
  assert (Hnat : (NaT =? ns) = false).
  { apply Z.eqb_neq. rewrite Hns. unfold NaT.
    set (o := ymd2ord y 12 31) in *. set (ny := ymd2ord y 1 1) in *. clearbody o ny. zdiv. }
  assert (Henc : enc_cell tw ns = of_int (52 * (y + 1 - 1960))).
  { unfold enc_cell, parse_datetime64. cbn [p_year p_days orb]. rewrite Hyr.
    change (year stata_epoch) with 1960. f_equal. rewrite Hns. unfold dt64_of_ym, wrap64.
    change unix_epoch_ordinal with 719163. change NS_PER_DAY with 86400000000000.
    set (o := ymd2ord y 12 31) in *. set (ny := ymd2ord y 1 1) in *. clearbody o ny. zdiv. }
  rewrite (encode_datetime64 tw fmt _ Hfmt). cbn [rbind map]. rewrite Hnat, Henc.
  assert (Hb : Z.abs (52 * (y + 1 - 1960)) < 2 ^ 53) by lia.
  destruct (dec_of_int _ Hb) as (Hn & Hi & Hdi).
  destruct decoder_constants as (E1 & E2 & _).
  rewrite (decode_float64 tw fmt _ Hfmt).
  - cbn [map]. rewrite Hn, Hi. f_equal. f_equal. f_equal.
    unfold dec_cell, to_datetime64, dt64_of_ym, wrap64.
    unfold toordinal, time_us.
    cbn [year month day hour minute second microsecond mk_date].
    replace (1960 + 52 * (y + 1 - 1960) / 52) with (y + 1) by zdiv.
    replace (52 * (y + 1 - 1960) mod 52) with 0 by zdiv.
    change unix_epoch_ordinal with 719163. change NS_PER_DAY with 86400000000000.
    set (ny1 := ymd2ord (y + 1) 1 1) in *. clearbody ny1. zdiv.
  - discriminate.
  - repeat constructor. rewrite Hdi. unfold in_dec_range. rewrite E1, E2. zdiv.
Qed.

Lemma tw_last_day_of_year_witness :
  1678 <= 1999 <= 2259 /\ In "tw" (spellings tw)
  /\ rbind (_datetime_to_stata_elapsed_vec
              (Datetime64 [to_datetime64 (mk_date 1999 12 31)]) "tw")
           (fun sif => _stata_elapsed_date_to_datetime_vec sif "tw")
     = Ok (Datetime64 [to_datetime64 (mk_date (1999 + 1) 1 1)]).
Proof.
  split; [lia|]. split; [right; left; reflexivity|].
  apply (tw_last_day_of_year 1999 "tw"); [lia|right; left; reflexivity].
Defined.

End GridRoundTrip.

(** ** Text and bytes *)

Section TextFacts.

Import Writer.

Lemma encode_app (a b : string) :
  encode_bytewise (a +:+ b) = encode_bytewise a ++ encode_bytewise b.
Proof. induction a as [|c a IH]; simpl; [reflexivity|]. rewrite IH. reflexivity. Qed.

Lemma decode_encode (s : string) : Reader.decode_bytewise (encode_bytewise s) = s.
Proof.
  induction s as [|c s IH]; cbn; [reflexivity|].
  rewrite IH, N2Z.id, Ascii.ascii_N_embedding. reflexivity.
Qed.

Lemma encode_length (s : string) : length (encode_bytewise s) = String.length s.
Proof. induction s as [|c s IH]; cbn; [reflexivity|]. rewrite IH. reflexivity. Qed.

Lemma encode_nulls (n : Z) : encode_bytewise (nulls n) = repeat 0 (Z.to_nat n).
Proof.
  unfold nulls. induction (Z.to_nat n) as [|k IH]; cbn; [reflexivity|].
  rewrite IH. reflexivity.
Qed.

(** No null character in a text. *)
Definition no_null (s : string) : Prop := Forall (fun b => b <> 0) (encode_bytewise s).

Lemma until_null_app (bs rest : Struct.bytes) :
  Forall (fun b => b <> 0) bs ->
  Reader.until_null (bs ++ rest) = bs ++ Reader.until_null rest.
Proof.
  induction 1 as [|b bs Hb _ IH]; cbn; [reflexivity|].
  destruct (b =? 0) eqn:E; [lia|]. rewrite IH. reflexivity.
Qed.

Lemma until_null_zeros (k : nat) : Reader.until_null (repeat 0 k) = [].
Proof. destruct k; reflexivity. Qed.

Lemma encode_pad (name : string) (n : Z) :
  encode_bytewise (_pad_bytes name n)
  = encode_bytewise name ++ repeat 0 (Z.to_nat (n - len name)).
Proof. unfold _pad_bytes. rewrite encode_app, encode_nulls. reflexivity. Qed.

(** A padded field is cut back to the text by the reader. *)
Lemma until_null_pad (name : string) (n : Z) :
  no_null name ->
  Reader.until_null (encode_bytewise (_pad_bytes name n)) = encode_bytewise name.
Proof.
  intros H. rewrite encode_pad, until_null_app by exact H.
  rewrite until_null_zeros. apply app_nil_r.
Qed.

(** X4.  [_pad_bytes] fills a text with null bytes up to the width of
    its field and never cuts it; the reader's [_null_terminate] gives a
    text without null bytes back. *)
Theorem pad_bytes_null_terminate (name : string) (n : Z) (r : Reader.StataReader) :
  no_null name -> Reader._encoding r = Reader.latin_1 ->
  Z.of_nat (length (encode_bytewise (_pad_bytes name n))) = Z.max n (len name)
  /\ Reader._null_terminate (encode_bytewise (_pad_bytes name n)) r = (Ok name, r).
Proof.
  intros Hn He. split.
  - rewrite encode_pad, length_app, repeat_length, encode_length. unfold len. lia.
  - unfold Reader._null_terminate, Reader.bind, Reader.get, Reader.lift.
    rewrite He. unfold Reader.latin_1. rewrite until_null_pad by exact Hn.
    rewrite decode_encode. reflexivity.
Qed.

Lemma pad_bytes_null_terminate_witness :
  no_null "price" /\ Reader._encoding (ExampleLegacy.open (ExampleLegacy.file114 [1]))
                     = Reader.latin_1
  /\ Z.of_nat (length (encode_bytewise (_pad_bytes "price" 33))) = Z.max 33 (len "price")
  /\ Reader._null_terminate (encode_bytewise (_pad_bytes "price" 33))
       (ExampleLegacy.open (ExampleLegacy.file114 [1]))
     = (Ok "price", ExampleLegacy.open (ExampleLegacy.file114 [1])).
Proof.
  assert (H1 : no_null "price") by (repeat constructor; discriminate).
  assert (H2 : Reader._encoding (ExampleLegacy.open (ExampleLegacy.file114 [1]))
               = Reader.latin_1) by reflexivity.
  split; [exact H1|]. split; [exact H2|].
  exact (pad_bytes_null_terminate "price" 33 _ H1 H2).
Defined.

End TextFacts.

(** ** Type codes *)

Section TypeCodes.

Import Writer StataParser.

(** The width in bytes of a numeric dtype of the format. *)
Definition dtype_width (dt : dtype) : Z :=
  match dt with
  | bool_ | int8 | uint8 => 1
  | int16 | uint16 => 2
  | int32 | uint32 | float32 => 4
  | _ => 8
  end.

(** X5.  The code [_dtype_to_stata_type] gives a dtype is read back by
    the tables of the format-114 reader.  For the dtype of a column other
    than object the code lies in 251..255 and the tables give the same
    dtype and a [struct] code of the width of that dtype; for a
    fixed-width string dtype the code is its [itemsize], and for an
    [itemsize] from 1 to 244 the tables give the string type of that
    width. *)
Theorem type_code_round_trip (dt : numpy_dtype) (code : Z) :
  _dtype_to_stata_type dt = Ok code -> dt <> column object_ ->
  match dt with
  | string_ itemsize =>
      code = itemsize
      /\ (1 <= itemsize <= 244 ->
          Reader.legacy_typ code = Ok (Tstr itemsize)
          /\ Reader.legacy_dtyp code = Ok (DName ("a" +:+ pretty itemsize))
          /\ Reader._calcsize (Tstr itemsize) = Ok itemsize)
  | column dt =>
      251 <= code <= 255
      /\ Reader.legacy_dtyp code = Ok (DType dt)
      /\ exists t, Reader.legacy_typ code = Ok t
                   /\ Reader._calcsize t = Ok (dtype_width dt)
                   /\ NUMPY_TYPE_MAP t = Some (dtype_width dt)
  end.
Proof.
  intros H Hn. destruct dt as [n|dt].
  - cbn [_dtype_to_stata_type] in H.
    destruct ((0 <=? n) && (n <? 1114112)); [|discriminate]. injection H as <-.
    split; [reflexivity|]. intros Hr.
    unfold Reader.legacy_typ, Reader.legacy_dtyp, TYPE_MAP, DTYPE_MAP.
    replace ((0 <=? n) && (n <? 251)) with true
      by (symmetry; apply andb_true_intro; split; [apply Z.leb_le|apply Z.ltb_lt]; lia).
    replace ((1 <=? n) && (n <? 245)) with true
      by (symmetry; apply andb_true_intro; split; [apply Z.leb_le|apply Z.ltb_lt]; lia).
    split; [reflexivity|]. split; [reflexivity|].
    cbn [Reader._calcsize]. destruct (n =? 0) eqn:E; [apply Z.eqb_eq in E; lia|].
    reflexivity.
  - destruct dt; try discriminate; try (contradiction Hn; reflexivity);
      injection H as <-; (split; [lia|]); (split; [reflexivity|]);
      eexists; repeat split; reflexivity.
Qed.

Lemma type_code_round_trip_witness :
  _dtype_to_stata_type (string_ 5) = Ok 5 /\ string_ 5 <> column object_
  /\ 5 = 5
  /\ (1 <= 5 <= 244 ->
      Reader.legacy_typ 5 = Ok (Tstr 5)
      /\ Reader.legacy_dtyp 5 = Ok (DName ("a" +:+ pretty 5))
      /\ Reader._calcsize (Tstr 5) = Ok 5).
Proof.
  assert (H1 : _dtype_to_stata_type (string_ 5) = Ok 5) by reflexivity.
  assert (H2 : string_ 5 <> column object_) by discriminate.
  split; [exact H1|]. split; [exact H2|].
  exact (type_code_round_trip (string_ 5) 5 H1 H2).
Defined.

(** X6.  After [_cast_to_stata_types] every column of a frame of
    [bool], [uint8], [uint16], [uint32], [int8], [int16], [int32],
    [int64], [float32] and [float64] columns has a dtype for which
    [_dtype_to_stata_type] and [_dtype_to_default_stata_fmt] do not
    raise: the cast leaves no [int64], unsigned or boolean column
    behind. *)
Theorem cast_frame_is_writable (data : frame) :
  Forall (fun nc => numeric_dtype (Cast.series_dtype (snd nc)) = true) data ->
  map fst (fst (Cast._cast_to_stata_types data)) = map fst data
  /\ Forall (fun nc =>
               exists code fmt,
                 _dtype_to_stata_type (Cast.series_dtype (snd nc)) = Ok code
                 /\ 251 <= code <= 255
                 /\ _dtype_to_default_stata_fmt (Cast.series_dtype (snd nc)) (fst nc) (snd nc)
                    = Ok fmt)
       (fst (Cast._cast_to_stata_types data)).
Proof.
  intros H. rewrite cast_frame_fst. split.
  - rewrite map_map. reflexivity.
  - rewrite List.Forall_map. eapply List.Forall_impl; [|exact H].
    intros [name col] Hn. cbn [fst snd] in *.
    pose proof (cast_lands_on_stata_dtype col "" Hn) as Hs.
    destruct (Cast.series_dtype (fst (Cast.cast_column col ""))); try discriminate;
      eexists; eexists; (split; [reflexivity|]); (split; [lia|reflexivity]).
Qed.

Lemma cast_frame_is_writable_witness :
  Forall (fun nc => numeric_dtype (Cast.series_dtype (snd nc)) = true)
    [(LStr "x", IntSeries int64 [2 ^ 40]); (LStr "y", IntSeries uint8 [200])]
  /\ map fst (fst (Cast._cast_to_stata_types
                     [(LStr "x", IntSeries int64 [2 ^ 40]); (LStr "y", IntSeries uint8 [200])]))
     = map fst [(LStr "x", IntSeries int64 [2 ^ 40]); (LStr "y", IntSeries uint8 [200])]
  /\ Forall (fun nc =>
               exists code fmt,
                 _dtype_to_stata_type (Cast.series_dtype (snd nc)) = Ok code
                 /\ 251 <= code <= 255
                 /\ _dtype_to_default_stata_fmt (Cast.series_dtype (snd nc)) (fst nc) (snd nc)
                    = Ok fmt)
       (fst (Cast._cast_to_stata_types
               [(LStr "x", IntSeries int64 [2 ^ 40]); (LStr "y", IntSeries uint8 [200])])).
Proof.
  assert (H : Forall (fun nc => numeric_dtype (Cast.series_dtype (snd nc)) = true)
                [(LStr "x", IntSeries int64 [2 ^ 40]); (LStr "y", IntSeries uint8 [200])])
    by (repeat constructor).
  split; [exact H|].
  exact (cast_frame_is_writable _ H).
Defined.

End TypeCodes.

(** ** Date formats of the writer *)

Section WriterDates.

Import Calendar StataDates DateTag Writer.

Lemma accepted_format (fmt : string) :
  _convert_datetime_to_stata_type fmt = Ok float64 <->
  exists g, In fmt (spellings g).
Proof.
  unfold _convert_datetime_to_stata_type. split.
  - destruct (fmt_in fmt _) eqn:E; [|discriminate]. intros _.
    unfold fmt_in in E. apply existsb_exists in E. destruct E as (s & Hs & He).
    apply String.eqb_eq in He. subst s. cbn [In] in Hs.
    repeat (destruct Hs as [<-|Hs];
            [first [exists tc; cbn; tauto | exists td; cbn; tauto | exists tw; cbn; tauto
                   | exists tm; cbn; tauto | exists tq; cbn; tauto | exists th; cbn; tauto
                   | exists ty; cbn; tauto]|]).
    contradiction.
  - intros [g Hg]. destruct g; cbn [spellings In] in Hg;
      destruct Hg as [<-|[<-|[]]]; reflexivity.
Qed.

(** X7.  A format that [_convert_datetime_to_stata_type] accepts when the
    writer prepares a frame is one the encoder knows: on every
    [datetime64[ns]] column the encoder returns a [float64] column of the
    same length, with [0x7fe0000000000000] in the place of every null. *)
Theorem accepted_format_is_encoded (fmt : string) (v : list Z) :
  _convert_datetime_to_stata_type fmt = Ok float64 ->
  exists w,
    _datetime_to_stata_elapsed_vec (Datetime64 v) fmt = Ok (Float64 w)
    /\ length w = length v
    /\ forall i, v !! i = Some NaT -> w !! i = Some missing_date.
Proof.
  intros H. apply accepted_format in H. destruct H as [g Hg].
  rewrite (encode_datetime64 g fmt v Hg). eexists. split; [reflexivity|].
  split; [apply length_map|].
  intros i Hi.
  change (map ?f v) with (f <$> v). rewrite list_lookup_fmap, Hi. reflexivity.
Qed.

Lemma accepted_format_is_encoded_witness :
  _convert_datetime_to_stata_type "tm" = Ok float64
  /\ exists w,
       _datetime_to_stata_elapsed_vec (Datetime64 [0; NaT]) "tm" = Ok (Float64 w)
       /\ length w = length [0; NaT]
       /\ forall i, [0; NaT] !! i = Some NaT -> w !! i = Some missing_date.
Proof.
  split; [reflexivity|].
  apply (accepted_format_is_encoded "tm" [0; NaT]). reflexivity.
Defined.

End WriterDates.

(** ** NaN through the file *)

Section NaNThroughFile.

Import Writer StataParser.

Definition nmin_d : Z := Struct.value Struct.LittleEndian float64_min.
Definition nmax_d : Z := Struct.value Struct.LittleEndian float64_max.

(** A cell the writer accepts without change: NaN, or a number of the
    valid range of doubles. *)
Definition storable (x : Z) : Prop :=
  Float.is_nan Float.binary64 x = true
  \/ Reader.cell_is_missing Td nmin_d nmax_d x = false.

(** What the reader makes of a cell. *)
Definition read_nan (x : Z) : Z :=
  if Float.is_nan Float.binary64 x then Float.nan Float.binary64 else x.

Definition read_marker (x : Z) : obj :=
  if Float.is_nan Float.binary64 x
  then OMissing {| StataMissingValue.value := PyNum.PyFloat DateTag.missing_date;
                   StataMissingValue.string_ := "." |}
  else ONum (PyNum.PyFloat x).

Lemma dot_marker :
  StataMissingValue.__init__ (PyNum.PyFloat DateTag.missing_date)
  = Ok {| StataMissingValue.value := PyNum.PyFloat DateTag.missing_date;
          StataMissingValue.string_ := "." |}.
Proof.
  pose proof (sentinel_symbol Kfloat64 0 ltac:(lia)) as H.
  unfold symbol_for in H. unfold StataMissingValue.__init__.
  change (sentinel Kfloat64 0) with (PyNum.PyFloat DateTag.missing_date) in H.
  rewrite H. reflexivity.
Qed.

Lemma nan_is_storable_cell (x : Z) :
  storable x ->
  let y := if Float.is_nan Float.binary64 x then DateTag.missing_date else x in
  Float.is_nan Float.binary64 y = false
  /\ Reader.cell_is_missing Td nmin_d nmax_d y = Float.is_nan Float.binary64 x
  /\ Reader.to_nan Td nmin_d nmax_d y = read_nan x
  /\ Reader.to_marker Td nmin_d nmax_d y = Ok (read_marker x).
Proof.
  intros Hx y. unfold y, read_nan, read_marker, Reader.to_nan, Reader.to_marker.
  destruct (Float.is_nan Float.binary64 x) eqn:E.
  - replace (Reader.cell_is_missing Td nmin_d nmax_d DateTag.missing_date) with true
      by reflexivity.
    cbn [Reader.cell_number]. rewrite dot_marker. repeat split; reflexivity.
  - destruct Hx as [Hx|Hx]; [congruence|]. rewrite Hx, E. repeat split; reflexivity.
Qed.

(** X8.  A [float64] column of NaN and numbers of the valid range:
    [_replace_nans] puts the generic missing value in the place of every
    NaN, so no NaN reaches the file; the missing-value pass of the reader
    turns exactly those cells into NaN again or, with [convert_missing],
    into the marker ["."], and leaves the other cells as they were. *)
Theorem nan_round_trip (c : label) (v : list Z) :
  Forall storable v ->
  exists v',
    _replace_nans [(c, Float64 v)] = [(c, Float64 v')]
    /\ Forall (fun y => Float.is_nan Float.binary64 y = false) v'
    /\ Reader.replace_missing false Td (Float64 v') = Ok (Float64 (map read_nan v))
    /\ (existsb (Float.is_nan Float.binary64) v = true ->
        Reader.replace_missing true Td (Float64 v') = Ok (Object_ (map read_marker v))).
Proof.
  intros Hv.
  set (fill := fun x => if Float.is_nan Float.binary64 x then DateTag.missing_date else x).
  exists (map fill v). split; [reflexivity|].
  rewrite List.Forall_forall in Hv.
  assert (Hex : existsb (Reader.cell_is_missing Td nmin_d nmax_d) (map fill v)
                = existsb (Float.is_nan Float.binary64) v).
  { clear - Hv. induction v as [|x v IH]; [reflexivity|]. cbn [map existsb].
    destruct (nan_is_storable_cell x (Hv x (or_introl eq_refl))) as (_ & H2 & _).
    fold (fill x) in H2. rewrite H2, IH; [reflexivity|].
    intros y Hy. apply Hv. right. exact Hy. }
  split; [|split].
  - apply List.Forall_forall. intros y Hy. apply in_map_iff in Hy.
    destruct Hy as (x & <- & Hx).
    destruct (nan_is_storable_cell x (Hv x Hx)) as (H1 & _). exact H1.
  - unfold Reader.replace_missing. cbn [VALID_RANGE Reader.numeric_cells].
    fold nmin_d nmax_d. rewrite Hex.
    assert (Hm : map (Reader.to_nan Td nmin_d nmax_d) (map fill v) = map read_nan v).
    { rewrite map_map. apply map_ext_in. intros x Hx.
      destruct (nan_is_storable_cell x (Hv x Hx)) as (_ & _ & H3 & _). exact H3. }
    destruct (existsb (Float.is_nan Float.binary64) v) eqn:E; cbn [negb].
    + rewrite Hm. reflexivity.
    + f_equal. f_equal. apply map_ext_in. intros x Hx. unfold fill, read_nan.
      destruct (Float.is_nan Float.binary64 x) eqn:Ex; [|reflexivity].
      assert (existsb (Float.is_nan Float.binary64) v = true); [|congruence].
      apply existsb_exists. exists x. split; assumption.
  - intros E. unfold Reader.replace_missing. cbn [VALID_RANGE Reader.numeric_cells].
    fold nmin_d nmax_d. rewrite Hex, E. cbn [negb].
    assert (Hm : rmapM (Reader.to_marker Td nmin_d nmax_d) (map fill v)
                 = Ok (map read_marker v)).
    { clear - Hv. induction v as [|x v IH]; [reflexivity|]. cbn [map rmapM].
      destruct (nan_is_storable_cell x (Hv x (or_introl eq_refl))) as (_ & _ & _ & H4).
      fold (fill x) in H4. rewrite H4. cbn [rbind].
      rewrite IH; [reflexivity|]. intros y Hy. apply Hv. right. exact Hy. }
    rewrite Hm. reflexivity.
Qed.

Lemma nan_round_trip_witness :
  Forall storable [Float.nan Float.binary64; StataDates.of_int 1]
  /\ exists v',
       _replace_nans [(LStr "x", Float64 [Float.nan Float.binary64; StataDates.of_int 1])]
       = [(LStr "x", Float64 v')]
       /\ Forall (fun y => Float.is_nan Float.binary64 y = false) v'
       /\ Reader.replace_missing false Td (Float64 v')
          = Ok (Float64 (map read_nan [Float.nan Float.binary64; StataDates.of_int 1]))
       /\ (existsb (Float.is_nan Float.binary64)
             [Float.nan Float.binary64; StataDates.of_int 1] = true ->
           Reader.replace_missing true Td (Float64 v')
           = Ok (Object_ (map read_marker [Float.nan Float.binary64; StataDates.of_int 1]))).
Proof.
  assert (H : Forall storable [Float.nan Float.binary64; StataDates.of_int 1]).
  { constructor; [left; reflexivity|].
    constructor; [right; vm_compute; reflexivity|]. constructor. }
  split; [exact H|].
  exact (nan_round_trip (LStr "x") [Float.nan Float.binary64; StataDates.of_int 1] H).
Defined.

End NaNThroughFile.

(** ** The header through the file *)

Section StreamSteps.

Import Reader Struct.

(** A reader that has consumed [pre] and has [rest] before it. *)
Definition st (pre rest : bytes) (r0 : StataReader) : StataReader :=
  set_stream (pre ++ rest) (Z.of_nat (length pre)) r0.

Lemma read_st (n : Z) (pre chunk rest : bytes) (r0 : StataReader) :
  n = Z.of_nat (length chunk) ->
  read n (st pre (chunk ++ rest) r0) = (Ok chunk, st (pre ++ chunk) rest r0).
Proof.
  intros ->. unfold read, st. cbn [position path_or_buf set_stream].
  destruct (Z.of_nat (length chunk) <? 0) eqn:E; [apply Z.ltb_lt in E; lia|].
  rewrite !Nat2Z.id, List.skipn_app, List.skipn_all, Nat.sub_diag. cbn [skipn app].
  change (drop 0 (chunk ++ rest)) with (chunk ++ rest).
  rewrite List.firstn_app, List.firstn_all, Nat.sub_diag. cbn [firstn]. rewrite app_nil_r.
  f_equal. unfold set_stream. cbn. f_equal.
  - rewrite app_assoc. reflexivity.
  - rewrite length_app. lia.
Qed.

(** A field of text: [read(w)], then [_null_terminate]. *)
Lemma read_field (w : Z) (field : bytes) (text : string) pre rest r0 :
  _encoding r0 = latin_1 ->
  w = Z.of_nat (length field) ->
  decode_bytewise (until_null field) = text ->
  (let* b := read w in _null_terminate b) (st pre (field ++ rest) r0)
  = (Ok text, st (pre ++ field) rest r0).
Proof.
  intros He Hw Ht. rewrite (bind_ok _ _ _ _ _ (read_st w pre field rest r0 Hw)).
  unfold _null_terminate, bind, get, lift. cbn [_encoding st set_stream].
  rewrite He. unfold latin_1. rewrite Ht. reflexivity.
Qed.

Lemma null_terminate_st (bs : bytes) (text : string) pre rest r0 :
  _encoding r0 = latin_1 ->
  decode_bytewise (until_null bs) = text ->
  _null_terminate bs (st pre rest r0) = (Ok text, st pre rest r0).
Proof.
  intros He Ht. unfold _null_terminate, bind, get, lift. cbn [_encoding st set_stream].
  rewrite He. unfold latin_1. rewrite Ht. reflexivity.
Qed.

Lemma bind_get {A B} (f : StataReader -> A) (k : A -> M B) r :
  bind (get f) k r = k (f r) r.
Proof. reflexivity. Qed.

(** [for i in range(n)] over [n] fields that follow each other. *)
Lemma replicate_st {A B} (m : M B) (enc : A -> bytes) (g : A -> B) (l : list A)
      (n : nat) pre rest r0 :
  n = length l ->
  (forall x pre rest, In x l ->
     m (st pre (enc x ++ rest) r0) = (Ok (g x), st (pre ++ enc x) rest r0)) ->
  replicateM n m (st pre (concat (map enc l) ++ rest) r0)
  = (Ok (map g l), st (pre ++ concat (map enc l)) rest r0).
Proof.
  intros -> H. revert pre. induction l as [|x l IH]; intros pre.
  - cbn. rewrite app_nil_r. reflexivity.
  - cbn [length replicateM map concat]. rewrite <- app_assoc.
    rewrite (bind_ok _ _ _ _ _ (H x pre _ (or_introl eq_refl))).
    rewrite (bind_ok _ _ _ _ _ (IH (fun y p r Hy => H y p r (or_intror Hy)) _)).
    unfold ret. rewrite <- app_assoc. reflexivity.
Qed.

Lemma repeat_st {B} (m : M B) (chunk : bytes) (b : B) (n : nat) pre rest r0 :
  (forall pre rest,
     m (st pre (chunk ++ rest) r0) = (Ok b, st (pre ++ chunk) rest r0)) ->
  replicateM n m (st pre (concat (repeat chunk n) ++ rest) r0)
  = (Ok (repeat b n), st (pre ++ concat (repeat chunk n)) rest r0).
Proof.
  intros H. revert pre. induction n as [|n IH]; intros pre.
  - cbn. rewrite app_nil_r. reflexivity.
  - cbn [replicateM repeat concat]. rewrite <- app_assoc.
    rewrite (bind_ok _ _ _ _ _ (H pre _)).
    rewrite (bind_ok _ _ _ _ _ (IH _)).
    unfold ret. rewrite <- app_assoc. reflexivity.
Qed.

Lemma chunks2_zeros (bo : byteorder) (k : nat) :
  rmapM (unpack_h bo) (chunks2 (repeat 0 (2 * k))) = Ok (repeat 0 k).
Proof.
  induction k as [|k IH]; [reflexivity|].
  replace (2 * S k)%nat with (S (S (2 * k))) by lia.
  cbn [repeat chunks2 rmapM]. rewrite IH.
  destruct bo; reflexivity.
Qed.

Lemma removelast_repeat {A} (a : A) (k : nat) : removelast (repeat a (S k)) = repeat a k.
Proof.
  induction k as [|k IH]; [reflexivity|].
  change (repeat a (S (S k))) with (a :: repeat a (S k)).
  change (repeat a (S k)) with (a :: repeat a k) at 2.
  rewrite <- IH. reflexivity.
Qed.

(** The sort list as the writer leaves it: zeros. *)
Lemma read_srtlist_zeros (bo : byteorder) (nvar : Z) pre rest r0 :
  0 <= nvar ->
  read_srtlist bo nvar (st pre (repeat 0 (Z.to_nat (2 * (nvar + 1))) ++ rest) r0)
  = (Ok (repeat 0 (Z.to_nat nvar)),
     st (pre ++ repeat 0 (Z.to_nat (2 * (nvar + 1)))) rest r0).
Proof.
  intros Hn. unfold read_srtlist.
  assert (Hl : 2 * (nvar + 1) = Z.of_nat (length (repeat 0 (Z.to_nat (2 * (nvar + 1))))))
    by (rewrite List.repeat_length; lia).
  rewrite (bind_ok _ _ _ _ _ (read_st (2 * (nvar + 1)) pre _ rest r0 Hl)).
  rewrite List.repeat_length, Z2Nat.id, Z.eqb_refl by lia.
  replace (Z.to_nat (2 * (nvar + 1))) with (2 * S (Z.to_nat nvar))%nat by lia.
  unfold bind, lift, ret. rewrite chunks2_zeros, removelast_repeat. reflexivity.
Qed.

(** The expansion fields of the writer: five zeros, one empty field. *)
Lemma skip_expansion_zeros (fuel : nat) (bo : byteorder) pre rest r0 :
  skip_expansion_fields (S fuel) 114 bo (st pre ([0; 0; 0; 0; 0] ++ rest) r0)
  = (Ok tt, st (pre ++ [0; 0; 0; 0; 0]) rest r0).
Proof.
  cbn [skip_expansion_fields].
  rewrite (bind_ok _ _ _ _ _ (read_st 1 pre [0] ([0; 0; 0; 0] ++ rest) r0 eq_refl)).
  assert (H1 : unpack_signed bo 1 [0] = Ok 0) by (destruct bo; reflexivity).
  assert (H4 : unpack_i bo [0; 0; 0; 0] = Ok 0) by (destruct bo; reflexivity).
  unfold lift at 1. rewrite H1. unfold bind at 1. cbv beta iota.
  change (108 <? 114) with true. cbv beta iota.
  unfold bind at 1.
  rewrite (bind_ok _ _ _ _ _ (read_st 4 (pre ++ [0]) [0; 0; 0; 0] rest r0 eq_refl)).
  unfold lift. rewrite H4. cbn [Z.eqb]. unfold ret. rewrite <- app_assoc. reflexivity.
Qed.

End StreamSteps.

Section WrittenFields.

Import Struct StataParser Writer.

Lemma encode_prefix (n : nat) (s : string) :
  encode_bytewise (String.substring 0 n s) = firstn n (encode_bytewise s).
Proof.
  revert n. induction s as [|c s IH]; intros [|n]; cbn; try reflexivity.
  rewrite IH. reflexivity.
Qed.

Lemma no_null_firstn (n : nat) (bs : bytes) :
  Forall (fun b => b <> 0) bs -> Forall (fun b => b <> 0) (firstn n bs).
Proof.
  intros H. revert n. induction H as [|b bs Hb _ IH]; intros [|n]; cbn; constructor; auto.
Qed.

(** A text of 17 characters without a null. *)
Definition text_of_spec_holds (s : string) : Prop := String.length s = 17%nat /\ no_null s.

(** The field of a name: the text, cut to 32 characters, in 33 bytes. *)
Lemma name_field (name : string) :
  no_null name ->
  let field := encode_bytewise (_pad_bytes (prefix 32 (_null_terminate name)) 33) in
  length field = 33%nat
  /\ Reader.decode_bytewise (Reader.until_null field) = prefix 32 name.
Proof.
  intros Hn field. unfold field, prefix, _null_terminate.
  rewrite encode_pad, encode_prefix, encode_app. unfold len.
  rewrite <- (encode_length (String.substring _ _ _)), encode_prefix, encode_app.
  change (encode_bytewise (String Ascii.zero "")) with [0].
  change (Z.to_nat 32) with 32%nat.
  rewrite <- (decode_encode (String.substring 0 32 name)), encode_prefix.
  unfold no_null in Hn. set (bs := encode_bytewise name) in *. clearbody bs.
  destruct (Nat.le_gt_cases 32 (length bs)) as [Hl|Hl].
  - rewrite List.firstn_app. replace (32 - length bs)%nat with 0%nat by lia.
    cbn [firstn]. rewrite app_nil_r. split.
    + rewrite length_app, List.repeat_length, List.length_firstn. lia.
    + rewrite until_null_app by (apply no_null_firstn; exact Hn).
      replace (Z.to_nat (33 - Z.of_nat (length (firstn 32 bs)))) with 1%nat
        by (rewrite List.length_firstn; lia).
      cbn. rewrite app_nil_r. reflexivity.
  - rewrite List.firstn_all2 by (rewrite length_app; cbn; lia).
    rewrite List.firstn_all2 by lia. split.
    + rewrite !length_app, List.repeat_length. cbn [length]. lia.
    + rewrite <- app_assoc, until_null_app by exact Hn.
      cbn. rewrite app_nil_r. reflexivity.
Qed.

(** The field of the label of the data: cut to 80 characters, in 81
    bytes. *)
Lemma label_field (label : string) :
  no_null label ->
  let field := encode_bytewise (_null_terminate (_pad_bytes (prefix 80 label) 80)) in
  length field = 81%nat
  /\ Reader.decode_bytewise (Reader.until_null field) = prefix 80 label.
Proof.
  intros Hn field. unfold field, prefix, _null_terminate.
  rewrite encode_app, encode_pad, encode_prefix. unfold len.
  rewrite <- (encode_length (String.substring _ _ _)), encode_prefix.
  change (encode_bytewise (String Ascii.zero "")) with [0].
  change (Z.to_nat 80) with 80%nat.
  rewrite <- (decode_encode (String.substring 0 80 label)), encode_prefix.
  unfold no_null in Hn. set (bs := encode_bytewise label) in *. clearbody bs. split.
  - rewrite !length_app, List.repeat_length, List.length_firstn. cbn [length]. lia.
  - rewrite <- app_assoc, until_null_app by (apply no_null_firstn; exact Hn).
    destruct (Z.to_nat _); cbn; rewrite app_nil_r; reflexivity.
Qed.

(** A format in its field of 49 bytes. *)
Lemma fmt_field (fmt : string) :
  no_null fmt -> len fmt <= 49 ->
  let field := encode_bytewise (_pad_bytes fmt 49) in
  length field = 49%nat
  /\ Reader.decode_bytewise (Reader.until_null field) = fmt.
Proof.
  intros Hn Hl field. unfold field. split.
  - rewrite encode_pad, length_app, List.repeat_length, encode_length.
    unfold len in *. lia.
  - rewrite until_null_pad by exact Hn. apply decode_encode.
Qed.

(** The time stamp and its null byte. *)
Lemma stamp_field (text : string) :
  text_of_spec_holds text ->
  let field := encode_bytewise (_null_terminate text) in
  length field = 18%nat
  /\ Reader.decode_bytewise (Reader.until_null field) = text.
Proof.
  intros [Hl Hn] field. unfold field, _null_terminate. rewrite encode_app.
  change (encode_bytewise (String Ascii.zero "")) with [0]. split.
  - rewrite length_app, encode_length, Hl. reflexivity.
  - rewrite until_null_app by exact Hn. cbn. rewrite app_nil_r. apply decode_encode.
Qed.

Lemma empty_field (n : Z) :
  encode_bytewise (_pad_bytes "" n) = repeat 0 (Z.to_nat n).
Proof. rewrite encode_pad. cbn [encode_bytewise app]. unfold len. cbn. f_equal. lia. Qed.

Lemma enc_chr (c : Z) : 0 <= c < 256 -> encode_bytewise (chr c) = [c].
Proof.
  intros H. unfold chr. cbn [encode_bytewise].
  rewrite Ascii.N_ascii_embedding by lia. rewrite Z2N.id by lia. reflexivity.
Qed.

(** *** The time stamp *)

Definition text_of (k : nat) (s : string) : bool :=
  Nat.eqb (String.length s) k
  && forallb (fun b => negb (b =? 0)) (encode_bytewise s).

Lemma text_of_app (j k : nat) (a b : string) :
  text_of j a = true -> text_of k b = true -> text_of (j + k) (a +:+ b) = true.
Proof.
  unfold text_of. intros Ha Hb. apply andb_prop in Ha, Hb.
  destruct Ha as [Ha1 Ha2], Hb as [Hb1 Hb2]. apply Nat.eqb_eq in Ha1, Hb1.
  rewrite encode_app, forallb_app, Ha2, Hb2, andb_true_r. apply Nat.eqb_eq.
  rewrite <- encode_length, encode_app, length_app, !encode_length. lia.
Qed.

Lemma text_of_spec (k : nat) (s : string) :
  text_of k s = true -> String.length s = k /\ no_null s.
Proof.
  unfold text_of, no_null. intros H. apply andb_prop in H. destruct H as [H1 H2].
  apply Nat.eqb_eq in H1. split; [exact H1|].
  apply List.Forall_forall. intros b Hb. rewrite forallb_forall in H2.
  specialize (H2 b Hb). destruct (b =? 0) eqn:E; [discriminate|]. lia.
Qed.

Lemma two_digits_text (n : Z) : 0 <= n < 100 -> text_of 2 (two_digits n) = true.
Proof.
  apply (forallb_range (fun n => text_of 2 (two_digits n)) 0 100).
  vm_cast_no_check (eq_refl true).
Qed.

Lemma month_abbr_text (m : Z) : 1 <= m < 13 -> text_of 3 (month_abbr m) = true.
Proof.
  apply (forallb_range (fun m => text_of 3 (month_abbr m)) 1 13).
  vm_cast_no_check (eq_refl true).
Qed.

Lemma year_text (y : Z) : 1000 <= y < 10000 -> text_of 4 (pretty y) = true.
Proof.
  apply (forallb_range (fun y => text_of 4 (pretty y)) 1000 10000).
  vm_cast_no_check (eq_refl true).
Qed.

Lemma days_in_month_le (y m : Z) : Calendar.days_in_month y m <= 31.
Proof.
  unfold Calendar.days_in_month.
  repeat match goal with |- context [if ?c then _ else _] => destruct c end; lia.
Qed.

(** [strftime] of a valid date from 1900 on: 17 characters, none of them
    null. *)
Lemma strftime_text (x : Calendar.datetime) :
  Calendar.valid_datetime x = true -> 1900 <= Calendar.year x ->
  exists text, strftime x = Ok text /\ text_of 17 text = true.
Proof.
  intros Hv Hy. unfold strftime.
  destruct (Calendar.year x <? 1900) eqn:E; [apply Z.ltb_lt in E; lia|].
  eexists. split; [reflexivity|].
  unfold Calendar.valid_datetime, Calendar.valid_date in Hv.
  repeat (apply andb_prop in Hv; destruct Hv as [Hv ?]).
  repeat match goal with
         | H : (_ <=? _) = true |- _ => apply Z.leb_le in H
         | H : (_ <? _) = true |- _ => apply Z.ltb_lt in H
         end.
  pose proof (days_in_month_le (Calendar.year x) (Calendar.month x)).
  change 17%nat with (2 + (1 + (3 + (1 + (4 + (1 + (2 + (1 + 2))))))))%nat.
  repeat (apply text_of_app);
    first [ apply two_digits_text; lia | apply month_abbr_text; lia
          | apply year_text; lia | reflexivity ].
Qed.

(** *** Numbers *)

Lemma pack_h_unpack_H (bo : byteorder) (v : Z) :
  0 <= v < 32768 ->
  exists bs, pack_signed bo 2 v = Ok bs /\ length bs = 2%nat /\ unpack_H bo bs = Ok v.
Proof.
  intros H. unfold pack_signed. change (8 * Z.of_nat 2) with 16.
  replace ((- 2 ^ (16 - 1) <=? v) && (v <? 2 ^ (16 - 1))) with true
    by (symmetry; apply andb_true_intro; split; [apply Z.leb_le|apply Z.ltb_lt]; lia).
  rewrite Z.mod_small by lia. eexists. split; [reflexivity|].
  split; [destruct bo; reflexivity|].
  unfold unpack_H, unpack_unsigned.
  destruct bo; cbn; f_equal; Z.to_euclidean_division_equations; lia.
Qed.

Lemma pack_i_unpack_I (bo : byteorder) (v : Z) :
  0 <= v < 2 ^ 31 ->
  exists bs, pack_signed bo 4 v = Ok bs /\ length bs = 4%nat /\ unpack_I bo bs = Ok v.
Proof.
  intros H. unfold pack_signed. change (8 * Z.of_nat 4) with 32.
  replace ((- 2 ^ (32 - 1) <=? v) && (v <? 2 ^ (32 - 1))) with true
    by (symmetry; apply andb_true_intro; split; [apply Z.leb_le|apply Z.ltb_lt]; lia).
  rewrite Z.mod_small by lia. eexists. split; [reflexivity|].
  split; [destruct bo; reflexivity|].
  unfold unpack_I, unpack_unsigned.
  destruct bo; cbn; f_equal; Z.to_euclidean_division_equations; lia.
Qed.

(** *** Type codes *)

(** The codes the writer produces: a string width, or one of the five
    numeric types. *)
Definition writer_code (c : Z) : Prop := 1 <= c <= 244 \/ 251 <= c <= 255.

Lemma writer_codes_read (codes : list Z) :
  Forall writer_code codes ->
  exists tl dl sizes,
    rmapM Reader.legacy_typ codes = Ok tl
    /\ rmapM Reader.legacy_dtyp codes = Ok dl
    /\ rmapM Reader._calcsize tl = Ok sizes
    /\ map Some tl = map TYPE_MAP codes.
Proof.
  induction 1 as [|c codes Hc _ IH].
  - exists [], [], []. repeat split; reflexivity.
  - destruct IH as (tl & dl & sizes & H1 & H2 & H3 & H4).
    assert (Hc' : exists t d s, TYPE_MAP c = Some t /\ DTYPE_MAP c = Some d
                                /\ Reader._calcsize t = Ok s).
    { unfold TYPE_MAP, DTYPE_MAP. destruct Hc as [Hc|Hc].
      - replace ((0 <=? c) && (c <? 251)) with true
          by (symmetry; apply andb_true_intro; split; [apply Z.leb_le|apply Z.ltb_lt]; lia).
        replace ((1 <=? c) && (c <? 245)) with true
          by (symmetry; apply andb_true_intro; split; [apply Z.leb_le|apply Z.ltb_lt]; lia).
        do 3 eexists. split; [reflexivity|]. split; [reflexivity|].
        cbn [Reader._calcsize]. destruct (c =? 0) eqn:E; [apply Z.eqb_eq in E; lia|].
        reflexivity.
      - assert (E : c = 251 \/ c = 252 \/ c = 253 \/ c = 254 \/ c = 255) by lia.
        destruct E as [->|[->|[->|[->| ->]]]]; do 3 eexists; repeat split; reflexivity. }
    destruct Hc' as (t & d & s & Ht & Hd & Hs).
    exists (t :: tl), (d :: dl), (s :: sizes).
    cbn [rmapM map]. rewrite H1, H2, H3, H4, Hs.
    unfold Reader.legacy_typ at 1. unfold Reader.legacy_dtyp at 1.
    rewrite Ht, Hd. cbn [rbind]. repeat split; reflexivity.
Qed.

End WrittenFields.

Section HeaderRoundTrip.

Import Struct StataParser.

(** A writer as [_prepare_pandas] leaves it: one type code, one name
    and one format for each variable; names and formats are texts of the
    width of their fields at most. *)
Definition well_formed (self : Writer.StataWriter) : Prop :=
  0 <= Writer.nvar self < 32768
  /\ 0 <= Writer.nobs self < 2 ^ 31
  /\ Z.of_nat (length (Writer.typlist self)) = Writer.nvar self
  /\ Z.of_nat (length (Writer.varlist self)) = Writer.nvar self
  /\ Z.of_nat (length (Writer.fmtlist self)) = Writer.nvar self
  /\ Forall writer_code (Writer.typlist self)
  /\ Forall no_null (Writer.varlist self)
  /\ Forall (fun fmt => no_null fmt /\ Writer.len fmt <= 49) (Writer.fmtlist self).

Definition byteorder_byte (bo : byteorder) : Z :=
  if match bo with BigEndian => true | _ => false end then 1 else 2.

(** The bytes in front of the data, field by field. *)
Definition head_of (self : Writer.StataWriter) (nv no : bytes) (label text : string)
  : bytes :=
  [114] ++ [byteorder_byte (Writer._byteorder self)] ++ [1] ++ [0] ++ nv ++ no
  ++ Writer.encode_bytewise
       (Writer._null_terminate (Writer._pad_bytes (Writer.prefix 80 label) 80))
  ++ Writer.encode_bytewise (Writer._null_terminate text)
  ++ concat (map (fun typ => Writer.encode_bytewise (Writer.chr typ)) (Writer.typlist self))
  ++ concat (map (fun name =>
                    Writer.encode_bytewise
                      (Writer._pad_bytes (Writer.prefix 32 (Writer._null_terminate name)) 33))
                 (Writer.varlist self))
  ++ repeat 0 (Z.to_nat (2 * (Writer.nvar self + 1)))
  ++ concat (map (fun fmt => Writer.encode_bytewise (Writer._pad_bytes fmt 49))
                 (Writer.fmtlist self))
  ++ concat (repeat (repeat 0 33) (Z.to_nat (Writer.nvar self)))
  ++ concat (repeat (repeat 0 81) (Z.to_nat (Writer.nvar self)))
  ++ [0; 0; 0; 0; 0].

Lemma written_head (self : Writer.StataWriter) (label : option string)
      (stamp : Calendar.datetime) (nv no : bytes) (text : string) :
  pack_signed (Writer._byteorder self) 2 (Writer.nvar self) = Ok nv -> length nv = 2%nat ->
  pack_signed (Writer._byteorder self) 4 (Writer.nobs self) = Ok no -> length no = 4%nat ->
  Writer.strftime stamp = Ok text ->
  Writer.write_file_head self label stamp
  = Ok (head_of self nv no (default "" label) text).
Proof.
  intros Hnv Lnv Hno Lno Ht.
  unfold Writer.write_file_head, Writer._write_header.
  change (pack_signed native 1 114) with (Ok [114]).
  rewrite Hnv, Hno, Ht. cbn [rbind].
  rewrite <- Lnv at 1. rewrite <- Lno at 1. rewrite !List.firstn_all.
  unfold Writer._write_descriptors, Writer._write_variable_labels.
  rewrite !empty_field. unfold head_of, byteorder_byte.
  replace (match label with
           | Some data_label =>
               Writer._null_terminate (Writer._pad_bytes (Writer.prefix 80 data_label) 80)
           | None => Writer._null_terminate (Writer._pad_bytes "" 80)
           end)
    with (Writer._null_terminate
            (Writer._pad_bytes (Writer.prefix 80 (default "" label)) 80))
    by (destruct label; reflexivity).
  rewrite <- !app_assoc. destruct (Writer._byteorder self); reflexivity.
Qed.

Lemma head_length (self : Writer.StataWriter) (nv no : bytes) (label text : string) :
  well_formed self -> no_null label -> text_of 17 text = true ->
  length nv = 2%nat -> length no = 4%nat ->
  Z.of_nat (length (head_of self nv no label text)) = 116 + 199 * Writer.nvar self.
Proof.
  intros (Hv & _ & Ht & Hn & Hf & _ & Hnames & Hfmts) Hl Htext Lnv Lno.
  apply text_of_spec in Htext. destruct Htext as [Htext _].
  unfold head_of. rewrite !length_app.
  destruct (label_field label Hl) as [-> _].
  unfold Writer._null_terminate at 1. rewrite encode_app, length_app, encode_length, Htext.
  assert (C : forall {A} (f : A -> bytes) (w : nat) (l : list A),
             Forall (fun x => length (f x) = w) l ->
             length (concat (map f l)) = (w * length l)%nat).
  { intros A f w l H. induction H as [|x l Hx _ IH]; [cbn; lia|].
    cbn [map concat length]. rewrite length_app, Hx, IH. lia. }
  rewrite (C _ _ 1%nat), (C _ _ 33%nat), (C _ _ 49%nat).
  - assert (R : forall w k, length (concat (repeat (repeat 0 w) k)) = (w * k)%nat).
    { intros w k. induction k as [|k IH]; [cbn; lia|].
      cbn [repeat concat]. rewrite length_app, IH, List.repeat_length. lia. }
    rewrite !R, Lnv, Lno, List.repeat_length. cbn [length Writer.encode_bytewise]. lia.
  - eapply List.Forall_impl; [|exact Hfmts]. intros fmt [H1 H2].
    apply (fmt_field fmt H1 H2).
  - eapply List.Forall_impl; [|exact Hnames]. intros name H1. apply (name_field name H1).
  - apply List.Forall_forall. intros c _. unfold Writer.chr. reflexivity.
Qed.

Lemma bind_lift {A B} (x : result A) (a : A) (k : A -> Reader.M B) r :
  x = Ok a -> Reader.bind (Reader.lift x) k r = k a r.
Proof. intros ->. reflexivity. Qed.

Lemma byteorder_byte_read (bo : byteorder) :
  unpack_b [byteorder_byte bo] = Ok (byteorder_byte bo)
  /\ (if byteorder_byte bo =? 1 then BigEndian else LittleEndian) = bo.
Proof. destruct bo; split; reflexivity. Qed.

(** The header the reader builds from the bytes of the writer. *)
Definition header_of (self : Writer.StataWriter) (label text : string)
           (tl : list typ) (dl : list np_dtype) (sizes : list Z) (location : Z)
  : Reader.header :=
  {| Reader.format_version := 114; Reader.byteorder := Writer._byteorder self;
     Reader.filetype := 1; Reader.nvar := Writer.nvar self;
     Reader.nobs := Writer.nobs self;
     Reader.data_label := Writer.prefix 80 label; Reader.time_stamp := text;
     Reader.typlist := tl; Reader.dtyplist := dl;
     Reader.varlist := map (Writer.prefix 32) (Writer.varlist self);
     Reader.srtlist := repeat 0 (Z.to_nat (Writer.nvar self));
     Reader.fmtlist := Writer.fmtlist self;
     Reader.lbllist := repeat EmptyString (Z.to_nat (Writer.nvar self));
     Reader.vlblist := repeat EmptyString (Z.to_nat (Writer.nvar self));
     Reader.data_location := location;
     Reader.seek_strls := 0; Reader.seek_value_labels := 0;
     Reader.has_string_data := existsb Reader.is_int_typ tl;
     Reader.col_sizes := sizes |}.

Ltac rd_with tac := erewrite bind_ok; [|apply read_st; tac]; cbv beta.
Ltac lf_with tac := erewrite bind_lift; [|tac]; cbv beta.
Ltac rd := rd_with ltac:(reflexivity).
Ltac lf := lf_with ltac:(reflexivity).

Lemma read_written_header (self : Writer.StataWriter) (nv no : bytes)
      (label text : string) (tl : list typ) (dl : list np_dtype) (sizes : list Z)
      (data : bytes) (r0 : Reader.StataReader) :
  well_formed self -> no_null label -> text_of 17 text = true ->
  length nv = 2%nat -> unpack_H (Writer._byteorder self) nv = Ok (Writer.nvar self) ->
  length no = 4%nat -> unpack_I (Writer._byteorder self) no = Ok (Writer.nobs self) ->
  rmapM Reader.legacy_typ (Writer.typlist self) = Ok tl ->
  rmapM Reader.legacy_dtyp (Writer.typlist self) = Ok dl ->
  rmapM Reader._calcsize tl = Ok sizes ->
  Reader._encoding r0 = Reader.latin_1 ->
  let head := head_of self nv no label text in
  Reader._read_header (st [] (head ++ data) r0)
  = (Ok tt,
     Reader.set_hdr (header_of self label text tl dl sizes (Z.of_nat (length head)))
       (st head data r0)).
Proof.
  intros (Hv & Ho & Ht & Hn & Hf & Hcodes & Hnames & Hfmts) Hl Htext Lnv Unv Lno Uno
         Htl Hdl Hsz He head.
  destruct (byteorder_byte_read (Writer._byteorder self)) as [Ub Eb].
  assert (U114 : unpack_b [114] = Ok 114) by reflexivity.
  assert (U1 : unpack_b [1] = Ok 1) by reflexivity.
  assert (C114 : Reader.unpack_c [114] = Ok 114) by reflexivity.
  unfold head at 1. unfold head_of at 1. rewrite <- !app_assoc.
  unfold Reader._read_header.
  rd. lf_with ltac:(exact C114).
  change (114 =? 60) with false. cbv iota.
  unfold Reader._read_header_legacy.
  lf_with ltac:(exact U114).
  change (negb (existsb (Z.eqb 114) Reader.legacy_versions)) with false.
  change (105 <? 114) with true. change (104 <? 114) with true.
  change (108 <? 114) with true. change (113 <? 114) with true. cbv iota.
  rd. lf_with ltac:(exact Ub). rewrite Eb.
  rd. lf_with ltac:(exact U1).
  rd.
  rd_with ltac:(rewrite Lnv; reflexivity). lf_with ltac:(exact Unv).
  rd_with ltac:(rewrite Lno; reflexivity). lf_with ltac:(exact Uno).
  destruct (label_field label Hl) as [Ll Dl].
  destruct (stamp_field text (text_of_spec _ _ Htext)) as [Ls Ds].
  rd_with ltac:(rewrite Ll; reflexivity).
  erewrite bind_ok; [|apply null_terminate_st; [exact He|exact Dl]]. cbv beta.
  erewrite bind_ok; [|apply read_field; [exact He|rewrite Ls; reflexivity|exact Ds]].
  cbv beta.
  (* the type codes *)
  erewrite bind_ok;
    [|apply (replicate_st _ _ (fun c : Z => c)); [lia|]; intros c pre rest Hc;
      rewrite List.Forall_forall in Hcodes; specialize (Hcodes c Hc);
      rewrite enc_chr by (unfold writer_code in Hcodes; lia);
      rewrite (bind_ok _ _ _ _ _ (read_st 1 pre [c] rest r0 eq_refl)); reflexivity].
  cbv beta. rewrite map_id.
  lf_with ltac:(unfold Reader.convert_types_legacy; rewrite Htl; reflexivity).
  lf_with ltac:(unfold Reader.convert_dtypes_legacy; rewrite Hdl; reflexivity).
  (* names, sort list, formats, labels *)
  erewrite bind_ok;
    [|unfold Reader.read_strings;
      apply (replicate_st _ _ (Writer.prefix 32)); [lia|]; intros name pre rest Hname;
      rewrite List.Forall_forall in Hnames;
      destruct (name_field name (Hnames name Hname)) as [L D];
      apply read_field; [exact He|rewrite L; reflexivity|exact D]].
  cbv beta.
  erewrite bind_ok; [|apply read_srtlist_zeros; lia]. cbv beta.
  erewrite bind_ok;
    [|unfold Reader.read_strings;
      apply (replicate_st _ _ (fun fmt : string => fmt)); [lia|]; intros fmt pre rest Hfmt;
      rewrite List.Forall_forall in Hfmts;
      destruct (Hfmts fmt Hfmt) as [N W];
      destruct (fmt_field fmt N W) as [L D];
      apply read_field; [exact He|rewrite L; reflexivity|exact D]].
  cbv beta. rewrite map_id.
  erewrite bind_ok;
    [|unfold Reader.read_strings; apply (repeat_st _ _ EmptyString); intros pre rest;
      apply read_field; [exact He|reflexivity|reflexivity]].
  cbv beta.
  erewrite bind_ok;
    [|unfold Reader.read_strings; apply (repeat_st _ _ EmptyString); intros pre rest;
      apply read_field; [exact He|reflexivity|reflexivity]].
  cbv beta.
  erewrite bind_ok; [|rewrite bind_get; apply skip_expansion_zeros]. cbv beta.
  unfold Reader.tell. rewrite bind_get.
  unfold Reader.finish_header.
  lf_with ltac:(cbn [Reader.typlist]; exact Hsz).
  unfold Reader.modify.
  match goal with |- context [st ?p data r0] => set (PRE := p) end.
  assert (EP : PRE = head)
    by (unfold PRE, head, head_of; rewrite <- !app_assoc; reflexivity).
  clearbody PRE. subst PRE. reflexivity.
Qed.

(** A reader on no stream, before [__init__] has read anything. *)
Definition blank : Reader.StataReader :=
  {| Reader.path_or_buf := []; Reader.position := 0;
     Reader._encoding := Reader.latin_1; Reader.hdr := Reader.empty_header;
     Reader._missing_values := false; Reader._data_read := false;
     Reader._value_labels_read := false;
     Reader.value_label_dict := None; Reader.GSO := None |}.

(** X9.  What [write_file] writes in front of the data has
    [116 + 199 * nvar] bytes.  A [StataReader] with the encoding of the
    writer, latin-1, reads it back as a header of format 114 with the
    byte order, the counts of variables and observations, the time stamp,
    the type codes and the formats of the writer, the label cut to 80 and
    the names cut to 32 characters; the data start where the written head
    ends. *)
Theorem header_round_trip (self : Writer.StataWriter) (label : option string)
        (stamp : Calendar.datetime) (data : bytes) :
  well_formed self -> no_null (default EmptyString label) ->
  Calendar.valid_datetime stamp = true -> 1900 <= Calendar.year stamp ->
  exists head text r,
    Writer.write_file_head self label stamp = Ok head
    /\ Z.of_nat (length head) = 116 + 199 * Writer.nvar self
    /\ Writer.strftime stamp = Ok text
    /\ Reader.__init__ (head ++ data) Reader.latin_1 = Ok r
    /\ Reader.position r = Z.of_nat (length head)
    /\ Reader.format_version (Reader.hdr r) = 114
    /\ Reader.byteorder (Reader.hdr r) = Writer._byteorder self
    /\ Reader.nvar (Reader.hdr r) = Writer.nvar self
    /\ Reader.nobs (Reader.hdr r) = Writer.nobs self
    /\ Reader.data_label (Reader.hdr r) = Writer.prefix 80 (default EmptyString label)
    /\ Reader.time_stamp (Reader.hdr r) = text
    /\ map Some (Reader.typlist (Reader.hdr r)) = map TYPE_MAP (Writer.typlist self)
    /\ Reader.varlist (Reader.hdr r) = map (Writer.prefix 32) (Writer.varlist self)
    /\ Reader.fmtlist (Reader.hdr r) = Writer.fmtlist self
    /\ Reader.data_location (Reader.hdr r) = Z.of_nat (length head).
Proof.
  intros Hw Hl Hv Hy.
  destruct (strftime_text stamp Hv Hy) as (text & Ht & Htext).
  pose proof Hw as (Hnv & Hno & _ & _ & _ & Hcodes & _).
  destruct (pack_h_unpack_H (Writer._byteorder self) _ Hnv) as (nv & Pnv & Lnv & Unv).
  destruct (pack_i_unpack_I (Writer._byteorder self) _ Hno) as (no & Pno & Lno & Uno).
  destruct (writer_codes_read _ Hcodes) as (tl & dl & sizes & Htl & Hdl & Hsz & Hmap).
  set (head := head_of self nv no (default EmptyString label) text).
  exists head, text,
    (Reader.set_hdr
       (header_of self (default EmptyString label) text tl dl sizes (Z.of_nat (length head)))
       (st head data blank)).
  split; [apply written_head; assumption|].
  split; [apply head_length; assumption|].
  split; [exact Ht|].
  split.
  - unfold Reader.__init__.
    match goal with
    | |- context [Reader._read_header ?x] => change x with (st [] (head ++ data) blank)
    end.
    pose proof (read_written_header self nv no (default EmptyString label) text tl dl
                  sizes data blank Hw Hl Htext Lnv Unv Lno Uno Htl Hdl Hsz eq_refl) as R.
    cbv zeta in R. fold head in R. rewrite R. reflexivity.
  - repeat split; try reflexivity. exact Hmap.
Qed.

Definition two_columns : Writer.StataWriter :=
  {| Writer._byteorder := BigEndian; Writer.nvar := 2; Writer.nobs := 3;
     Writer.typlist := [251; 255]; Writer.varlist := ["x"; "price"];
     Writer.fmtlist := ["%8.0g"; "%10.0g"] |}.

Definition march_2014 : Calendar.datetime :=
  {| Calendar.year := 2014; Calendar.month := 3; Calendar.day := 1;
     Calendar.hour := 12; Calendar.minute := 30; Calendar.second := 0;
     Calendar.microsecond := 0 |}.

Lemma header_round_trip_witness :
  well_formed two_columns /\ no_null (default EmptyString (Some "cars"))
  /\ Calendar.valid_datetime march_2014 = true /\ 1900 <= Calendar.year march_2014
  /\ exists head text r,
    Writer.write_file_head two_columns (Some "cars") march_2014 = Ok head
    /\ Z.of_nat (length head) = 116 + 199 * Writer.nvar two_columns
    /\ Writer.strftime march_2014 = Ok text
    /\ Reader.__init__ (head ++ [1; 2; 3]) Reader.latin_1 = Ok r
    /\ Reader.position r = Z.of_nat (length head)
    /\ Reader.format_version (Reader.hdr r) = 114
    /\ Reader.byteorder (Reader.hdr r) = Writer._byteorder two_columns
    /\ Reader.nvar (Reader.hdr r) = Writer.nvar two_columns
    /\ Reader.nobs (Reader.hdr r) = Writer.nobs two_columns
    /\ Reader.data_label (Reader.hdr r)
       = Writer.prefix 80 (default EmptyString (Some "cars"))
    /\ Reader.time_stamp (Reader.hdr r) = text
    /\ map Some (Reader.typlist (Reader.hdr r)) = map TYPE_MAP (Writer.typlist two_columns)
    /\ Reader.varlist (Reader.hdr r)
       = map (Writer.prefix 32) (Writer.varlist two_columns)
    /\ Reader.fmtlist (Reader.hdr r) = Writer.fmtlist two_columns
    /\ Reader.data_location (Reader.hdr r) = Z.of_nat (length head).
Proof.
  assert (T : forall s, text_of (String.length s) s = true -> no_null s)
    by (intros s H; apply (text_of_spec _ _ H)).
  assert (H1 : well_formed two_columns).
  { unfold well_formed, two_columns. cbn.
    repeat split; try lia; repeat constructor; unfold writer_code; try lia;
      try (apply T; reflexivity); vm_compute; discriminate. }
  assert (H2 : no_null (default EmptyString (Some "cars"))) by (apply T; reflexivity).
  assert (H3 : Calendar.valid_datetime march_2014 = true) by reflexivity.
  assert (H4 : 1900 <= Calendar.year march_2014) by (cbn; lia).
  split; [exact H1|]. split; [exact H2|]. split; [exact H3|]. split; [exact H4|].
  exact (header_round_trip two_columns (Some "cars") march_2014 [1; 2; 3] H1 H2 H3 H4).
Defined.

End HeaderRoundTrip.

(** ** Type codes and formats of the columns *)

Section Descriptors.

Import Writer StataParser.

Lemma max_len_from (cells : list obj) (m : Z) :
  let f := fun m o => match o with OStr s => Z.max m (len s) | _ => m end in
  m <= fold_left f cells m
  /\ (forall s, In (OStr s) cells -> len s <= fold_left f cells m)
  /\ (fold_left f cells m = m \/ exists s, In (OStr s) cells /\ len s = fold_left f cells m).
Proof.
  intros f. revert m. induction cells as [|o cells IH]; intros m.
  - cbn. repeat split; [lia| intros s []| left; reflexivity].
  - cbn [fold_left]. destruct (IH (f m o)) as (H1 & H2 & H3).
    assert (Hm : m <= f m o) by (unfold f; destruct o; lia).
    split; [lia|]. split.
    + intros s [->|Hs]; [|apply H2, Hs]. unfold f in H1 at 1. lia.
    + destruct H3 as [H3|(s & Hs & H3)].
      * destruct o; try (left; rewrite H3; reflexivity).
        rewrite H3. change (f m (OStr s)) with (Z.max m (len s)).
        destruct (Z.max_spec m (len s)) as [[_ E]|[_ E]]; rewrite E;
          [right; exists s; split; [left; reflexivity|reflexivity]|left; reflexivity].
      * right. exists s. split; [right; exact Hs|exact H3].
Qed.

Lemma string_format_text (n : Z) :
  0 <= n < 245 ->
  (len ("%" +:+ pretty n +:+ "s") <=? 5)
  && forallb (fun b => negb (b =? 0)) (encode_bytewise ("%" +:+ pretty n +:+ "s")) = true.
Proof.
  apply (forallb_range
           (fun n => (len ("%" +:+ pretty n +:+ "s") <=? 5)
                     && forallb (fun b => negb (b =? 0))
                          (encode_bytewise ("%" +:+ pretty n +:+ "s"))) 0 245).
  vm_cast_no_check (eq_refl true).
Qed.

Lemma no_null_check (s : string) :
  forallb (fun b => negb (b =? 0)) (encode_bytewise s) = true -> no_null s.
Proof.
  intros H. apply List.Forall_forall. intros b Hb. rewrite forallb_forall in H.
  specialize (H b Hb). destruct (b =? 0) eqn:E; [discriminate|]. lia.
Qed.

(** X10.  Whatever [_dtype_to_stata_type] and
    [_dtype_to_default_stata_fmt] return for a column is a type code of
    the format, 244 for strings or 251 to 255, and a format without a null
    character of six characters at most: each fills one byte and one
    field of 49 bytes of the descriptors. *)
Theorem default_descriptors_fit (dt : dtype) (name : label) (column : series)
        (code : Z) (fmt : string) :
  _dtype_to_stata_type dt = Ok code ->
  _dtype_to_default_stata_fmt dt name column = Ok fmt ->
  (code = 244 \/ 251 <= code <= 255) /\ no_null fmt /\ len fmt <= 6.
Proof.
  intros Hc Hf.
  assert (T : forall s, (len s <=? 6) && forallb (fun b => negb (b =? 0)) (encode_bytewise s)
                        = true -> no_null s /\ len s <= 6).
  { intros s H. apply andb_prop in H. destruct H as [H1 H2].
    split; [apply no_null_check, H2|apply Z.leb_le, H1]. }
  destruct dt; try discriminate; cbn in Hc; injection Hc as <-;
    (split; [lia|]);
    try (cbn in Hf; injection Hf as <-; apply T; reflexivity).
  cbn [_dtype_to_default_stata_fmt] in Hf.
  destruct (negb _); [discriminate|].
  set (n := max_len_string_array _) in Hf.
  destruct (244 <? n) eqn:E; [discriminate|]. injection Hf as <-.
  apply Z.ltb_ge in E.
  assert (0 <= n) by apply (max_len_from _ 0).
  pose proof (string_format_text n ltac:(lia)) as H1.
  apply andb_prop in H1. destruct H1 as [H1 H2]. apply Z.leb_le in H1.
  split; [apply no_null_check, H2|lia].
Qed.

Lemma default_descriptors_fit_witness :
  _dtype_to_stata_type object_ = Ok 244
  /\ _dtype_to_default_stata_fmt object_ (LStr "make") (Object_ [OStr "AMC"; OStr "Buick"])
     = Ok "%5s"
  /\ (244 = 244 \/ 251 <= 244 <= 255) /\ no_null "%5s" /\ len "%5s" <= 6.
Proof.
  assert (H1 : _dtype_to_stata_type object_ = Ok 244) by reflexivity.
  assert (H2 : _dtype_to_default_stata_fmt object_ (LStr "make")
                 (Object_ [OStr "AMC"; OStr "Buick"]) = Ok "%5s") by reflexivity.
  split; [exact H1|]. split; [exact H2|].
  exact (default_descriptors_fit object_ (LStr "make") (Object_ [OStr "AMC"; OStr "Buick"])
           244 "%5s" H1 H2).
Defined.

Lemma inferred_string_spec (cells : list obj) :
  inferred_string cells = true <->
  (exists o, In o cells /\ StataDates.obj_isnull o = false)
  /\ (forall o, In o cells -> StataDates.obj_isnull o = false -> is_string o = true).
Proof.
  unfold inferred_string.
  set (left := List.filter (fun o => negb (StataDates.obj_isnull o)) cells).
  assert (Hl : forall o, In o left <-> In o cells /\ StataDates.obj_isnull o = false).
  { intros o. unfold left. rewrite List.filter_In.
    destruct (StataDates.obj_isnull o); cbn; intuition congruence. }
  rewrite andb_true_iff, negb_true_iff, Nat.eqb_neq, forallb_forall. split.
  - intros [H1 H2]. split.
    + destruct left as [|o left'] eqn:E; [contradiction H1; reflexivity|].
      exists o. apply Hl. left. reflexivity.
    + intros o Ho Hn. apply H2, Hl. split; assumption.
  - intros [(o & Ho & Hn) H2]. split.
    + intros E. apply length_zero_iff_nil in E.
      assert (Hin : In o left) by (apply Hl; split; assumption).
      rewrite E in Hin. exact Hin.
    + intros x Hx. apply Hl in Hx. destruct Hx as [Hx Hn']. apply H2; assumption.
Qed.

(** X11.  An object column with a string in it and nothing but strings
    and nulls gets the format ["%Ns"], [N] the length of its longest
    string; it is refused, with the name of the column in the message,
    when that length is above 244. *)
Theorem object_column_format (name : label) (cells : list obj) :
  (exists s, In (OStr s) cells) ->
  Forall (fun o => is_string o = true \/ StataDates.obj_isnull o = true) cells ->
  exists n s,
    In (OStr s) cells /\ len s = n
    /\ (forall t, In (OStr t) cells -> len t <= n)
    /\ _dtype_to_default_stata_fmt object_ name (Object_ cells)
       = if 244 <? n
         then Raise (ValueError (excessive_string_length_error (Names.text_type name)))
         else Ok ("%" +:+ pretty n +:+ "s").
Proof.
  intros (s0 & Hs0) Hall. rewrite List.Forall_forall in Hall.
  destruct (max_len_from cells 0) as (_ & Hle & Hmax). cbv zeta in Hle, Hmax.
  fold (max_len_string_array cells) in Hle, Hmax.
  assert (Hi : inferred_string cells = true).
  { apply inferred_string_spec. split.
    - exists (OStr s0). split; [exact Hs0|reflexivity].
    - intros o Ho Hn. destruct (Hall o Ho) as [H|H]; [exact H|congruence]. }
  assert (Hs : exists s, In (OStr s) cells /\ len s = max_len_string_array cells).
  { destruct Hmax as [E|H]; [|exact H]. exists s0. split; [exact Hs0|].
    specialize (Hle s0 Hs0). unfold len in *. lia. }
  destruct Hs as (s & Hs & En).
  exists (max_len_string_array cells), s. repeat split; try assumption.
  cbn [_dtype_to_default_stata_fmt]. rewrite Hi. reflexivity.
Qed.

Lemma object_column_format_witness :
  (exists s, In (OStr s) [OStr "AMC"; ONone; OStr "Buick"])
  /\ Forall (fun o => is_string o = true \/ StataDates.obj_isnull o = true)
       [OStr "AMC"; ONone; OStr "Buick"]
  /\ exists n s,
       In (OStr s) [OStr "AMC"; ONone; OStr "Buick"] /\ len s = n
       /\ (forall t, In (OStr t) [OStr "AMC"; ONone; OStr "Buick"] -> len t <= n)
       /\ _dtype_to_default_stata_fmt object_ (LStr "make")
            (Object_ [OStr "AMC"; ONone; OStr "Buick"])
          = if 244 <? n
            then Raise (ValueError
                          (excessive_string_length_error (Names.text_type (LStr "make"))))
            else Ok ("%" +:+ pretty n +:+ "s").
Proof.
  assert (H1 : exists s, In (OStr s) [OStr "AMC"; ONone; OStr "Buick"])
    by (exists "AMC"; left; reflexivity).
  assert (H2 : Forall (fun o => is_string o = true \/ StataDates.obj_isnull o = true)
                 [OStr "AMC"; ONone; OStr "Buick"]).
  { constructor; [left; reflexivity|]. constructor; [right; reflexivity|].
    constructor; [left; reflexivity|]. constructor. }
  split; [exact H1|]. split; [exact H2|].
  exact (object_column_format (LStr "make") [OStr "AMC"; ONone; OStr "Buick"] H1 H2).
Defined.

(** X12.  An object column that is not empty is refused when dropping
    the nulls leaves nothing of it, or leaves a cell that is no string. *)
Theorem object_column_refused (name : label) (cells : list obj) :
  cells <> [] ->
  Forall (fun o => StataDates.obj_isnull o = true) cells
  \/ Exists (fun o => StataDates.obj_isnull o = false /\ is_string o = false) cells ->
  _dtype_to_default_stata_fmt object_ name (Object_ cells)
  = Raise (ValueError "Writing general object arrays is not supported").
Proof.
  intros Hne H.
  assert (Hi : inferred_string cells = false).
  { destruct (inferred_string cells) eqn:E; [|reflexivity].
    apply inferred_string_spec in E. destruct E as [(o & Ho & Hn) Hs].
    destruct H as [H|H].
    - rewrite List.Forall_forall in H. specialize (H o Ho). congruence.
    - apply List.Exists_exists in H. destruct H as (x & Hx & Hn' & Hs').
      specialize (Hs x Hx Hn'). congruence. }
  cbn [_dtype_to_default_stata_fmt]. rewrite Hi.
  destruct cells; [contradiction Hne; reflexivity|]. reflexivity.
Qed.

Lemma object_column_refused_witness :
  [OStr "AMC"; ONum (PyNum.PyInt 3)] <> []
  /\ (Forall (fun o => StataDates.obj_isnull o = true) [OStr "AMC"; ONum (PyNum.PyInt 3)]
      \/ Exists (fun o => StataDates.obj_isnull o = false /\ is_string o = false)
           [OStr "AMC"; ONum (PyNum.PyInt 3)])
  /\ _dtype_to_default_stata_fmt object_ (LStr "make")
       (Object_ [OStr "AMC"; ONum (PyNum.PyInt 3)])
     = Raise (ValueError "Writing general object arrays is not supported").
Proof.
  assert (H1 : [OStr "AMC"; ONum (PyNum.PyInt 3)] <> []) by discriminate.
  assert (H2 : Forall (fun o => StataDates.obj_isnull o = true)
                 [OStr "AMC"; ONum (PyNum.PyInt 3)]
               \/ Exists (fun o => StataDates.obj_isnull o = false /\ is_string o = false)
                    [OStr "AMC"; ONum (PyNum.PyInt 3)]).
  { right. apply Exists_cons_tl. apply Exists_cons_hd. split; reflexivity. }
  split; [exact H1|]. split; [exact H2|].
  exact (object_column_refused (LStr "make") [OStr "AMC"; ONum (PyNum.PyInt 3)] H1 H2).
Defined.

End Descriptors.

(** ** The keys of [convert_dates] *)

Section ConvertDatesKeys.

Import Writer Names.

(** The format of a key after the call: with its ["%"]. *)
Definition percent (fmt : string) : string :=
  if negb (startswith_percent fmt) then "%" +:+ fmt else fmt.

(** A key the function accepts: the label of a column, or an integer. *)
Definition key_ok (varlist : list label) (kv : label * string) : Prop :=
  In (fst kv) varlist \/ exists k, fst kv = LInt k.

Lemma index_spec (key : label) (varlist : list label) :
  match index key varlist with
  | Some i => 0 <= i /\ nth_error varlist (Z.to_nat i) = Some key
  | None => ~ In key varlist
  end.
Proof.
  induction varlist as [|v varlist IH]; cbn [index]; [tauto|].
  destruct (label_eqb key v) eqn:E.
  - apply label_eqb_eq in E. subst v. split; [lia|reflexivity].
  - assert (key <> v) by (intros ->; rewrite (proj2 (label_eqb_eq v v) eq_refl) in E;
                          discriminate).
    destruct (index key varlist) as [i|]; cbn [option_map].
    + destruct IH as [H0 H1]. split; [lia|].
      replace (Z.to_nat (Z.succ i)) with (S (Z.to_nat i)) by lia. exact H1.
    + intros [->|Hin]; [congruence|tauto].
Qed.

Lemma index_In (key : label) (varlist : list label) :
  In key varlist -> exists i, index key varlist = Some i.
Proof.
  intros H. pose proof (index_spec key varlist) as S.
  destruct (index key varlist) as [i|]; [eauto|contradiction].
Qed.

Lemma index_inj (k1 k2 : label) (varlist : list label) (i : Z) :
  index k1 varlist = Some i -> index k2 varlist = Some i -> k1 = k2.
Proof.
  intros H1 H2. pose proof (index_spec k1 varlist) as S1.
  pose proof (index_spec k2 varlist) as S2. rewrite H1 in S1. rewrite H2 in S2.
  destruct S1 as [_ S1], S2 as [_ S2]. congruence.
Qed.

Lemma int_keys_accepted (convert_dates : list (label * string)) (varlist : list label)
      (new_dict : gmap Z string) :
  Forall (key_ok varlist) convert_dates ->
  exists d, _maybe_convert_to_int_keys convert_dates varlist new_dict
            = Ok (d, map (fun kv => (fst kv, percent (snd kv))) convert_dates).
Proof.
  intros H. revert new_dict. induction H as [|[key fmt] rest Hk _ IH]; intros new_dict.
  - exists new_dict. reflexivity.
  - cbn [_maybe_convert_to_int_keys map fst snd]. fold (percent fmt).
    destruct (index key varlist) as [i|] eqn:E.
    + destruct (IH (<[i := percent fmt]> new_dict)) as [d ->]. exists d. reflexivity.
    + destruct Hk as [Hk|[k Hk]]; cbn [fst] in Hk.
      * pose proof (index_spec key varlist) as S. rewrite E in S. contradiction.
      * subst key. destruct (IH (<[k := percent fmt]> new_dict)) as [d ->].
        exists d. reflexivity.
Qed.

Lemma int_keys_refused (convert_dates : list (label * string)) (varlist : list label)
      (new_dict : gmap Z string) :
  Exists (fun kv => ~ key_ok varlist kv) convert_dates ->
  _maybe_convert_to_int_keys convert_dates varlist new_dict
  = Raise (ValueError "convert_dates key is not in varlist and is not an int").
Proof.
  revert new_dict. induction convert_dates as [|[key fmt] rest IH]; intros new_dict H.
  - inversion H.
  - cbn [_maybe_convert_to_int_keys]. fold (percent fmt).
    assert (Hrest : forall k, key_ok varlist (key, fmt) ->
              rbind (_maybe_convert_to_int_keys rest varlist (<[k := percent fmt]> new_dict))
                    (fun '(d, rest') => Ok (d, (key, percent fmt) :: rest'))
              = Raise (ValueError "convert_dates key is not in varlist and is not an int")).
    { intros k Hk. rewrite IH; [reflexivity|].
      inversion H as [? ? Hbad|? ? Hbad]; subst; [contradiction|exact Hbad]. }
    pose proof (index_spec key varlist) as S.
    destruct (index key varlist) as [i|].
    + apply Hrest. left. cbn [fst]. destruct S as [_ S]. eapply nth_error_In, S.
    + destruct key as [s|k]; [reflexivity|].
      apply Hrest. right. exists k. reflexivity.
Qed.

(** X13.  [_maybe_convert_to_int_keys] returns when every key of
    [convert_dates] is the label of a column or an integer, and then
    every format of the dictionary that was passed starts with ["%"];
    with any other key it raises its [ValueError]. *)
Theorem convert_dates_keys (convert_dates : list (label * string))
        (varlist : list label) :
  (Forall (key_ok varlist) convert_dates ->
   exists d, _maybe_convert_to_int_keys convert_dates varlist ∅
             = Ok (d, map (fun kv => (fst kv, percent (snd kv))) convert_dates)
             /\ Forall (fun kv => startswith_percent (percent (snd kv)) = true)
                  convert_dates)
  /\ (~ Forall (key_ok varlist) convert_dates ->
      _maybe_convert_to_int_keys convert_dates varlist ∅
      = Raise (ValueError "convert_dates key is not in varlist and is not an int")).
Proof.
  split.
  - intros H. destruct (int_keys_accepted convert_dates varlist ∅ H) as [d Hd].
    exists d. split; [exact Hd|]. apply List.Forall_forall. intros [k fmt] _.
    cbn [snd]. unfold percent. destruct (startswith_percent fmt) eqn:E; [exact E|reflexivity].
  - intros H. apply int_keys_refused. apply List.neg_Forall_Exists_neg; [|exact H].
    intros [key fmt]. unfold key_ok. cbn [fst].
    pose proof (index_spec key varlist) as S.
    destruct (index key varlist) as [i|].
    + left. left. destruct S as [_ S]. eapply nth_error_In, S.
    + destruct key as [s|k].
      * right. intros [Hin|[k Hk]]; [contradiction|discriminate].
      * left. right. exists k. reflexivity.
Qed.

Lemma int_keys_lookup (convert_dates : list (label * string)) (varlist : list label)
      (new_dict d : gmap Z string) (cd' : list (label * string)) :
  List.NoDup (map fst convert_dates) ->
  Forall (fun kv => In (fst kv) varlist) convert_dates ->
  _maybe_convert_to_int_keys convert_dates varlist new_dict = Ok (d, cd') ->
  forall i f,
    d !! i = Some f <->
    (exists key fmt, In (key, fmt) convert_dates /\ index key varlist = Some i
                     /\ f = percent fmt)
    \/ (new_dict !! i = Some f
        /\ forall key fmt, In (key, fmt) convert_dates -> index key varlist <> Some i).
Proof.
  revert new_dict d cd'.
  induction convert_dates as [|[key fmt] rest IH]; intros new_dict d cd' Hnd Hin Hr i f.
  - cbn in Hr. injection Hr as <- <-. split.
    + intros H. right. split; [exact H|]. intros ? ? [].
    + intros [(? & ? & [] & _)|[H _]]. exact H.
  - cbn [_maybe_convert_to_int_keys] in Hr. fold (percent fmt) in Hr.
    inversion Hnd as [|? ? Hfresh Hnd']; subst.
    inversion Hin as [|? ? Hk Hin']; subst. cbn [fst] in Hk, Hfresh.
    destruct (index_In key varlist Hk) as [i0 E0]. rewrite E0 in Hr.
    destruct (_maybe_convert_to_int_keys rest varlist (<[i0 := percent fmt]> new_dict))
      as [[d0 rest0]| |] eqn:Er; try discriminate.
    cbn in Hr. injection Hr as <- <-.
    assert (Hother : forall key' fmt', In (key', fmt') rest ->
                                       index key' varlist <> Some i0).
    { intros key' fmt' H' E'. apply Hfresh.
      rewrite (index_inj key key' varlist i0 E0 E'). apply in_map_iff.
      exists (key', fmt'). split; [reflexivity|exact H']. }
    rewrite (IH _ _ _ Hnd' Hin' Er i f). split.
    + intros [(k & g & Hkg & Ei & ->)|[Hl Hno]].
      * left. exists k, g. split; [right; exact Hkg|]. split; [exact Ei|reflexivity].
      * destruct (decide (i0 = i)) as [->|Hne].
        -- rewrite lookup_insert in Hl. 
           left. exists key, fmt. split; [left; reflexivity|]. split; [exact E0|].
           destruct (decide (i = i)); [|contradiction]. congruence.
        -- rewrite lookup_insert_ne in Hl by exact Hne. right. split; [exact Hl|].
           intros k g [Hkg|Hkg]; [injection Hkg as <- <-; congruence|apply (Hno k g Hkg)].
    + intros [(k & g & [Hkg|Hkg] & Ei & ->)|[Hl Hno]].
      * injection Hkg as <- <-. right. rewrite E0 in Ei. injection Ei as <-. split.
        -- rewrite lookup_insert. destruct (decide (i0 = i0)); [reflexivity|contradiction].
        -- exact Hother.
      * left. exists k, g. split; [exact Hkg|]. split; [exact Ei|reflexivity].
      * right. assert (Hne : i0 <> i).
        { intros ->. apply (Hno key fmt); [left; reflexivity|exact E0]. }
        split; [rewrite lookup_insert_ne by exact Hne; exact Hl|].
        intros k g Hkg. apply (Hno k g). right. exact Hkg.
Qed.

(** X14.  With the labels of columns as its keys, no label twice,
    [_maybe_convert_to_int_keys] returns the dictionary that holds under
    [varlist.index(key)] the format of each key, with its ["%"], and
    nothing else. *)
Theorem convert_dates_positions (convert_dates : list (label * string))
        (varlist : list label) :
  List.NoDup (map fst convert_dates) ->
  Forall (fun kv => In (fst kv) varlist) convert_dates ->
  exists d cd',
    _maybe_convert_to_int_keys convert_dates varlist ∅ = Ok (d, cd')
    /\ forall i f,
         d !! i = Some f <->
         exists key fmt, In (key, fmt) convert_dates
                         /\ index key varlist = Some i /\ f = percent fmt.
Proof.
  intros Hnd Hin.
  assert (Hok : Forall (key_ok varlist) convert_dates)
    by (eapply List.Forall_impl; [|exact Hin]; intros kv H; left; exact H).
  destruct (int_keys_accepted convert_dates varlist ∅ Hok) as [d Hd].
  exists d. eexists. split; [exact Hd|]. intros i f.
  rewrite (int_keys_lookup _ _ _ _ _ Hnd Hin Hd i f). split.
  - intros [H|[Hl _]]; [exact H|rewrite lookup_empty in Hl; discriminate].
  - intros H. left. exact H.
Qed.

Lemma convert_dates_positions_witness :
  List.NoDup (map fst [(LStr "born", "td"); (LStr "seen", "%tc")])
  /\ Forall (fun kv => In (fst kv) [LStr "id"; LStr "born"; LStr "seen"])
       [(LStr "born", "td"); (LStr "seen", "%tc")]
  /\ exists d cd',
       _maybe_convert_to_int_keys [(LStr "born", "td"); (LStr "seen", "%tc")]
         [LStr "id"; LStr "born"; LStr "seen"] ∅ = Ok (d, cd')
       /\ forall i f,
            d !! i = Some f <->
            exists key fmt, In (key, fmt) [(LStr "born", "td"); (LStr "seen", "%tc")]
                            /\ index key [LStr "id"; LStr "born"; LStr "seen"] = Some i
                            /\ f = percent fmt.
Proof.
  assert (H1 : List.NoDup (map fst [(LStr "born", "td"); (LStr "seen", "%tc")])).
  { cbn. constructor; [intros [H|[]]; discriminate|].
    constructor; [intros []|constructor]. }
  assert (H2 : Forall (fun kv => In (fst kv) [LStr "id"; LStr "born"; LStr "seen"])
                 [(LStr "born", "td"); (LStr "seen", "%tc")]).
  { constructor; [cbn; tauto|]. constructor; [cbn; tauto|constructor]. }
  split; [exact H1|]. split; [exact H2|].
  exact (convert_dates_positions [(LStr "born", "td"); (LStr "seen", "%tc")]
           [LStr "id"; LStr "born"; LStr "seen"] H1 H2).
Defined.

End ConvertDatesKeys.

(** ** Files the reader refuses *)

Section Versions.

Import Reader Struct.

(** X15.  A file whose first byte is neither ["<"] nor one of 104, 105,
    108, 113, 114 and 115 is refused by [StataReader] with the
    [ValueError] about the version, whatever follows that byte and
    whatever the encoding; an empty file ends [__init__] with the
    [struct.error] of [struct.unpack('c', first_char)]. *)
Theorem unknown_version_is_refused (c : Z) (rest : bytes)
        (encoding : bytes -> result string) :
  0 <= c < 256 -> c <> 60 -> ~ In c legacy_versions ->
  __init__ (c :: rest) encoding = Raise version_error
  /\ __init__ [] encoding = Raise StructError.
Proof.
  intros Hc H60 Hv. split; [|reflexivity].
  unfold __init__, _read_header.
  set (self := {| path_or_buf := c :: rest |}).
  assert (Hr : read 1 self = (Ok [c], set_stream (c :: rest) 1 self)) by reflexivity.
  rewrite (bind_ok _ _ _ _ _ Hr). unfold bind at 1, lift at 1. cbn [unpack_c].
  destruct (c =? 60) eqn:E; [apply Z.eqb_eq in E; contradiction|].
  unfold _read_header_legacy, bind at 1, lift at 1.
  assert (Hu : unpack_b [c] = Ok (to_signed 8 c)).
  { unfold unpack_b, unpack_signed. cbn [length Nat.eqb value le_value].
    do 2 f_equal. lia. }
  rewrite Hu.
  assert (Hn : existsb (Z.eqb (to_signed 8 c)) legacy_versions = false).
  { unfold to_signed. cbn in Hv. change (2 ^ (8 - 1)) with 128. change (2 ^ 8) with 256.
    destruct (c <? 128) eqn:E1; [apply Z.ltb_lt in E1|apply Z.ltb_ge in E1];
      cbn [existsb legacy_versions];
      repeat match goal with
             | |- context [?a =? ?b] =>
                 let E := fresh in destruct (a =? b) eqn:E;
                 [apply Z.eqb_eq in E; exfalso; lia|clear E]
             end; reflexivity. }
  rewrite Hn. reflexivity.
Qed.

Lemma unknown_version_is_refused_witness :
  0 <= 116 < 256 /\ 116 <> 60 /\ ~ In 116 legacy_versions
  /\ __init__ (116 :: [2; 1; 0]) latin_1 = Raise version_error
  /\ __init__ [] latin_1 = Raise StructError.
Proof.
  assert (H1 : 0 <= 116 < 256) by lia.
  assert (H2 : 116 <> 60) by lia.
  assert (H3 : ~ In 116 legacy_versions) by (cbn; lia).
  split; [exact H1|]. split; [exact H2|]. split; [exact H3|].
  exact (unknown_version_is_refused 116 [2; 1; 0] latin_1 H1 H2 H3).
Defined.

End Versions.

(** ** The round trip of dates and nulls, as claimed *)

Section DateCodecClaim.

Import Calendar StataDates DateTag.

(** The decoder after the missing-value pass of the reader on a column
    of doubles. *)
Definition read_dates (sif : series) (fmt : string) : result series :=
  rbind (Reader.replace_missing false StataParser.Td sif)
        (fun sif => _stata_elapsed_date_to_datetime_vec sif fmt).

(** C1, as the code has it.  For every tag, under both of its
    spellings: a non-empty column of dates that lie in the range of the
    tag and on its grid is encoded and decoded back to itself; in a
    non-empty column of such dates and nulls the encoder stores
    [0x7fe0000000000000] for every null and the count of the tag for
    every date, and, for every tag but [ty], the decoder gives the column
    back, nulls included, once the missing-value pass of the reader has
    made the pattern NaN; under [ty] a null comes back as [NaT] in an
    object column. *)
Theorem date_codec_round_trip (g : DateTag.t) (fmt : string) (dates : list datetime)
        (cells : list (option datetime)) :
  In fmt (spellings g) -> dates <> [] -> cells <> [] ->
  Forall (fun x => in_range g x = true /\ on_grid g x = true) dates ->
  Forall (cell_in_range g) cells ->
  rbind (_datetime_to_stata_elapsed_vec (Datetime64 (map to_datetime64 dates)) fmt)
        (fun sif => _stata_elapsed_date_to_datetime_vec sif fmt)
  = Ok (Datetime64 (map to_datetime64 dates))
  /\ _datetime_to_stata_elapsed_vec (Datetime64 (map date_cell cells)) fmt
     = Ok (Float64 (map (stored_cell g) cells))
  /\ (g <> ty ->
      rbind (_datetime_to_stata_elapsed_vec (Datetime64 (map date_cell cells)) fmt)
            (fun sif => read_dates sif fmt)
      = Ok (Datetime64 (map date_cell cells)))
  /\ (g = ty ->
      rbind (_datetime_to_stata_elapsed_vec (Datetime64 [NaT]) fmt)
            (fun sif => read_dates sif fmt)
      = Ok (Object_ [ONaT])).
Proof.
  intros Hfmt Hne Hne' Hl Hl'.
  assert (Hc : Forall (cell_ok g) dates).
  { eapply List.Forall_impl; [|exact Hl]. intros x [H1 H2]. apply cell_on_grid; assumption. }
  assert (Hc' : Forall (fun o => match o with Some x => cell_ok g x | None => True end) cells).
  { eapply List.Forall_impl; [|exact Hl']. intros [x|]; [|trivial].
    intros [H1 H2]. apply cell_on_grid; assumption. }
  rewrite List.Forall_forall in Hc, Hc'.
  assert (He : _datetime_to_stata_elapsed_vec (Datetime64 (map date_cell cells)) fmt
               = Ok (Float64 (map (stored_cell g) cells))).
  { rewrite (encode_datetime64 g fmt _ Hfmt). rewrite map_map. f_equal. f_equal.
    apply map_ext_in. intros o Ho. specialize (Hc' o Ho).
    destruct o as [x|]; cbn [date_cell stored_cell]; [|reflexivity].
    destruct Hc' as (Ha & Hb & _). cbv zeta in Ha, Hb. rewrite Ha, Hb. reflexivity. }
  split; [|split; [exact He|split]].
  - rewrite (encode_datetime64 g fmt _ Hfmt). cbn [rbind]. rewrite map_map.
    assert (Hw : map (fun x => if NaT =? to_datetime64 x then missing_date
                               else enc_cell g (to_datetime64 x)) dates
                 = map (fun x => of_int (sif g x)) dates).
    { apply map_ext_in. intros x Hx.
      destruct (Hc x Hx) as (Ha & Hb & _). cbv zeta in Ha, Hb. rewrite Ha, Hb. reflexivity. }
    rewrite Hw. rewrite (decode_float64 g fmt _ Hfmt).
    + f_equal. f_equal. rewrite map_map. apply map_ext_in. intros x Hx.
      destruct (Hc x Hx) as (_ & _ & Hb & _ & Hd).
      destruct (dec_of_int _ Hb) as (Hn & Hi & _). rewrite Hn, Hi. exact Hd.
    + apply map_nonempty, Hne.
    + rewrite List.Forall_map. apply List.Forall_forall. intros x Hx.
      destruct (Hc x Hx) as (_ & _ & Hb & Hd & _). destruct (dec_of_int _ Hb) as (_ & _ & Hi).
      rewrite Hi. exact Hd.
  - intros Hg. rewrite He. cbn [rbind]. unfold read_dates. rewrite missing_pass.
    2:{ apply List.Forall_forall. intros o Ho. specialize (Hc' o Ho).
        destruct o as [x|]; [|trivial]. destruct Hc' as (_ & _ & Hb & _). exact Hb. }
    cbn [rbind]. rewrite (decode_float64 g fmt _ Hfmt).
    + f_equal. f_equal. rewrite map_map. apply map_ext_in. intros o Ho.
      specialize (Hc' o Ho). destruct o as [x|]; cbn [read_cell date_cell]; [|reflexivity].
      destruct Hc' as (_ & _ & Hb & _ & Hd).
      destruct (dec_of_int _ Hb) as (Hn & Hi & _). rewrite Hn, Hi. exact Hd.
    + apply map_nonempty, Hne'.
    + rewrite List.Forall_map. apply List.Forall_forall. intros o Ho.
      specialize (Hc' o Ho). destruct o as [x|]; cbn [read_cell].
      * destruct Hc' as (_ & _ & Hb & Hd & _). destruct (dec_of_int _ Hb) as (_ & _ & Hi).
        rewrite Hi. exact Hd.
      * destruct g; try contradiction; vm_compute; reflexivity.
  - intros ->. cbn [spellings In] in Hfmt.
    destruct Hfmt as [<-|[<-|[]]]; vm_compute; reflexivity.
Qed.

Lemma date_codec_round_trip_witness :
  In "td" (spellings td) /\ [mk_date 2001 2 3] <> []
  /\ [Some (mk_date 2001 2 3); None] <> []
  /\ Forall (fun x => in_range td x = true /\ on_grid td x = true) [mk_date 2001 2 3]
  /\ Forall (cell_in_range td) [Some (mk_date 2001 2 3); None]
  /\ rbind (_datetime_to_stata_elapsed_vec
              (Datetime64 (map to_datetime64 [mk_date 2001 2 3])) "td")
           (fun sif => _stata_elapsed_date_to_datetime_vec sif "td")
     = Ok (Datetime64 (map to_datetime64 [mk_date 2001 2 3]))
  /\ _datetime_to_stata_elapsed_vec
       (Datetime64 (map date_cell [Some (mk_date 2001 2 3); None])) "td"
     = Ok (Float64 (map (stored_cell td) [Some (mk_date 2001 2 3); None]))
  /\ (td <> ty ->
      rbind (_datetime_to_stata_elapsed_vec
               (Datetime64 (map date_cell [Some (mk_date 2001 2 3); None])) "td")
            (fun sif => read_dates sif "td")
      = Ok (Datetime64 (map date_cell [Some (mk_date 2001 2 3); None])))
  /\ (td = ty ->
      rbind (_datetime_to_stata_elapsed_vec (Datetime64 [NaT]) "td")
            (fun sif => read_dates sif "td")
      = Ok (Object_ [ONaT])).
Proof.
  assert (H1 : In "td" (spellings td)) by (right; left; reflexivity).
  assert (H2 : [mk_date 2001 2 3] <> []) by discriminate.
  assert (H3 : [Some (mk_date 2001 2 3); None] <> []) by discriminate.
  assert (H4 : Forall (fun x => in_range td x = true /\ on_grid td x = true)
                 [mk_date 2001 2 3]) by (repeat constructor).
  assert (H5 : Forall (cell_in_range td) [Some (mk_date 2001 2 3); None])
    by (repeat constructor).
  repeat (split; [assumption|]).
  exact (date_codec_round_trip td "td" [mk_date 2001 2 3] [Some (mk_date 2001 2 3); None]
           H1 H2 H3 H4 H5).
Defined.

(** C1 as stated fails twice.  The first of February 1960 is a date in
    the range of [ty]; its year is stored and the first of January comes
    back.  The pattern that stands for a null is the finite double
    [2 ^ 1023]: the decoder, which knows NaN only, takes it for a count
    of days and raises. *)
Lemma date_off_grid_and_bare_pattern :
  in_range ty (mk_date 1960 2 1) = true
  /\ rbind (_datetime_to_stata_elapsed_vec
              (Datetime64 [to_datetime64 (mk_date 1960 2 1)]) "ty")
           (fun sif => _stata_elapsed_date_to_datetime_vec sif "ty")
     = Ok (Datetime64 [to_datetime64 (mk_date 1960 1 1)])
  /\ to_datetime64 (mk_date 1960 1 1) <> to_datetime64 (mk_date 1960 2 1)
  /\ _datetime_to_stata_elapsed_vec (Datetime64 [NaT]) "td" = Ok (Float64 [missing_date])
  /\ Float.is_nan Float.binary64 missing_date = false
  /\ exists e, _stata_elapsed_date_to_datetime_vec (Float64 [missing_date]) "td" = Raise e.
Proof.
  split; [reflexivity|]. split; [vm_compute; reflexivity|].
  split; [vm_compute; discriminate|]. split; [vm_compute; reflexivity|].
  split; [reflexivity|]. eexists. vm_compute. reflexivity.
Qed.

End DateCodecClaim.
